(** * Step-approval workflow: shallow embedding of the server routes

    The server keeps jobs, steps, uploads and reviews in Postgres tables
    (shared/schema.ts) accessed through [DatabaseStorage] (server/storage.ts),
    and the workflow lives in the Express handlers of server/routes.ts
    (the current version, with the next-step activation logic in
    POST /api/reviews).  The tables are modelled as lists in insertion order,
    each serial primary key as a counter, and every handler as a function
    [request -> DB -> response * DB].  Status columns are varchar in the
    schema and are kept as strings here. *)

From Stdlib Require Import List String ZArith Bool Lia Sorting.Sorted.
Import ListNotations.

Open Scope string_scope.
Open Scope Z_scope.
Open Scope list_scope.

(** ** Rows (shared/schema.ts) *)

Record User := mkUser {
  user_id : string;
  user_role : string   (* 'manager' or 'worker' *)
}.

Record Job := mkJob {
  job_id : Z;
  job_title : string;
  job_description : option string;
  job_managerId : string;
  job_workerId : string;
  job_status : string
}.

Record Step := mkStep {
  step_id : Z;
  step_jobId : Z;
  step_title : string;
  step_description : option string;
  step_instructions : option string;
  step_order : Z;
  step_status : string
}.

Record Upload := mkUpload {
  upload_id : Z;
  upload_stepId : Z;
  upload_workerId : string;
  upload_filename : string;
  upload_originalName : string;
  upload_mimeType : string;
  upload_size : Z
}.

Record Review := mkReview {
  review_id : Z;
  review_uploadId : Z;
  review_managerId : string;
  review_status : string;
  review_feedback : option string
}.

(** The database: one list per table, one serial sequence per table. *)
Record DB := mkDB {
  db_users : list User;
  db_jobs : list Job;
  db_steps : list Step;
  db_uploads : list Upload;
  db_reviews : list Review;
  seq_jobs : Z;
  seq_steps : Z;
  seq_uploads : Z;
  seq_reviews : Z
}.

(** ** DatabaseStorage (server/storage.ts) *)

Definition getUser (db : DB) (id : string) : option User :=
  find (fun u => String.eqb (user_id u) id) (db_users db).

(** [INSERT INTO jobs ... RETURNING]: the serial id is the next value of the
    sequence. *)
Definition createJob (db : DB) (title : string) (description : option string)
    (workerId managerId status : string) : Job * DB :=
  let j := mkJob (seq_jobs db) title description managerId workerId status in
  (j, mkDB (db_users db) (db_jobs db ++ [j]) (db_steps db) (db_uploads db)
           (db_reviews db) (seq_jobs db + 1) (seq_steps db) (seq_uploads db)
           (seq_reviews db)).

Definition getJob (db : DB) (id : Z) : option Job :=
  find (fun j => Z.eqb (job_id j) id) (db_jobs db).

Definition set_job_status (id : Z) (status : string) (j : Job) : Job :=
  if Z.eqb (job_id j) id
  then mkJob (job_id j) (job_title j) (job_description j) (job_managerId j)
             (job_workerId j) status
  else j.

(** [UPDATE jobs SET status = ... WHERE id = ...] *)
Definition updateJobStatus (db : DB) (id : Z) (status : string) : DB :=
  mkDB (db_users db) (map (set_job_status id status) (db_jobs db)) (db_steps db)
       (db_uploads db) (db_reviews db) (seq_jobs db) (seq_steps db)
       (seq_uploads db) (seq_reviews db).

Definition createStep (db : DB) (jobId : Z) (title : string)
    (description instructions : option string) (order : Z) (status : string)
    : Step * DB :=
  let s := mkStep (seq_steps db) jobId title description instructions order status in
  (s, mkDB (db_users db) (db_jobs db) (db_steps db ++ [s]) (db_uploads db)
           (db_reviews db) (seq_jobs db) (seq_steps db + 1) (seq_uploads db)
           (seq_reviews db)).

Definition getStep (db : DB) (id : Z) : option Step :=
  find (fun s => Z.eqb (step_id s) id) (db_steps db).

(** [ORDER BY "order" ASC] and [Array.prototype.sort((a, b) => a.order - b.order)]:
    a stable sort on [step_order] (insertion sort; an element goes before
    the first element whose order is not smaller). *)
Fixpoint insert_by_order (x : Step) (l : list Step) : list Step :=
  match l with
  | [] => [x]
  | y :: l' => if Z.leb (step_order x) (step_order y) then x :: y :: l'
               else y :: insert_by_order x l'
  end.

Fixpoint sort_by_order (l : list Step) : list Step :=
  match l with
  | [] => []
  | x :: l' => insert_by_order x (sort_by_order l')
  end.

Definition getStepsByJob (db : DB) (jobId : Z) : list Step :=
  sort_by_order (filter (fun s => Z.eqb (step_jobId s) jobId) (db_steps db)).

Definition set_step_status (id : Z) (status : string) (s : Step) : Step :=
  if Z.eqb (step_id s) id
  then mkStep (step_id s) (step_jobId s) (step_title s) (step_description s)
              (step_instructions s) (step_order s) status
  else s.

(** [UPDATE steps SET status = ... WHERE id = ...] *)
Definition updateStepStatus (db : DB) (id : Z) (status : string) : DB :=
  mkDB (db_users db) (db_jobs db) (map (set_step_status id status) (db_steps db))
       (db_uploads db) (db_reviews db) (seq_jobs db) (seq_steps db)
       (seq_uploads db) (seq_reviews db).

Definition createUpload (db : DB) (stepId : Z) (workerId filename originalName
    mimeType : string) (size : Z) : Upload * DB :=
  let u := mkUpload (seq_uploads db) stepId workerId filename originalName mimeType size in
  (u, mkDB (db_users db) (db_jobs db) (db_steps db) (db_uploads db ++ [u])
           (db_reviews db) (seq_jobs db) (seq_steps db) (seq_uploads db + 1)
           (seq_reviews db)).

Definition getUpload (db : DB) (id : Z) : option Upload :=
  find (fun u => Z.eqb (upload_id u) id) (db_uploads db).

Definition createReview (db : DB) (uploadId : Z) (managerId status : string)
    (feedback : option string) : Review * DB :=
  let r := mkReview (seq_reviews db) uploadId managerId status feedback in
  (r, mkDB (db_users db) (db_jobs db) (db_steps db) (db_uploads db)
           (db_reviews db ++ [r]) (seq_jobs db) (seq_steps db) (seq_uploads db)
           (seq_reviews db + 1)).

(** [getWorkerCurrentStep] runs two [findFirst] queries, each a [LIMIT 1]
    query.  The job query has no [orderBy], so Postgres may return any
    job of the worker with stored status in_progress; the step query orders
    by [steps.order] only, so among the job's steps that are not approved
    it may return any one of least order.  The model lists every result the
    two queries can give; the result is [undefined] ([None]) alone when no
    job matches. *)
Definition is_active_job (workerId : string) (j : Job) : bool :=
  String.eqb (job_workerId j) workerId && String.eqb (job_status j) "in_progress".

(** The step query for a chosen job: [where: and(eq(steps.jobId, ...),
    ne(steps.status, "approved"))], [orderBy: asc(steps.order)]. *)
Definition current_step_choices (db : DB) (activeJob : Job) : list (option Step) :=
  let candidates := filter (fun s => Z.eqb (step_jobId s) (job_id activeJob)
                                     && negb (String.eqb (step_status s) "approved"))
                           (db_steps db) in
  match candidates with
  | [] => [None]
  | _ => map Some (filter (fun s => forallb (fun y => Z.leb (step_order s) (step_order y))
                                            candidates) candidates)
  end.

Definition getWorkerCurrentStep (db : DB) (workerId : string) : list (option Step) :=
  match filter (is_active_job workerId) (db_jobs db) with
  | [] => [None]
  | activeJobs => flat_map (current_step_choices db) activeJobs
  end.

(** ** Route handlers (server/routes.ts) *)

(** What a handler sends back: [res.json(...)] of a row, or
    [res.status(code).json({ message })]. *)
Inductive Response :=
| json_job (j : option Job)
| json_upload (u : Upload)
| json_review (r : Review)
| error (code : Z) (message : string).

(** JavaScript truthiness of an optional string field of [req.body]:
    [undefined] and [""] are falsy. *)
Definition falsy_str (o : option string) : bool :=
  match o with None => true | Some s => String.eqb s "" end.

(** [!user || user.role !== role] *)
Definition lacks_role (db : DB) (userId role : string) : bool :=
  match getUser db userId with
  | None => true
  | Some u => negb (String.eqb (user_role u) role)
  end.

(** *** POST /api/jobs *)

Record StepDraft := mkDraft {
  draft_title : string;
  draft_description : option string;
  draft_instructions : option string
}.

Record JobBody := mkJobBody {
  jb_title : option string;
  jb_description : option string;
  jb_workerId : option string;
  jb_steps : option (list StepDraft)
}.

(** The [for (let i = 0; i < steps.length; i++)] loop: step [i] gets
    order [i + 1] and status awaiting_upload for [i === 0], pending
    otherwise. *)
Fixpoint create_steps (jobId : Z) (i : Z) (drafts : list StepDraft) (db : DB) : DB :=
  match drafts with
  | [] => db
  | d :: rest =>
      let (_, db1) := createStep db jobId (draft_title d) (draft_description d)
                        (draft_instructions d) (i + 1)
                        (if Z.eqb i 0 then "awaiting_upload" else "pending") in
      create_steps jobId (i + 1) rest db1
  end.

Definition jobs_post (userId : string) (body : JobBody) (db : DB) : Response * DB :=
  if lacks_role db userId "manager"
  then (error 403 "Only managers can create jobs", db)
  else
    match jb_steps body with
    | None => (error 400 "Title, worker ID, and at least one step are required", db)
    | Some steps =>
        if falsy_str (jb_title body) || falsy_str (jb_workerId body)
           || Nat.eqb (List.length steps) 0
        then (error 400 "Title, worker ID, and at least one step are required", db)
        else
          let title := match jb_title body with Some t => t | None => "" end in
          let workerId := match jb_workerId body with Some w => w | None => "" end in
          let (job, db1) := createJob db title (jb_description body) workerId userId
                              "in_progress" in
          let db2 := create_steps (job_id job) 0 steps db1 in
          (json_job (getJob db2 (job_id job)), db2)
    end.

(** The same route on [req.body] as it may arrive: a step draft whose
    [title] is missing ([undefined] or [null]). *)
Record RawStepDraft := mkRawDraft {
  raw_title : option string;
  raw_description : option string;
  raw_instructions : option string
}.

Record RawJobBody := mkRawJobBody {
  rjb_title : option string;
  rjb_description : option string;
  rjb_workerId : option string;
  rjb_steps : option (list RawStepDraft)
}.

(** [INSERT INTO steps] without a title violates NOT NULL on steps.title:
    the statement fails after the id default has taken the next value of the
    sequence, which is not given back. *)
Definition consume_step_serial (db : DB) : DB :=
  mkDB (db_users db) (db_jobs db) (db_steps db) (db_uploads db) (db_reviews db)
       (seq_jobs db) (seq_steps db + 1) (seq_uploads db) (seq_reviews db).

(** The loop of POST /api/jobs on raw drafts.  A draft without a title makes
    [createStep] throw; the loop stops there, and the job row and the steps
    inserted before it stay, as the route uses no transaction.  The boolean
    tells whether the loop threw. *)
Fixpoint create_steps_raw (jobId : Z) (i : Z) (drafts : list RawStepDraft) (db : DB)
    : DB * bool :=
  match drafts with
  | [] => (db, false)
  | d :: rest =>
      match raw_title d with
      | None => (consume_step_serial db, true)
      | Some title =>
          let (_, db1) := createStep db jobId title (raw_description d)
                            (raw_instructions d) (i + 1)
                            (if Z.eqb i 0 then "awaiting_upload" else "pending") in
          create_steps_raw jobId (i + 1) rest db1
      end
  end.

(** The handler on a raw body; the exception of the loop reaches the
    [catch], which answers 500. *)
Definition jobs_post_raw (userId : string) (body : RawJobBody) (db : DB) : Response * DB :=
  if lacks_role db userId "manager"
  then (error 403 "Only managers can create jobs", db)
  else
    match rjb_steps body with
    | None => (error 400 "Title, worker ID, and at least one step are required", db)
    | Some steps =>
        if falsy_str (rjb_title body) || falsy_str (rjb_workerId body)
           || Nat.eqb (List.length steps) 0
        then (error 400 "Title, worker ID, and at least one step are required", db)
        else
          let title := match rjb_title body with Some t => t | None => "" end in
          let workerId := match rjb_workerId body with Some w => w | None => "" end in
          let (job, db1) := createJob db title (rjb_description body) workerId userId
                              "in_progress" in
          let (db2, thrown) := create_steps_raw (job_id job) 0 steps db1 in
          if thrown then (error 500 "Failed to create job", db2)
          else (json_job (getJob db2 (job_id job)), db2)
    end.

(** A body whose drafts all carry a title, as a raw body. *)
Definition raw_of_draft (d : StepDraft) : RawStepDraft :=
  mkRawDraft (Some (draft_title d)) (draft_description d) (draft_instructions d).

Definition raw_of_body (b : JobBody) : RawJobBody :=
  mkRawJobBody (jb_title b) (jb_description b) (jb_workerId b)
               (option_map (map raw_of_draft) (jb_steps b)).

(** *** POST /api/uploads *)

(** What multer leaves in [req.file]. *)
Record FileMeta := mkFile {
  file_filename : string;
  file_originalname : string;
  file_mimetype : string;
  file_size : Z
}.

(** [ub_stepId] is [parseInt(req.body.stepId)]; [None] stands for NaN. *)
Record UploadBody := mkUploadBody {
  ub_file : option FileMeta;
  ub_stepId : option Z
}.

Definition uploads_post (userId : string) (body : UploadBody) (db : DB) : Response * DB :=
  if lacks_role db userId "worker"
  then (error 403 "Only workers can upload photos", db)
  else
    match ub_file body with
    | None => (error 400 "No file uploaded", db)
    | Some f =>
        match ub_stepId body with
        | None => (error 400 "Step ID is required", db)
        | Some stepId =>
            if Z.eqb stepId 0 then (error 400 "Step ID is required", db)
            else
              match getStep db stepId with
              | None => (error 404 "Step not found", db)
              | Some _ =>
                  let (upload, db1) := createUpload db stepId userId (file_filename f)
                                         (file_originalname f) (file_mimetype f)
                                         (file_size f) in
                  (json_upload upload, updateStepStatus db1 stepId "awaiting_review")
              end
        end
    end.

(** *** The upload middleware of POST /api/uploads *)

(** [upload.single("photo")] (multer) runs before the handler.  A file part
    of the multipart body: the field it was sent under and what multer's
    disk storage records for it. *)
Record IncomingFile := mkIncoming {
  in_field : string;
  in_file : FileMeta
}.

Definition allowedMimes : list string := ["image/jpeg"; "image/png"; "image/jpg"].

(** [limits.fileSize]: [10 * 1024 * 1024] bytes. *)
Definition fileSizeLimit : Z := 10 * 1024 * 1024.

(** The file parts in arrival order.  A part under another field than
    "photo", or a second "photo" part, is rejected as LIMIT_UNEXPECTED_FILE
    ("Unexpected field"); then [fileFilter] rejects a mimetype outside
    [allowedMimes]; then a file larger than the [fileSize] limit is rejected
    as LIMIT_FILE_SIZE ("File too large").  The first error aborts the
    request ([inr message]); otherwise [req.file] is the accepted part,
    [None] when there is none. *)
Fixpoint multer_single (accepted : option FileMeta) (files : list IncomingFile)
    : option FileMeta + string :=
  match files with
  | [] => inl accepted
  | f :: rest =>
      match accepted with
      | Some _ => inr "Unexpected field"
      | None =>
          if negb (String.eqb (in_field f) "photo") then inr "Unexpected field"
          else if negb (existsb (String.eqb (file_mimetype (in_file f))) allowedMimes)
          then inr "Invalid file type. Only JPEG and PNG are allowed."
          else if Z.ltb fileSizeLimit (file_size (in_file f)) then inr "File too large"
          else multer_single (Some (in_file f)) rest
      end
  end.

(** The route: [isAuthenticated, upload.single("photo"), handler].  An error
    of the middleware is passed to [next] and skips the handler; the app
    installs no error middleware, so Express's default handler answers it
    with status 500 (its HTML body is shown here as the error's message). *)
Definition uploads_route (userId : string) (files : list IncomingFile) (stepId : option Z)
    (db : DB) : Response * DB :=
  match multer_single None files with
  | inr message => (error 500 message, db)
  | inl file => uploads_post userId (mkUploadBody file stepId) db
  end.

(** *** POST /api/reviews *)

Record ReviewBody := mkReviewBody {
  rb_uploadId : option Z;
  rb_managerId : option string;
  rb_status : option string;
  rb_feedback : option string
}.

Record ReviewInput := mkReviewInput {
  ri_uploadId : Z;
  ri_managerId : string;
  ri_status : string;
  ri_feedback : option string
}.

(** [insertReviewSchema.safeParse]: the schema is derived from the reviews
    table without [id] and [reviewedAt]; the not-null columns without a
    default ([uploadId], [managerId], [status]) are required, the nullable
    [feedback] is optional. *)
Definition validate_review (b : ReviewBody) : option ReviewInput :=
  match rb_uploadId b, rb_managerId b, rb_status b with
  | Some u, Some m, Some s => Some (mkReviewInput u m s (rb_feedback b))
  | _, _, _ => None
  end.

(** The approved branch after the approved step has been written: find the
    next pending step of the job and activate it, or complete the job when
    every later step is approved. *)
Definition activate_next (db : DB) (stepId : Z) : DB :=
  match getStep db stepId with
  | None => db
  | Some step =>
      let sortedSteps := sort_by_order (getStepsByJob db (step_jobId step)) in
      match find (fun s => Z.ltb (step_order step) (step_order s)
                           && String.eqb (step_status s) "pending") sortedSteps with
      | Some nextStep => updateStepStatus db (step_id nextStep) "awaiting_upload"
      | None =>
          if forallb (fun s => if Z.leb (step_order s) (step_order step) then true
                               else String.eqb (step_status s) "approved") sortedSteps
          then updateJobStatus db (step_jobId step) "completed"
          else db
      end
  end.

Definition reviews_post (userId : string) (body : ReviewBody) (db : DB) : Response * DB :=
  if lacks_role db userId "manager"
  then (error 403 "Only managers can review uploads", db)
  else
    match validate_review body with
    | None => (error 400 "Validation error", db)
    | Some v =>
        let (review, db1) := createReview db (ri_uploadId v) userId (ri_status v)
                               (ri_feedback v) in
        match getUpload db1 (ri_uploadId v) with
        | None => (json_review review, db1)
        | Some upload =>
            if String.eqb (ri_status v) "approved" then
              (json_review review,
               activate_next (updateStepStatus db1 (upload_stepId upload) "approved")
                             (upload_stepId upload))
            else if String.eqb (ri_status v) "rejected" then
              (json_review review, updateStepStatus db1 (upload_stepId upload) "awaiting_upload")
            else (json_review review, db1)
        end
    end.

(** The database with the reviews table replaced. *)
Definition with_reviews (db : DB) (rs : list Review) : DB :=
  mkDB (db_users db) (db_jobs db) (db_steps db) (db_uploads db) rs
       (seq_jobs db) (seq_steps db) (seq_uploads db) (seq_reviews db).

(** ** Read-side job status (getJobStatus of the manager dashboard) *)

Definition getJobStatus (steps : list Step) : string :=
  if existsb (fun s => String.eqb (step_status s) "awaiting_review") steps
  then "awaiting_review"
  else if forallb (fun s => String.eqb (step_status s) "approved") steps
  then "completed"
  else if existsb (fun s => negb (String.eqb (step_status s) "pending")) steps
  then "in_progress"
  else "pending".

(** Steps whose status makes them the job's active step. *)
Definition is_active_status (st : string) : bool :=
  String.eqb st "awaiting_upload" || String.eqb st "awaiting_review"
  || String.eqb st "rejected".

Definition active_in (jobId : Z) (s : Step) : bool :=
  Z.eqb (step_jobId s) jobId && is_active_status (step_status s).

Definition count_active (jobId : Z) (l : list Step) : nat :=
  List.length (filter (active_in jobId) l).

(** Number of active steps of a job in the steps table. *)
Definition active_count (db : DB) (jobId : Z) : nat :=
  count_active jobId (db_steps db).

(** ** Remaining storage operations (server/storage.ts) *)

Definition with_users (db : DB) (us : list User) : DB :=
  mkDB us (db_jobs db) (db_steps db) (db_uploads db) (db_reviews db)
       (seq_jobs db) (seq_steps db) (seq_uploads db) (seq_reviews db).

(** [UpsertUser]: the user's id and role (the email, name and picture
    columns are not modelled).  On insert an absent role takes the column
    default 'worker'; on conflict the SET is [userData], in which an absent
    role does not appear, so the stored role stays. *)
Record UpsertUser := mkUpsertUser {
  upsert_id : string;
  upsert_role : option string
}.

(** [INSERT ... ON CONFLICT (id) DO UPDATE SET ... RETURNING] *)
Definition upsertUser (db : DB) (userData : UpsertUser) : User * DB :=
  match getUser db (upsert_id userData) with
  | Some old =>
      let u := mkUser (user_id old)
                 (match upsert_role userData with Some r => r | None => user_role old end) in
      (u, with_users db (map (fun x => if String.eqb (user_id x) (upsert_id userData)
                                       then u else x) (db_users db)))
  | None =>
      let u := mkUser (upsert_id userData)
                 (match upsert_role userData with Some r => r | None => "worker" end) in
      (u, with_users db (db_users db ++ [u]))
  end.

(** [UPDATE users SET role = ... WHERE id = ...] *)
Definition updateUserRole (db : DB) (id role : string) : DB :=
  with_users db (map (fun x => if String.eqb (user_id x) id then mkUser (user_id x) role
                               else x) (db_users db)).

(** [DELETE FROM reviews WHERE upload_id = ...] *)
Definition delete_reviews_where_upload (db : DB) (uploadId : Z) : DB :=
  mkDB (db_users db) (db_jobs db) (db_steps db) (db_uploads db)
       (filter (fun r => negb (Z.eqb (review_uploadId r) uploadId)) (db_reviews db))
       (seq_jobs db) (seq_steps db) (seq_uploads db) (seq_reviews db).

(** [DELETE FROM uploads WHERE step_id = ...] *)
Definition delete_uploads_where_step (db : DB) (stepId : Z) : DB :=
  mkDB (db_users db) (db_jobs db) (db_steps db)
       (filter (fun u => negb (Z.eqb (upload_stepId u) stepId)) (db_uploads db))
       (db_reviews db) (seq_jobs db) (seq_steps db) (seq_uploads db) (seq_reviews db).

(** [DELETE FROM steps WHERE job_id = ...] *)
Definition delete_steps_where_job (db : DB) (jobId : Z) : DB :=
  mkDB (db_users db) (db_jobs db)
       (filter (fun s => negb (Z.eqb (step_jobId s) jobId)) (db_steps db))
       (db_uploads db) (db_reviews db) (seq_jobs db) (seq_steps db) (seq_uploads db)
       (seq_reviews db).

(** [DELETE FROM steps WHERE id = ...] *)
Definition delete_steps_where_id (db : DB) (id : Z) : DB :=
  mkDB (db_users db) (db_jobs db)
       (filter (fun s => negb (Z.eqb (step_id s) id)) (db_steps db))
       (db_uploads db) (db_reviews db) (seq_jobs db) (seq_steps db) (seq_uploads db)
       (seq_reviews db).

(** [DELETE FROM jobs WHERE id = ...] *)
Definition delete_jobs_where_id (db : DB) (id : Z) : DB :=
  mkDB (db_users db) (filter (fun j => negb (Z.eqb (job_id j) id)) (db_jobs db))
       (db_steps db) (db_uploads db) (db_reviews db) (seq_jobs db) (seq_steps db)
       (seq_uploads db) (seq_reviews db).

(** [for (const upload of stepUploads) await db.delete(reviews)...] *)
Definition delete_reviews_of_uploads (db : DB) (stepUploads : list Upload) : DB :=
  fold_left (fun d u => delete_reviews_where_upload d (upload_id u)) stepUploads db.

(** The body of [deleteJob]'s loop over the job's steps. *)
Definition delete_step_uploads (db : DB) (step : Step) : DB :=
  let stepUploads := filter (fun u => Z.eqb (upload_stepId u) (step_id step)) (db_uploads db) in
  let db1 := delete_reviews_of_uploads db stepUploads in
  delete_uploads_where_step db1 (step_id step).

Definition deleteJob (db : DB) (id : Z) : DB :=
  let jobSteps := filter (fun s => Z.eqb (step_jobId s) id) (db_steps db) in
  let db1 := fold_left delete_step_uploads jobSteps db in
  let db2 := delete_steps_where_job db1 id in
  delete_jobs_where_id db2 id.

Definition deleteStep (db : DB) (id : Z) : DB :=
  let stepUploads := filter (fun u => Z.eqb (upload_stepId u) id) (db_uploads db) in
  let db1 := delete_reviews_of_uploads db stepUploads in
  let db2 := delete_uploads_where_step db1 id in
  delete_steps_where_id db2 id.

(** ** Remaining routes (server/routes.ts) *)

(** Responses of the routes below: a row, a list of rows, the current step
    (possibly [undefined]), a [{ message }] object, or an error status. *)
Inductive Reply :=
| reply_job (j : Job)
| reply_jobs (js : list Job)
| reply_step (s : Step)
| reply_message (message : string)
| reply_error (code : Z) (message : string).

(** *** PATCH /api/users/:id/role; [role] is [req.body.role], [None] when
    absent. *)
Definition users_role_patch (userId targetUserId : string) (role : option string) (db : DB)
    : Reply * DB :=
  if lacks_role db userId "manager"
  then (reply_error 403 "Only managers can update user roles", db)
  else
    match role with
    | Some r =>
        if String.eqb r "manager" || String.eqb r "worker"
        then (reply_message "User role updated successfully", updateUserRole db targetUserId r)
        else (reply_error 400 "Invalid role", db)
    | None => (reply_error 400 "Invalid role", db)
    end.

(** [getJobsByManager] and [getJobsByWorker] (server/storage.ts): the jobs
    with the given manager (worker), [orderBy: desc(jobs.createdAt)]; the
    created_at column is set when the row is inserted, so the newest row comes
    first.  The nested manager, worker and steps are not modelled. *)
Definition getJobsByManager (db : DB) (managerId : string) : list Job :=
  rev (filter (fun j => String.eqb (job_managerId j) managerId) (db_jobs db)).

Definition getJobsByWorker (db : DB) (workerId : string) : list Job :=
  rev (filter (fun j => String.eqb (job_workerId j) workerId) (db_jobs db)).

(** *** GET /api/jobs *)
Definition jobs_get (userId : string) (db : DB) : Reply :=
  match getUser db userId with
  | None => reply_error 404 "User not found"
  | Some user =>
      if String.eqb (user_role user) "manager"
      then reply_jobs (getJobsByManager db userId)
      else reply_jobs (getJobsByWorker db userId)
  end.

(** *** GET /api/jobs/:id; [jobId] is [parseInt(req.params.id)]. *)
Definition jobs_get_id (userId : string) (jobId : Z) (db : DB) : Reply :=
  match getJob db jobId with
  | None => reply_error 404 "Job not found"
  | Some job =>
      if negb (String.eqb (job_managerId job) userId)
         && negb (String.eqb (job_workerId job) userId)
      then reply_error 403 "Access denied"
      else reply_job job
  end.

(** *** POST /api/steps *)

Record StepBody := mkStepBody {
  sb_jobId : option Z;
  sb_title : option string;
  sb_description : option string;
  sb_instructions : option string;
  sb_order : option Z;
  sb_status : option string
}.

(** [insertStepSchema.safeParse] then [createStep]: the schema is derived
    from the steps table without [id], [createdAt] and [updatedAt]; the
    not-null columns without a default ([jobId], [title], [order]) are
    required, [description] and [instructions] are nullable, and an absent
    [status] takes the column default 'pending'. *)
Definition steps_post (userId : string) (body : StepBody) (db : DB) : Reply * DB :=
  if lacks_role db userId "manager"
  then (reply_error 403 "Only managers can create steps", db)
  else
    match sb_jobId body, sb_title body, sb_order body with
    | Some jobId, Some title, Some order =>
        let (step, db1) := createStep db jobId title (sb_description body)
                             (sb_instructions body) order
                             (match sb_status body with Some st => st | None => "pending" end) in
        (reply_step step, db1)
    | _, _, _ => (reply_error 400 "Validation error", db)
    end.

(** *** DELETE /api/jobs/:id *)
Definition jobs_delete (userId : string) (jobId : Z) (db : DB) : Reply * DB :=
  if lacks_role db userId "manager"
  then (reply_error 403 "Only managers can delete jobs", db)
  else
    match getJob db jobId with
    | None => (reply_error 404 "Job not found", db)
    | Some job =>
        if negb (String.eqb (job_managerId job) userId)
        then (reply_error 403 "You can only delete your own jobs", db)
        else (reply_message "Job deleted successfully", deleteJob db jobId)
    end.

(** *** DELETE /api/steps/:id *)
Definition steps_delete (userId : string) (stepId : Z) (db : DB) : Reply * DB :=
  if lacks_role db userId "manager"
  then (reply_error 403 "Only managers can delete steps", db)
  else
    match getStep db stepId with
    | None => (reply_error 404 "Step not found", db)
    | Some step =>
        match getJob db (step_jobId step) with
        | Some job =>
            if String.eqb (job_managerId job) userId
            then (reply_message "Step deleted successfully", deleteStep db stepId)
            else (reply_error 403 "You can only delete steps from your own jobs", db)
        | None => (reply_error 403 "You can only delete steps from your own jobs", db)
        end
    end.

(** *** POST /api/reviews, earlier version (server/routes.ts as first
    written): the step takes the review's status verbatim, and an approval
    completes the job when every step of the job is approved. *)
Definition reviews_post_v1 (userId : string) (body : ReviewBody) (db : DB) : Response * DB :=
  if lacks_role db userId "manager"
  then (error 403 "Only managers can review uploads", db)
  else
    match validate_review body with
    | None => (error 400 "Validation error", db)
    | Some v =>
        let (review, db1) := createReview db (ri_uploadId v) userId (ri_status v)
                               (ri_feedback v) in
        match getUpload db1 (ri_uploadId v) with
        | None => (json_review review, db1)
        | Some upload =>
            let db2 := updateStepStatus db1 (upload_stepId upload) (ri_status v) in
            if String.eqb (ri_status v) "approved" then
              match getStep db2 (upload_stepId upload) with
              | None => (json_review review, db2)
              | Some step =>
                  if forallb (fun s => String.eqb (step_status s) "approved")
                             (getStepsByJob db2 (step_jobId step))
                  then (json_review review, updateJobStatus db2 (step_jobId step) "completed")
                  else (json_review review, db2)
              end
            else (json_review review, db2)
        end
    end.

(** ** getCurrentStep of the manager dashboard *)

Definition opt_str_eqb (a b : option string) : bool :=
  match a, b with
  | Some x, Some y => String.eqb x y
  | None, None => true
  | _, _ => false
  end.

Definition step_eqb (a b : Step) : bool :=
  Z.eqb (step_id a) (step_id b) && Z.eqb (step_jobId a) (step_jobId b)
  && String.eqb (step_title a) (step_title b)
  && opt_str_eqb (step_description a) (step_description b)
  && opt_str_eqb (step_instructions a) (step_instructions b)
  && Z.eqb (step_order a) (step_order b) && String.eqb (step_status a) (step_status b).

(** [Array.prototype.indexOf]: the first index holding the element, -1 if
    none.  JavaScript compares the objects by identity; here rows are
    compared field by field.  Both give the same index for the row
    [getCurrentStep] looks up, since every row before it is approved and it
    is not. *)
Fixpoint indexOf_from (x : Step) (l : list Step) (i : Z) : Z :=
  match l with
  | [] => -1
  | y :: l' => if step_eqb y x then i else indexOf_from x l' (i + 1)
  end.

Definition indexOf (x : Step) (l : list Step) : Z := indexOf_from x l 0.

(** The 1-based number of the first step that is not approved, or the
    number of steps when all are approved. *)
Definition getCurrentStep (steps : list Step) : Z :=
  match find (fun step => negb (String.eqb (step_status step) "approved")) steps with
  | Some currentStep => indexOf currentStep steps + 1
  | None => Z.of_nat (List.length steps)
  end.

(** ** Table invariants *)

Fixpoint nodupb (l : list Z) : bool :=
  match l with
  | [] => true
  | x :: l' => negb (existsb (Z.eqb x) l') && nodupb l'
  end.

(** The ids of a serial column: pairwise distinct and below the next value
    of the sequence. *)
Definition serial_ok (ids : list Z) (seq : Z) : bool :=
  nodupb ids && forallb (fun i => Z.ltb i seq) ids.

Definition ids_ok (db : DB) : bool :=
  serial_ok (map job_id (db_jobs db)) (seq_jobs db)
  && serial_ok (map step_id (db_steps db)) (seq_steps db)
  && serial_ok (map upload_id (db_uploads db)) (seq_uploads db)
  && serial_ok (map review_id (db_reviews db)) (seq_reviews db).

(** Every step's job, every upload's step and every review's upload
    exists. *)
Definition refs_ok (db : DB) : bool :=
  forallb (fun s => existsb (fun j => Z.eqb (job_id j) (step_jobId s)) (db_jobs db))
          (db_steps db)
  && forallb (fun u => existsb (fun s => Z.eqb (step_id s) (upload_stepId u)) (db_steps db))
             (db_uploads db)
  && forallb (fun r => existsb (fun u => Z.eqb (upload_id u) (review_uploadId r))
                               (db_uploads db))
             (db_reviews db).

(** Every user's role is one the role route accepts. *)
Definition roles_ok (db : DB) : bool :=
  forallb (fun u => String.eqb (user_role u) "manager" || String.eqb (user_role u) "worker")
          (db_users db).

(** ** A concrete database used by the examples *)

Definition db0 : DB :=
  mkDB [mkUser "m" "manager"; mkUser "w" "worker"; mkUser "w2" "worker"]
       [] [] [] [] 1 1 1 1.

Definition draft (t : string) : StepDraft := mkDraft t None None.

Definition job_body (n : nat) : JobBody :=
  mkJobBody (Some "Roof") None (Some "w")
            (Some (firstn n [draft "A"; draft "B"; draft "C"])).

Definition photo : FileMeta := mkFile "f1" "a.jpg" "image/jpeg" 100.

Definition upload_to (stepId : Z) : UploadBody := mkUploadBody (Some photo) (Some stepId).

Definition approve (uploadId : Z) : ReviewBody :=
  mkReviewBody (Some uploadId) (Some "m") (Some "approved") None.

Definition reject (uploadId : Z) (fb : option string) : ReviewBody :=
  mkReviewBody (Some uploadId) (Some "m") (Some "rejected") fb.

Definition statuses (db : DB) : list string := map step_status (db_steps db).

Definition job_statuses (db : DB) : list string := map job_status (db_jobs db).

(** A manager creates a job of [n] steps for worker "w"; job id 1, step ids
    1..n. *)
Definition db_created (n : nat) : DB := snd (jobs_post "m" (job_body n) db0).

(** Two steps; the worker uploads to step 2 (upload 1), then to step 1
    (upload 2). *)
Definition db_two_uploads : DB :=
  snd (uploads_post "w" (upload_to 1) (snd (uploads_post "w" (upload_to 2) (db_created 2)))).

(** Two steps; step 1 uploaded (upload 1) and approved. *)
Definition db_step1_approved : DB :=
  snd (reviews_post "m" (approve 1) (snd (uploads_post "w" (upload_to 1) (db_created 2)))).

(** Three steps; step 1 uploaded (upload 1) and approved. *)
Definition db_first_approved : DB :=
  snd (reviews_post "m" (approve 1) (snd (uploads_post "w" (upload_to 1) (db_created 3)))).

(** One job of [n] steps; the worker has uploaded to step 1 (upload 1). *)
Definition db_uploaded (n : nat) : DB := snd (uploads_post "w" (upload_to 1) (db_created n)).

Definition upload1 : Upload := mkUpload 1 1 "w" "f1" "a.jpg" "image/jpeg" 100.

(** The multipart body of an upload: one part, the photo, under "photo". *)
Definition photo_parts : list IncomingFile := [mkIncoming "photo" photo].

(** A job body whose second step draft has no title. *)
Definition raw_body_untitled : RawJobBody :=
  mkRawJobBody (Some "Roof") None (Some "w")
               (Some [mkRawDraft (Some "A") None None; mkRawDraft None None None]).

(** ** Lemmas on the storage layer *)

Definition order_le (a b : Step) : Prop := step_order a <= step_order b.

Lemma In_insert_by_order : forall x y l,
  In y (insert_by_order x l) <-> x = y \/ In y l.
Proof.
  intros x y l; induction l as [|z l IH]; simpl.
  - tauto.
  - destruct (Z.leb (step_order x) (step_order z)); simpl; [tauto|].
    rewrite IH; tauto.
Qed.

Lemma In_sort_by_order : forall y l, In y (sort_by_order l) <-> In y l.
Proof.
  intros y l; induction l as [|z l IH]; simpl; [tauto|].
  rewrite In_insert_by_order, IH; intuition.
Qed.

Lemma insert_by_order_sorted : forall x l,
  Sorted order_le l -> Sorted order_le (insert_by_order x l).
Proof.
  intros x l; induction l as [|z l IH]; intros Hs; simpl.
  - repeat constructor.
  - destruct (Z.leb (step_order x) (step_order z)) eqn:Hxz.
    + constructor; [exact Hs|]. constructor. unfold order_le. lia.
    + apply Sorted_inv in Hs as [Hl Hhd].
      constructor; [now apply IH|].
      destruct l as [|w l]; simpl.
      * constructor. unfold order_le. lia.
      * destruct (Z.leb (step_order x) (step_order w)); constructor;
          unfold order_le; [lia|]. now inversion Hhd.
Qed.

Lemma sort_by_order_sorted : forall l, Sorted order_le (sort_by_order l).
Proof.
  induction l; simpl; [constructor|]. now apply insert_by_order_sorted.
Qed.

Lemma find_sorted_least : forall (p : Step -> bool) l x,
  StronglySorted order_le l -> find p l = Some x ->
  forall y, In y l -> p y = true -> step_order x <= step_order y.
Proof.
  intros p l x Hs; induction Hs as [|a l Hs IH Hall]; simpl; [discriminate|].
  intros Hf y Hy Hpy.
  destruct (p a) eqn:Hpa.
  - injection Hf as <-. destruct Hy as [<-|Hy]; [lia|].
    rewrite Forall_forall in Hall. exact (Hall y Hy).
  - destruct Hy as [<-|Hy]; [congruence|]. exact (IH Hf y Hy Hpy).
Qed.

(** The first element of a list sorted by order that satisfies [p] has the
    least order among the elements satisfying [p]. *)
Lemma find_sort_least : forall (p : Step -> bool) l x,
  find p (sort_by_order l) = Some x ->
  In x l /\ p x = true /\
  forall y, In y l -> p y = true -> step_order x <= step_order y.
Proof.
  intros p l x Hf.
  destruct (find_some _ _ Hf) as [Hin Hp].
  split; [now apply In_sort_by_order|]. split; [exact Hp|].
  intros y Hy Hpy.
  apply (find_sorted_least p (sort_by_order l)); auto.
  - apply Sorted_StronglySorted; [unfold order_le; red; intros; lia|].
    apply sort_by_order_sorted.
  - now apply In_sort_by_order.
Qed.

Lemma find_map_same : forall {A} (p : A -> bool) (f : A -> A) l,
  (forall a, p (f a) = p a) -> find p (map f l) = option_map f (find p l).
Proof.
  intros A p f l Hp; induction l as [|a l IH]; simpl; [reflexivity|].
  rewrite Hp. destruct (p a); simpl; auto.
Qed.

Lemma set_step_status_id : forall i st s, step_id (set_step_status i st s) = step_id s.
Proof. intros; unfold set_step_status; destruct (Z.eqb (step_id s) i); reflexivity. Qed.

Lemma set_step_status_jobId : forall i st s,
  step_jobId (set_step_status i st s) = step_jobId s.
Proof. intros; unfold set_step_status; destruct (Z.eqb (step_id s) i); reflexivity. Qed.

Lemma set_step_status_order : forall i st s,
  step_order (set_step_status i st s) = step_order s.
Proof. intros; unfold set_step_status; destruct (Z.eqb (step_id s) i); reflexivity. Qed.

Lemma getStep_update : forall db i st s,
  getStep db i = Some s ->
  getStep (updateStepStatus db i st) i = Some (set_step_status i st s).
Proof.
  intros db i st s H; unfold getStep, updateStepStatus in *; simpl.
  rewrite find_map_same; [now rewrite H|].
  intros; now rewrite set_step_status_id.
Qed.

Lemma map_set_step_status_absent : forall i st l,
  (forall s, In s l -> step_id s <> i) -> map (set_step_status i st) l = l.
Proof.
  intros i st l H; induction l as [|s l IH]; simpl; [reflexivity|].
  f_equal.
  - unfold set_step_status. destruct (Z.eqb_spec (step_id s) i); [|reflexivity].
    exfalso; apply (H s); simpl; auto.
  - apply IH; intros; apply H; simpl; auto.
Qed.

Definition b2n (b : bool) : nat := if b then 1%nat else 0%nat.

Lemma count_active_cons : forall jid s l,
  count_active jid (s :: l) = (b2n (active_in jid s) + count_active jid l)%nat.
Proof.
  intros; unfold count_active; simpl. destruct (active_in jid s); reflexivity.
Qed.

Lemma active_in_set_step_status : forall jid i st s,
  step_id s = i ->
  active_in jid (set_step_status i st s) = Z.eqb (step_jobId s) jid && is_active_status st.
Proof.
  intros jid i st s Hi; unfold active_in, set_step_status.
  rewrite Hi, Z.eqb_refl; reflexivity.
Qed.

(** [UPDATE steps SET status = st WHERE id = i] with a unique id [i] changes
    the active count of a job by the activity of the old and new status. *)
Lemma count_active_update : forall jid i st s l,
  NoDup (map step_id l) -> In s l -> step_id s = i ->
  (count_active jid (map (set_step_status i st) l) + b2n (active_in jid s)
   = count_active jid l + b2n (Z.eqb (step_jobId s) jid && is_active_status st))%nat.
Proof.
  intros jid i st s l; induction l as [|a l IH]; intros Hnd Hin Hi; [destruct Hin|].
  simpl in Hnd; apply NoDup_cons_iff in Hnd as [Hnot Hnd'].
  simpl map; rewrite !count_active_cons.
  destruct Hin as [<-|Hin].
  - rewrite map_set_step_status_absent.
    + rewrite active_in_set_step_status by exact Hi. lia.
    + intros s' Hs' Heq. apply Hnot. rewrite Hi, <- Heq. now apply in_map.
  - assert (Hne : step_id a <> i).
    { intros Heq. apply Hnot. rewrite Heq, <- Hi. now apply in_map. }
    unfold set_step_status at 1. rewrite (proj2 (Z.eqb_neq _ _) Hne).
    specialize (IH Hnd' Hin Hi). lia.
Qed.

Lemma map_step_id_update : forall i st l,
  map step_id (map (set_step_status i st) l) = map step_id l.
Proof.
  intros; rewrite map_map; apply map_ext; intros; apply set_step_status_id.
Qed.

(** Creating a review leaves the uploads table alone. *)
Lemma getUpload_createReview : forall db u m st f id,
  getUpload (snd (createReview db u m st f)) id = getUpload db id.
Proof. reflexivity. Qed.

(** Running POST /api/reviews for a manager with a body that passes the
    schema: the review is inserted first, then the branch on the decision. *)
Lemma reviews_post_valid : forall db userId body v,
  lacks_role db userId "manager" = false ->
  validate_review body = Some v ->
  reviews_post userId body db =
  let (review, db1) := createReview db (ri_uploadId v) userId (ri_status v)
                         (ri_feedback v) in
  match getUpload db (ri_uploadId v) with
  | None => (json_review review, db1)
  | Some upload =>
      if String.eqb (ri_status v) "approved" then
        (json_review review,
         activate_next (updateStepStatus db1 (upload_stepId upload) "approved")
                       (upload_stepId upload))
      else if String.eqb (ri_status v) "rejected" then
        (json_review review, updateStepStatus db1 (upload_stepId upload) "awaiting_upload")
      else (json_review review, db1)
  end.
Proof.
  intros db userId body v Hrole Hv. unfold reviews_post. rewrite Hrole, Hv.
  reflexivity.
Qed.

Definition reset_status (i : Z) (st : string) (s : Step) : string :=
  if Z.eqb (step_id s) i then st else step_status s.

Lemma map_status_update : forall i st l,
  map step_status (map (set_step_status i st) l) = map (reset_status i st) l.
Proof.
  intros; rewrite map_map; apply map_ext; intros s.
  unfold set_step_status, reset_status; destruct (Z.eqb (step_id s) i); reflexivity.
Qed.

Lemma forallb_sort_by_order : forall f l,
  forallb f (sort_by_order l) = forallb f l.
Proof.
  intros f l. apply eq_true_iff_eq. rewrite !forallb_forall.
  split; intros H x Hx; apply H; [apply In_sort_by_order in Hx; exact Hx|].
  apply In_sort_by_order; exact Hx.
Qed.

Lemma forallb_filter_implies : forall {A} (f g : A -> bool) l,
  forallb f (filter g l) = forallb (fun x => negb (g x) || f x) l.
Proof.
  intros A f g l; induction l as [|a l IH]; simpl; [reflexivity|].
  destruct (g a); simpl; [now rewrite IH | exact IH].
Qed.

Lemma In_getStepsByJob : forall db jid y,
  In y (getStepsByJob db jid) <-> In y (db_steps db) /\ step_jobId y = jid.
Proof.
  intros. unfold getStepsByJob. rewrite In_sort_by_order, filter_In.
  now rewrite Z.eqb_eq.
Qed.

(** "the step with order greater than [step]'s that is still pending" *)
Definition later_pending (step s : Step) : bool :=
  Z.ltb (step_order step) (step_order s) && String.eqb (step_status s) "pending".

(** "every step of the job with order greater than [step]'s is approved" *)
Definition later_all_approved (step : Step) (l : list Step) : bool :=
  forallb (fun s => negb (Z.eqb (step_jobId s) (step_jobId step))
                    || (Z.leb (step_order s) (step_order step)
                        || String.eqb (step_status s) "approved")) l.

(** What the approved branch does after writing the approved status: it
    activates the pending step of the job with the least order above the
    approved one, or, when there is none, completes the job if all later
    steps are approved. *)
Lemma activate_next_spec : forall db i step,
  getStep db i = Some step ->
  (exists next,
      In next (db_steps db) /\ step_jobId next = step_jobId step /\
      later_pending step next = true /\
      (forall y, In y (db_steps db) -> step_jobId y = step_jobId step ->
                 later_pending step y = true -> step_order next <= step_order y) /\
      activate_next db i = updateStepStatus db (step_id next) "awaiting_upload")
  \/
  ((forall y, In y (db_steps db) -> step_jobId y = step_jobId step ->
              later_pending step y = false) /\
   activate_next db i =
     (if later_all_approved step (db_steps db)
      then updateJobStatus db (step_jobId step) "completed" else db)).
Proof.
  intros db i step Hget. unfold activate_next. rewrite Hget.
  destruct (find (later_pending step) (sort_by_order (getStepsByJob db (step_jobId step))))
    as [next|] eqn:Hf; unfold later_pending in Hf; rewrite Hf.
  - left. apply find_sort_least in Hf as (Hin & Hp & Hleast).
    apply In_getStepsByJob in Hin as [Hin Hj].
    exists next. repeat split; auto.
    intros y Hy Hjy Hpy. apply Hleast; auto. now apply In_getStepsByJob.
  - right. split.
    + intros y Hy Hjy. apply (find_none _ _ Hf).
      apply In_sort_by_order, In_getStepsByJob; auto.
    + unfold getStepsByJob, later_all_approved.
      rewrite !forallb_sort_by_order, forallb_filter_implies.
      reflexivity.
Qed.

Lemma later_pending_set : forall i x st y,
  later_pending (set_step_status i x st) y = later_pending st y.
Proof. intros; unfold later_pending; now rewrite set_step_status_order. Qed.

Lemma later_all_approved_set : forall i x st l,
  later_all_approved (set_step_status i x st) l = later_all_approved st l.
Proof.
  intros; unfold later_all_approved; now rewrite set_step_status_order, set_step_status_jobId.
Qed.

(** The steps inserted by the loop of POST /api/jobs. *)
Fixpoint new_steps (id jobId i : Z) (drafts : list StepDraft) : list Step :=
  match drafts with
  | [] => []
  | d :: rest =>
      mkStep id jobId (draft_title d) (draft_description d) (draft_instructions d)
             (i + 1) (if Z.eqb i 0 then "awaiting_upload" else "pending")
        :: new_steps (id + 1) jobId (i + 1) rest
  end.

Lemma create_steps_spec : forall jobId drafts i db,
  db_steps (create_steps jobId i drafts db) =
    db_steps db ++ new_steps (seq_steps db) jobId i drafts /\
  db_jobs (create_steps jobId i drafts db) = db_jobs db.
Proof.
  intros jobId drafts; induction drafts as [|d rest IH]; intros i db; simpl.
  - now rewrite app_nil_r.
  - destruct (IH (i + 1) (snd (createStep db jobId (draft_title d) (draft_description d)
                      (draft_instructions d) (i + 1)
                      (if Z.eqb i 0 then "awaiting_upload" else "pending"))))
      as [Hs Hj].
    simpl in Hs, Hj. rewrite Hs, Hj, <- app_assoc. split; reflexivity.
Qed.

Lemma new_steps_length : forall drafts id jobId i,
  List.length (new_steps id jobId i drafts) = List.length drafts.
Proof. induction drafts; intros; simpl; auto. Qed.

Lemma new_steps_nth : forall drafts k d id jobId i,
  nth_error drafts k = Some d ->
  exists s, nth_error (new_steps id jobId i drafts) k = Some s /\
    step_jobId s = jobId /\ step_title s = draft_title d /\
    step_order s = i + Z.of_nat k + 1 /\
    step_status s = (if Z.eqb (i + Z.of_nat k) 0 then "awaiting_upload" else "pending").
Proof.
  induction drafts as [|d0 rest IH]; intros k d id jobId i Hk; [destruct k; discriminate|].
  destruct k as [|k]; simpl in Hk |- *.
  - injection Hk as <-. eexists; repeat split; simpl; try reflexivity.
    + lia.
    + now rewrite Z.add_0_r.
  - destruct (IH k d (id + 1) jobId (i + 1) Hk) as (s & Hs & Hj & Ht & Ho & Hst).
    exists s. repeat split; auto.
    + rewrite Ho. lia.
    + rewrite Hst, Zpos_P_of_succ_nat.
      now replace (i + 1 + Z.of_nat k) with (i + Z.succ (Z.of_nat k)) by lia.
Qed.

Lemma count_active_app : forall jid l1 l2,
  count_active jid (l1 ++ l2) = (count_active jid l1 + count_active jid l2)%nat.
Proof. intros; unfold count_active; now rewrite filter_app, length_app. Qed.

Lemma count_active_new_steps_later : forall drafts jid id jobId i,
  0 < i -> count_active jid (new_steps id jobId i drafts) = 0%nat.
Proof.
  induction drafts as [|d rest IH]; intros jid id jobId i Hi; simpl; [reflexivity|].
  rewrite count_active_cons, IH by lia.
  replace (Z.eqb i 0) with false by (symmetry; apply Z.eqb_neq; lia).
  unfold active_in; simpl. now rewrite andb_false_r.
Qed.

Lemma count_active_new_steps : forall d rest jid id jobId,
  count_active jid (new_steps id jobId 0 (d :: rest)) = b2n (Z.eqb jobId jid).
Proof.
  intros. simpl new_steps. rewrite count_active_cons, count_active_new_steps_later by lia.
  unfold active_in; simpl. rewrite andb_true_r. lia.
Qed.

(** Running POST /api/uploads for a worker with a file and an existing step. *)
Lemma uploads_post_valid : forall db userId body f stepId st,
  lacks_role db userId "worker" = false ->
  ub_file body = Some f -> ub_stepId body = Some stepId -> stepId <> 0 ->
  getStep db stepId = Some st ->
  uploads_post userId body db =
  let (upload, db1) := createUpload db stepId userId (file_filename f)
                         (file_originalname f) (file_mimetype f) (file_size f) in
  (json_upload upload, updateStepStatus db1 stepId "awaiting_review").
Proof.
  intros db userId body f stepId st Hrole Hf Hid Hnz Hst.
  unfold uploads_post. rewrite Hrole, Hf, Hid, (proj2 (Z.eqb_neq _ _) Hnz), Hst.
  reflexivity.
Qed.

(** Running POST /api/jobs for a manager with a title, a worker and at least
    one step draft: the job row, then one step row per draft. *)
Lemma jobs_post_effect : forall db userId body title workerId drafts,
  lacks_role db userId "manager" = false ->
  jb_title body = Some title -> title <> "" ->
  jb_workerId body = Some workerId -> workerId <> "" ->
  jb_steps body = Some drafts -> drafts <> [] ->
  let db' := snd (jobs_post userId body db) in
  db_jobs db' = db_jobs db ++ [mkJob (seq_jobs db) title (jb_description body) userId
                                     workerId "in_progress"] /\
  db_steps db' = db_steps db ++ new_steps (seq_steps db) (seq_jobs db) 0 drafts.
Proof.
  intros db userId body title workerId drafts Hrole Ht Htne Hw Hwne Hs Hne db'.
  subst db'. unfold jobs_post. rewrite Hrole, Hs, Ht, Hw.
  unfold falsy_str. rewrite (proj2 (String.eqb_neq _ _) Htne),
    (proj2 (String.eqb_neq _ _) Hwne).
  destruct drafts as [|d rest]; [contradiction|]. simpl orb.
  unfold createJob. cbv beta iota zeta. cbn [snd job_id].
  destruct (create_steps_spec (seq_jobs db) (d :: rest) 0
              (mkDB (db_users db)
                 (db_jobs db ++ [mkJob (seq_jobs db) title (jb_description body) userId
                                       workerId "in_progress"])
                 (db_steps db) (db_uploads db) (db_reviews db) (seq_jobs db + 1)
                 (seq_steps db) (seq_uploads db) (seq_reviews db))) as [H1 H2].
  rewrite H1, H2. split; reflexivity.
Qed.

Lemma count_active_absent : forall jid l,
  (forall s, In s l -> step_jobId s <> jid) -> count_active jid l = 0%nat.
Proof.
  intros jid l H; induction l as [|s l IH]; [reflexivity|].
  rewrite count_active_cons, IH by (intros; apply H; simpl; auto).
  unfold active_in. rewrite (proj2 (Z.eqb_neq _ _) (H s (or_introl eq_refl))). reflexivity.
Qed.

Lemma jobs_post_active_count : forall db userId body title workerId drafts,
  lacks_role db userId "manager" = false ->
  jb_title body = Some title -> title <> "" ->
  jb_workerId body = Some workerId -> workerId <> "" ->
  jb_steps body = Some drafts -> drafts <> [] ->
  (forall s, In s (db_steps db) -> step_jobId s <> seq_jobs db) ->
  active_count (snd (jobs_post userId body db)) (seq_jobs db) = 1%nat /\
  (forall jid, jid <> seq_jobs db ->
     active_count (snd (jobs_post userId body db)) jid = active_count db jid).
Proof.
  intros db userId body title workerId drafts Hrole Ht Htne Hw Hwne Hs Hne Hfresh.
  destruct (jobs_post_effect db userId body title workerId drafts Hrole Ht Htne Hw Hwne Hs Hne)
    as [_ Hsteps].
  unfold active_count. rewrite Hsteps.
  destruct drafts as [|d rest]; [contradiction|].
  split.
  - rewrite count_active_app, count_active_new_steps, count_active_absent by exact Hfresh.
    rewrite Z.eqb_refl. reflexivity.
  - intros jid Hjid. rewrite count_active_app, count_active_new_steps.
    rewrite (proj2 (Z.eqb_neq _ _) (not_eq_sym Hjid)). simpl. lia.
Qed.

Lemma uploads_post_active_count : forall db userId body f stepId st,
  NoDup (map step_id (db_steps db)) ->
  lacks_role db userId "worker" = false ->
  ub_file body = Some f -> ub_stepId body = Some stepId -> stepId <> 0 ->
  getStep db stepId = Some st -> is_active_status (step_status st) = true ->
  forall jid, active_count (snd (uploads_post userId body db)) jid = active_count db jid.
Proof.
  intros db userId body f stepId st Hnd Hrole Hf Hid Hnz Hst Hact jid.
  rewrite (uploads_post_valid db userId body f stepId st Hrole Hf Hid Hnz Hst).
  destruct (find_some _ _ Hst) as [Hin Heq]. apply Z.eqb_eq in Heq.
  unfold createUpload, active_count. cbv beta iota zeta. cbn [snd db_steps updateStepStatus].
  pose proof (count_active_update jid stepId "awaiting_review" st (db_steps db) Hnd Hin Heq) as H.
  unfold active_in in H. rewrite Hact in H.
  replace (is_active_status "awaiting_review") with true in H by reflexivity.
  rewrite andb_true_r in H. lia.
Qed.

Lemma reviews_post_active_count : forall db userId body v upload st,
  NoDup (map step_id (db_steps db)) ->
  validate_review body = Some v ->
  getUpload db (ri_uploadId v) = Some upload ->
  getStep db (upload_stepId upload) = Some st -> is_active_status (step_status st) = true ->
  (forall jid, (active_count db jid <= 1)%nat) ->
  forall jid, (active_count (snd (reviews_post userId body db)) jid <= 1)%nat.
Proof.
  intros db userId body v upload st Hnd Hv Hup Hgs Hact Hle jid.
  destruct (lacks_role db userId "manager") eqn:Hrole.
  { unfold reviews_post. rewrite Hrole. apply Hle. }
  rewrite (reviews_post_valid db userId body v Hrole Hv), Hup.
  destruct (find_some _ _ Hgs) as [Hin Hid]. apply Z.eqb_eq in Hid.
  unfold createReview. cbv beta iota zeta.
  set (i := upload_stepId upload) in *.
  pose proof (count_active_update jid i "approved" st (db_steps db) Hnd Hin Hid) as Happ.
  unfold active_in in Happ. rewrite Hact in Happ.
  replace (is_active_status "approved") with false in Happ by reflexivity.
  rewrite andb_false_r, andb_true_r in Happ.
  specialize (Hle jid). unfold active_count in Hle.
  destruct (String.eqb (ri_status v) "approved").
  - cbn [snd].
    match goal with |- context [activate_next ?d ?j] =>
      destruct (activate_next_spec d j (set_step_status i "approved" st))
        as [(next & Hn & Hj & Hp & _ & ->)|(_ & ->)];
      [apply getStep_update; exact Hgs| |]
    end.
    + cbn [db_steps updateStepStatus] in Hn |- *. unfold active_count.
      cbn [db_steps updateStepStatus].
      assert (Hnd1 : NoDup (map step_id (map (set_step_status i "approved") (db_steps db))))
        by (rewrite map_step_id_update; exact Hnd).
      pose proof (count_active_update jid (step_id next) "awaiting_upload" next _ Hnd1 Hn
                    eq_refl) as Hnext.
      unfold later_pending in Hp. apply andb_prop in Hp as [_ Hpend].
      apply String.eqb_eq in Hpend.
      unfold active_in in Hnext. rewrite Hpend in Hnext.
      replace (is_active_status "pending") with false in Hnext by reflexivity.
      replace (is_active_status "awaiting_upload") with true in Hnext by reflexivity.
      rewrite andb_false_r, andb_true_r, Hj, set_step_status_jobId in Hnext.
      unfold b2n in *. destruct (Z.eqb (step_jobId st) jid); lia.
    + unfold active_count.
      destruct (later_all_approved _ _); cbn [db_steps updateStepStatus updateJobStatus];
        unfold b2n in Happ; lia.
  - destruct (String.eqb (ri_status v) "rejected"); cbn [snd].
    + unfold active_count; cbn [db_steps updateStepStatus].
      pose proof (count_active_update jid i "awaiting_upload" st (db_steps db) Hnd Hin Hid)
        as Hrej.
      unfold active_in in Hrej. rewrite Hact in Hrej.
      replace (is_active_status "awaiting_upload") with true in Hrej by reflexivity.
      rewrite !andb_true_r in Hrej. lia.
    + exact Hle.
Qed.

Lemma existsb_sort_by_order : forall f l,
  existsb f (sort_by_order l) = existsb f l.
Proof.
  intros f l. apply eq_true_iff_eq. rewrite !existsb_exists.
  split; intros (x & Hx & Hf); exists x; split; auto.
  - rewrite In_sort_by_order in Hx; exact Hx.
  - rewrite In_sort_by_order; exact Hx.
Qed.

Lemma getJobStatus_sort : forall l, getJobStatus (sort_by_order l) = getJobStatus l.
Proof.
  intros l; unfold getJobStatus.
  now rewrite !existsb_sort_by_order, forallb_sort_by_order.
Qed.

Lemma new_steps_pending : forall drafts id jobId i s,
  0 < i -> In s (new_steps id jobId i drafts) -> step_status s = "pending".
Proof.
  induction drafts as [|d rest IH]; intros id jobId i s Hi Hin; [destruct Hin|].
  destruct Hin as [<-|Hin].
  - simpl. now replace (Z.eqb i 0) with false by (symmetry; apply Z.eqb_neq; lia).
  - apply (IH (id + 1) jobId (i + 1)); auto; lia.
Qed.

Lemma new_steps_jobId : forall drafts id jobId i s,
  In s (new_steps id jobId i drafts) -> step_jobId s = jobId.
Proof.
  induction drafts as [|d rest IH]; intros id jobId i s Hin; [destruct Hin|].
  destruct Hin as [<-|Hin]; [reflexivity|eauto].
Qed.

(** The status the dashboard derives for a freshly created job. *)
Lemma getJobStatus_new_steps : forall d rest id jobId,
  getJobStatus (new_steps id jobId 0 (d :: rest)) = "in_progress".
Proof.
  intros. unfold getJobStatus. simpl.
  replace (existsb (fun s => String.eqb (step_status s) "awaiting_review")
                   (new_steps (id + 1) jobId 1 rest)) with false.
  - reflexivity.
  - symmetry. apply not_true_iff_false. intros Hex.
    apply existsb_exists in Hex as (s & Hin & Hs).
    rewrite (new_steps_pending rest (id + 1) jobId 1 s) in Hs by (auto; lia).
    discriminate.
Qed.

Lemma filter_all : forall {A} (f : A -> bool) l,
  (forall x, In x l -> f x = true) -> filter f l = l.
Proof.
  intros A f l H; induction l as [|a l IH]; simpl; [reflexivity|].
  rewrite H by (simpl; auto). f_equal. apply IH; intros; apply H; simpl; auto.
Qed.

Lemma filter_none : forall {A} (f : A -> bool) l,
  (forall x, In x l -> f x = false) -> filter f l = [].
Proof.
  intros A f l H; induction l as [|a l IH]; simpl; [reflexivity|].
  rewrite H by (simpl; auto). apply IH; intros; apply H; simpl; auto.
Qed.

Lemma activate_next_effect : forall d i,
  db_reviews (activate_next d i) = db_reviews d /\
  (db_jobs (activate_next d i) = db_jobs d \/
   exists jid, db_jobs (activate_next d i) = map (set_job_status jid "completed") (db_jobs d)).
Proof.
  intros d i. unfold activate_next.
  destruct (getStep d i) as [step|]; [|auto].
  destruct (find _ _); [simpl; auto|].
  destruct (forallb _ _); simpl; eauto.
Qed.

Lemma uploads_post_jobs : forall db userId body,
  db_jobs (snd (uploads_post userId body db)) = db_jobs db.
Proof.
  intros. unfold uploads_post.
  destruct (lacks_role db userId "worker"); [reflexivity|].
  destruct (ub_file body); [|reflexivity].
  destruct (ub_stepId body) as [stepId|]; [|reflexivity].
  destruct (Z.eqb stepId 0); [reflexivity|].
  destruct (getStep db stepId); reflexivity.
Qed.

Lemma reviews_post_jobs : forall db userId body,
  db_jobs (snd (reviews_post userId body db)) = db_jobs db \/
  exists jid, db_jobs (snd (reviews_post userId body db)) =
              map (set_job_status jid "completed") (db_jobs db).
Proof.
  intros. unfold reviews_post.
  destruct (lacks_role db userId "manager"); [auto|].
  destruct (validate_review body) as [v|]; [|auto].
  unfold createReview. cbv beta iota zeta.
  destruct (getUpload _ _) as [upload|]; [|auto].
  destruct (String.eqb (ri_status v) "approved").
  - cbn [snd]. match goal with |- context [activate_next ?d ?j] =>
      destruct (activate_next_effect d j) as [_ [-> | (jid & ->)]] end; eauto.
  - destruct (String.eqb (ri_status v) "rejected"); auto.
Qed.

Lemma reviews_post_persists : forall db userId body v,
  lacks_role db userId "manager" = false ->
  validate_review body = Some v ->
  let r := mkReview (seq_reviews db) (ri_uploadId v) userId (ri_status v) (ri_feedback v) in
  fst (reviews_post userId body db) = json_review r /\
  db_reviews (snd (reviews_post userId body db)) = db_reviews db ++ [r].
Proof.
  intros db userId body v Hrole Hv r.
  rewrite (reviews_post_valid db userId body v Hrole Hv).
  unfold createReview. cbv beta iota zeta.
  destruct (getUpload db (ri_uploadId v)) as [upload|]; [|split; reflexivity].
  destruct (String.eqb (ri_status v) "approved");
    [|destruct (String.eqb (ri_status v) "rejected")]; split; try reflexivity.
  cbn [snd]. rewrite (proj1 (activate_next_effect _ _)). reflexivity.
Qed.

(** *** Row choices of getWorkerCurrentStep *)

Lemma is_active_job_true : forall w j,
  is_active_job w j = true <-> job_workerId j = w /\ job_status j = "in_progress".
Proof. intros. unfold is_active_job. rewrite andb_true_iff, !String.eqb_eq. reflexivity. Qed.

Lemma current_step_choices_spec : forall db j r,
  In r (current_step_choices db j) <->
  match r with
  | None => forall y, In y (db_steps db) -> step_jobId y = job_id j -> step_status y = "approved"
  | Some s => In s (db_steps db) /\ step_jobId s = job_id j /\ step_status s <> "approved" /\
              (forall y, In y (db_steps db) -> step_jobId y = job_id j ->
                         step_status y <> "approved" -> step_order s <= step_order y)
  end.
Proof.
  intros db j r. unfold current_step_choices. cbv zeta.
  match goal with |- context [filter ?q (db_steps db)] =>
    assert (Hc : forall y, In y (filter q (db_steps db)) <->
                   In y (db_steps db) /\ step_jobId y = job_id j /\ step_status y <> "approved")
      by (intros y; rewrite filter_In; cbv beta;
          rewrite andb_true_iff, Z.eqb_eq, negb_true_iff, String.eqb_neq; tauto);
    revert Hc; destruct (filter q (db_steps db)) as [|c cs]; intros Hc
  end.
  - destruct r as [s|]; cbn [In].
    + split; [intros [H|[]]; discriminate|].
      intros (H1 & H2 & H3 & _). exfalso. apply (proj2 (Hc s)). auto.
    + split; [intros _|auto].
      intros y Hy Hjy. destruct (String.eqb (step_status y) "approved") eqn:E.
      * now apply String.eqb_eq.
      * exfalso. apply String.eqb_neq in E. apply (proj2 (Hc y)). auto.
  - destruct r as [s|].
    + rewrite in_map_iff. split.
      * intros (x & Hx & Hin). injection Hx as ->.
        apply filter_In in Hin as [Hin Hmin]. apply Hc in Hin as (H1 & H2 & H3).
        rewrite forallb_forall in Hmin. repeat split; auto.
        intros y Hy Hjy Hny. apply Z.leb_le, Hmin, Hc. auto.
      * intros (H1 & H2 & H3 & H4). exists s. split; [reflexivity|].
        apply filter_In. split; [apply Hc; auto|].
        apply forallb_forall. intros y Hy. apply Hc in Hy as (Hy1 & Hy2 & Hy3).
        apply Z.leb_le. apply H4; auto.
    + split.
      * intros Hin. apply in_map_iff in Hin as (x & Hx & _). discriminate.
      * intros Hall. exfalso.
        destruct (proj1 (Hc c) (or_introl eq_refl)) as (H1 & H2 & H3).
        apply H3, Hall; auto.
Qed.

(** *** The upload middleware *)

Lemma mime_allowed_iff : forall m,
  existsb (String.eqb m) allowedMimes = true <-> In m allowedMimes.
Proof.
  intros m. rewrite existsb_exists. split.
  - intros (x & Hx & He). apply String.eqb_eq in He. now subst.
  - intros H. exists m. split; [exact H|apply String.eqb_refl].
Qed.

(** A part of another type or over the size limit makes multer fail,
    whatever comes before it. *)
Lemma multer_single_bad : forall files acc f,
  In f files ->
  ~ In (file_mimetype (in_file f)) allowedMimes \/ fileSizeLimit < file_size (in_file f) ->
  exists m, multer_single acc files = inr m.
Proof.
  induction files as [|g rest IH]; intros acc f Hin Hbad; [destruct Hin|].
  cbn [multer_single]. destruct acc as [a|]; [eauto|].
  destruct (negb (String.eqb (in_field g) "photo")); [eauto|].
  destruct Hin as [<-|Hin].
  - destruct Hbad as [Hm|Hs].
    + destruct (existsb _ allowedMimes) eqn:E; [|cbn; eauto].
      apply mime_allowed_iff in E. contradiction.
    + destruct (negb (existsb _ _)); [eauto|]. apply Z.ltb_lt in Hs. rewrite Hs. eauto.
  - destruct (negb (existsb _ _)); [eauto|]. destruct (Z.ltb _ _); [eauto|].
    eapply IH; eauto.
Qed.

Lemma uploads_post_error : forall u b db c m,
  fst (uploads_post u b db) = error c m ->
  snd (uploads_post u b db) = db /\ (c = 403 \/ c = 400 \/ c = 404).
Proof.
  intros u b db c m. unfold uploads_post.
  destruct (lacks_role db u "worker"); [cbn; intros H; injection H as <- _; auto|].
  destruct (ub_file b) as [f|]; [|cbn; intros H; injection H as <- _; auto].
  destruct (ub_stepId b) as [sid|]; [|cbn; intros H; injection H as <- _; auto].
  destruct (Z.eqb sid 0); [cbn; intros H; injection H as <- _; auto|].
  destruct (getStep db sid); [cbn; discriminate|cbn; intros H; injection H as <- _; auto].
Qed.

(** *** Reviews read nothing of the reviews table *)

Lemma activate_next_with_reviews : forall d rs i,
  activate_next (with_reviews d rs) i = with_reviews (activate_next d i) rs.
Proof.
  intros d rs i. unfold activate_next, getStep, getStepsByJob.
  cbn [with_reviews db_steps].
  destruct (find _ (db_steps d)) as [step|]; [|reflexivity].
  destruct (find _ _); [reflexivity|].
  destruct (forallb _ _); reflexivity.
Qed.

Lemma reviews_post_with_reviews : forall db rs u b,
  fst (reviews_post u b (with_reviews db rs)) = fst (reviews_post u b db) /\
  db_steps (snd (reviews_post u b (with_reviews db rs))) = db_steps (snd (reviews_post u b db)) /\
  db_jobs (snd (reviews_post u b (with_reviews db rs))) = db_jobs (snd (reviews_post u b db)) /\
  db_uploads (snd (reviews_post u b (with_reviews db rs))) =
    db_uploads (snd (reviews_post u b db)).
Proof.
  intros db rs u b. unfold reviews_post.
  replace (lacks_role (with_reviews db rs) u "manager") with (lacks_role db u "manager")
    by reflexivity.
  destruct (lacks_role db u "manager"); [repeat split; reflexivity|].
  destruct (validate_review b) as [v|]; [|repeat split; reflexivity].
  unfold createReview, getUpload. cbv beta iota zeta.
  cbn [with_reviews db_uploads].
  destruct (find _ (db_uploads db)) as [up|]; [|repeat split; reflexivity].
  destruct (String.eqb (ri_status v) "approved").
  - match goal with |- context [activate_next (updateStepStatus ?d1 ?i ?st) ?k] =>
      replace (updateStepStatus d1 i st)
        with (with_reviews (updateStepStatus (with_reviews d1 (db_reviews db ++
               [mkReview (seq_reviews db) (ri_uploadId v) u (ri_status v) (ri_feedback v)])) i st)
               (rs ++ [mkReview (seq_reviews db) (ri_uploadId v) u (ri_status v)
                         (ri_feedback v)])) by reflexivity
    end.
    rewrite activate_next_with_reviews. repeat split; reflexivity.
  - destruct (String.eqb (ri_status v) "rejected"); repeat split; reflexivity.
Qed.

Lemma nodupb_In_eq : forall {A} (f : A -> Z) l a b,
  nodupb (map f l) = true -> In a l -> In b l -> f a = f b -> a = b.
Proof.
  intros A f l; induction l as [|x l IH]; intros a b Hn Ha Hb He; [destruct Ha|].
  cbn [map nodupb] in Hn. apply andb_true_iff in Hn as [Hx Hl].
  assert (Hnot : forall y, In y l -> f x <> f y).
  { intros y Hy Hxy. apply negb_true_iff in Hx.
    rewrite (proj2 (existsb_exists _ _)) in Hx; [discriminate|].
    exists (f y). split; [apply in_map; exact Hy|]. rewrite Hxy. apply Z.eqb_refl. }
  destruct Ha as [<-|Ha], Hb as [<-|Hb]; auto.
  - exfalso. exact (Hnot b Hb He).
  - exfalso. exact (Hnot a Ha (eq_sym He)).
Qed.

(** *** POST /api/jobs on raw drafts *)

Lemma create_steps_raw_titled : forall ds jobId i d,
  create_steps_raw jobId i (map raw_of_draft ds) d = (create_steps jobId i ds d, false).
Proof.
  induction ds as [|x ds IH]; intros jobId i d; [reflexivity|].
  cbn [map create_steps_raw create_steps raw_of_draft raw_title raw_description
       raw_instructions].
  destruct (createStep _ _ _ _ _ _ _) as [s d1]. apply IH.
Qed.

Lemma create_steps_raw_fail : forall drafts k d jobId i db,
  nth_error drafts k = Some d -> raw_title d = None ->
  (forall j d', (j < k)%nat -> nth_error drafts j = Some d' -> raw_title d' <> None) ->
  snd (create_steps_raw jobId i drafts db) = true /\
  db_jobs (fst (create_steps_raw jobId i drafts db)) = db_jobs db /\
  exists added, db_steps (fst (create_steps_raw jobId i drafts db)) = db_steps db ++ added /\
    List.length added = k /\ Forall (fun s => step_jobId s = jobId) added.
Proof.
  induction drafts as [|x rest IH]; intros k d jobId i db Hk Hd Hbefore.
  - destruct k; discriminate.
  - destruct k as [|k].
    + injection Hk as ->. cbn [create_steps_raw]. rewrite Hd. cbn.
      split; [reflexivity|]. split; [reflexivity|].
      exists []. rewrite app_nil_r. auto.
    + destruct (raw_title x) as [t|] eqn:Ex;
        [|exfalso; exact (Hbefore 0%nat x ltac:(lia) eq_refl Ex)].
      cbn [create_steps_raw]. rewrite Ex. unfold createStep. cbv zeta.
      match goal with |- context [create_steps_raw jobId (i + 1) rest ?d1] =>
        destruct (IH k d jobId (i + 1) d1 Hk Hd
                    (fun j d' Hj Hn => Hbefore (S j) d' ltac:(lia) Hn))
          as (H1 & H2 & added & H3 & H4 & H5)
      end.
      split; [exact H1|]. split; [exact H2|].
      eexists. split; [rewrite H3; cbn [db_steps]; rewrite <- app_assoc; reflexivity|].
      split; [cbn; rewrite H4; reflexivity|]. constructor; [reflexivity|exact H5].
Qed.

(** ** Claims *)

(** C1: a manager's review with decision rejected on an existing upload is
    persisted as a new Review row, and the upload's step is reset to
    awaiting_upload (not to the status "rejected"); every other step keeps
    its status and no job status changes. *)
Theorem reviews_post_rejected_resets_step : forall db userId body v upload,
  lacks_role db userId "manager" = false ->
  validate_review body = Some v ->
  ri_status v = "rejected" ->
  getUpload db (ri_uploadId v) = Some upload ->
  let r := mkReview (seq_reviews db) (ri_uploadId v) userId "rejected" (ri_feedback v) in
  let (resp, db') := reviews_post userId body db in
  resp = json_review r /\
  db_reviews db' = db_reviews db ++ [r] /\
  map step_status (db_steps db') =
    map (fun s => if Z.eqb (step_id s) (upload_stepId upload)
                  then "awaiting_upload" else step_status s) (db_steps db) /\
  map step_id (db_steps db') = map step_id (db_steps db) /\
  db_jobs db' = db_jobs db.
Proof.
  intros db userId body v upload Hrole Hv Hst Hup r.
  rewrite (reviews_post_valid db userId body v Hrole Hv), Hup, Hst. simpl.
  rewrite map_status_update, map_step_id_update.
  repeat split; reflexivity.
Qed.

(** C2 (counterexample): in a two-step job the worker uploads to step 2
    (upload 1) and then to step 1 (upload 2).  Approving upload 2 approves
    step 1; no later step is pending, yet the job is not completed, because
    step 2 is awaiting review. *)
Lemma approval_without_pending_step_leaves_job_open :
  statuses (snd (reviews_post "m" (approve 2) db_two_uploads)) =
    ["approved"; "awaiting_review"] /\
  job_statuses (snd (reviews_post "m" (approve 2) db_two_uploads)) = ["in_progress"].
Proof. split; vm_compute; reflexivity. Qed.

(** C2 (amended): a manager's approved review of an existing upload whose
    step exists is persisted and sets that step to approved.  Then, among the
    steps of the same job, the pending step with the least order above the
    approved step's order (the first one in ascending order) is set to
    awaiting_upload and no job changes; when there is no such pending step,
    no step changes further and the job is set to completed only if every
    step of the job with a greater order is approved, otherwise the job is
    left as it was. *)
Theorem reviews_post_approved_activates_next : forall db userId body v upload st,
  lacks_role db userId "manager" = false ->
  validate_review body = Some v ->
  ri_status v = "approved" ->
  getUpload db (ri_uploadId v) = Some upload ->
  getStep db (upload_stepId upload) = Some st ->
  let r := mkReview (seq_reviews db) (ri_uploadId v) userId "approved" (ri_feedback v) in
  let steps1 := map (set_step_status (upload_stepId upload) "approved") (db_steps db) in
  let (resp, db') := reviews_post userId body db in
  resp = json_review r /\
  db_reviews db' = db_reviews db ++ [r] /\
  In (set_step_status (upload_stepId upload) "approved" st) steps1 /\
  step_status (set_step_status (upload_stepId upload) "approved" st) = "approved" /\
  ((exists next,
       In next steps1 /\ step_jobId next = step_jobId st /\
       later_pending st next = true /\
       (forall y, In y steps1 -> step_jobId y = step_jobId st ->
                  later_pending st y = true -> step_order next <= step_order y) /\
       db_steps db' = map (set_step_status (step_id next) "awaiting_upload") steps1 /\
       db_jobs db' = db_jobs db)
   \/
   ((forall y, In y steps1 -> step_jobId y = step_jobId st ->
               later_pending st y = false) /\
    db_steps db' = steps1 /\
    db_jobs db' = (if later_all_approved st steps1
                   then map (set_job_status (step_jobId st) "completed") (db_jobs db)
                   else db_jobs db))).
Proof.
  intros db userId body v upload st Hrole Hv Hs Hup Hgs.
  rewrite (reviews_post_valid db userId body v Hrole Hv), Hup, Hs, String.eqb_refl.
  unfold createReview. cbv beta iota zeta.
  destruct (find_some _ _ Hgs) as [Hin Hid]. apply Z.eqb_eq in Hid.
  match goal with |- context [activate_next ?d ?i] =>
    destruct (activate_next_spec d i (set_step_status i "approved" st))
      as [(next & Hn & Hj & Hp & Hl & ->)|(Hnone & ->)];
    [apply getStep_update; exact Hgs| |]
  end.
  - cbn [db_steps db_jobs db_reviews updateStepStatus] in Hn, Hl |- *.
    rewrite set_step_status_jobId in Hj, Hl. rewrite later_pending_set in Hp.
    split; [reflexivity|]. split; [reflexivity|].
    split; [apply in_map; exact Hin|].
    split; [unfold set_step_status; rewrite Hid, Z.eqb_refl; reflexivity|].
    left. exists next. repeat split; auto.
    intros y Hy Hjy Hpy. apply Hl; auto. now rewrite later_pending_set.
  - cbn [db_steps db_jobs db_reviews updateStepStatus] in Hnone |- *.
    rewrite later_all_approved_set.
    split; [reflexivity|].
    split; [destruct (later_all_approved st _); reflexivity|].
    split; [apply in_map; exact Hin|].
    split; [unfold set_step_status; rewrite Hid, Z.eqb_refl; reflexivity|].
    right. split.
    + intros y Hy Hjy. rewrite <- (later_pending_set (upload_stepId upload) "approved").
      apply Hnone; auto. now rewrite set_step_status_jobId.
    + destruct (later_all_approved st _);
        cbn [db_steps db_jobs updateStepStatus updateJobStatus];
        rewrite ?set_step_status_jobId; split; reflexivity.
Qed.

(** C3 (counterexample): submitUpload does not check the step's status.
    Right after a two-step job is created (one active step), the worker
    uploads to the pending step 2 and the job has two active steps. *)
Lemma upload_to_pending_step_two_active :
  active_count (db_created 2) 1 = 1%nat /\
  active_count (snd (uploads_post "w" (upload_to 2) (db_created 2))) 1 = 2%nat.
Proof. split; vm_compute; reflexivity. Qed.

(** C3 (amended): createJob leaves the new job with exactly one active step
    (status awaiting_upload, awaiting_review or rejected) and does not change
    the count of any other job; submitUpload and submitReview keep "at most
    one active step per job" when they act on a step that is already active
    (the uploaded step, or the step of the reviewed upload).  Step ids are
    unique (serial primary key) and the new job's id is not yet used by any
    step. *)
Theorem active_steps_at_most_one :
  (forall db userId body title workerId drafts,
     lacks_role db userId "manager" = false ->
     jb_title body = Some title -> title <> "" ->
     jb_workerId body = Some workerId -> workerId <> "" ->
     jb_steps body = Some drafts -> drafts <> [] ->
     (forall s, In s (db_steps db) -> step_jobId s <> seq_jobs db) ->
     active_count (snd (jobs_post userId body db)) (seq_jobs db) = 1%nat /\
     (forall jid, jid <> seq_jobs db ->
        active_count (snd (jobs_post userId body db)) jid = active_count db jid)) /\
  (forall db userId body f stepId st,
     NoDup (map step_id (db_steps db)) ->
     lacks_role db userId "worker" = false ->
     ub_file body = Some f -> ub_stepId body = Some stepId -> stepId <> 0 ->
     getStep db stepId = Some st -> is_active_status (step_status st) = true ->
     forall jid, (active_count db jid <= 1)%nat ->
     (active_count (snd (uploads_post userId body db)) jid <= 1)%nat) /\
  (forall db userId body v upload st,
     NoDup (map step_id (db_steps db)) ->
     validate_review body = Some v ->
     getUpload db (ri_uploadId v) = Some upload ->
     getStep db (upload_stepId upload) = Some st ->
     is_active_status (step_status st) = true ->
     (forall jid, (active_count db jid <= 1)%nat) ->
     forall jid, (active_count (snd (reviews_post userId body db)) jid <= 1)%nat).
Proof.
  split; [exact jobs_post_active_count|]. split; [|exact reviews_post_active_count].
  intros db userId body f stepId st Hnd Hrole Hf Hid Hnz Hst Hact jid Hle.
  now rewrite (uploads_post_active_count db userId body f stepId st Hnd Hrole Hf Hid Hnz
                 Hst Hact jid).
Qed.

(** C4 (counterexample): after the worker uploads to step 1 of a new
    three-step job, the stored job status is still in_progress while the
    status derived from the steps is awaiting_review. *)
Lemma upload_leaves_job_status_stale :
  let d := snd (uploads_post "w" (upload_to 1) (db_created 3)) in
  job_statuses d = ["in_progress"] /\ getJobStatus (getStepsByJob d 1) = "awaiting_review".
Proof. split; vm_compute; reflexivity. Qed.

(** C4 (amended): the stored job status is written only by createJob, which
    stores in_progress, equal to the status derived from the new steps
    (getJobStatus), and by an approval that sets it to completed;
    submitUpload never writes it. *)
Theorem job_status_written_on_create_and_completion :
  (forall db userId body title workerId drafts,
     lacks_role db userId "manager" = false ->
     jb_title body = Some title -> title <> "" ->
     jb_workerId body = Some workerId -> workerId <> "" ->
     jb_steps body = Some drafts -> drafts <> [] ->
     (forall s, In s (db_steps db) -> step_jobId s <> seq_jobs db) ->
     let j := mkJob (seq_jobs db) title (jb_description body) userId workerId "in_progress" in
     let db' := snd (jobs_post userId body db) in
     db_jobs db' = db_jobs db ++ [j] /\
     job_status j = "in_progress" /\
     getJobStatus (getStepsByJob db' (job_id j)) = job_status j) /\
  (forall db userId body, db_jobs (snd (uploads_post userId body db)) = db_jobs db) /\
  (forall db userId body,
     db_jobs (snd (reviews_post userId body db)) = db_jobs db \/
     exists jid, db_jobs (snd (reviews_post userId body db)) =
                 map (set_job_status jid "completed") (db_jobs db)).
Proof.
  split; [|split; [exact uploads_post_jobs | exact reviews_post_jobs]].
  intros db userId body title workerId drafts Hrole Ht Htne Hw Hwne Hs Hne Hfresh j db'.
  destruct (jobs_post_effect db userId body title workerId drafts Hrole Ht Htne Hw Hwne Hs Hne)
    as [Hjobs Hsteps].
  split; [exact Hjobs|]. split; [reflexivity|].
  unfold getStepsByJob. subst db'. rewrite Hsteps, filter_app.
  rewrite filter_none
    by (intros x Hx; apply Z.eqb_neq; exact (Hfresh x Hx)).
  rewrite filter_all
    by (intros x Hx; apply Z.eqb_eq; exact (new_steps_jobId _ _ _ _ _ Hx)).
  destruct drafts as [|d rest]; [contradiction|].
  rewrite app_nil_l, getJobStatus_sort, getJobStatus_new_steps. reflexivity.
Qed.

(** C5 (counterexample): step 1 is already approved, yet a new upload of a
    photo to it is accepted: a second Upload row is created and the step goes
    back to awaiting_review. *)
Lemma upload_to_approved_step_accepted :
  statuses db_step1_approved = ["approved"; "awaiting_upload"] /\
  fst (uploads_route "w" photo_parts (Some 1) db_step1_approved) =
    json_upload (mkUpload 2 1 "w" "f1" "a.jpg" "image/jpeg" 100) /\
  List.length (db_uploads (snd (uploads_route "w" photo_parts (Some 1) db_step1_approved)))
    = 2%nat /\
  statuses (snd (uploads_route "w" photo_parts (Some 1) db_step1_approved)) =
    ["awaiting_review"; "awaiting_upload"].
Proof. repeat split; vm_compute; reflexivity. Qed.

(** C5 (amended): submitUpload does not look at the step's status.  When
    the upload middleware accepts the file parts and the caller is a worker
    with a file and a non-zero step id naming an existing step, in any status
    (pending, approved, awaiting_review, ...), the route answers with the new
    Upload row, appends that row, and sets exactly that step to
    awaiting_review.  The middleware accepts one photo of type JPEG or PNG of
    at most 10 MB, and answers 500 when any part has another type or is
    larger, whatever the caller's role.  Every error answer leaves the
    database unchanged, and is either the middleware's 500 or one of the
    handler's 403, 400 and 404. *)
Theorem uploads_post_accepts_any_step_status : forall db userId files stepIdOpt,
  (forall f stepId st,
     multer_single None files = inl (Some f) ->
     lacks_role db userId "worker" = false ->
     stepIdOpt = Some stepId -> stepId <> 0 -> getStep db stepId = Some st ->
     let u := mkUpload (seq_uploads db) stepId userId (file_filename f) (file_originalname f)
                       (file_mimetype f) (file_size f) in
     fst (uploads_route userId files stepIdOpt db) = json_upload u /\
     db_uploads (snd (uploads_route userId files stepIdOpt db)) = db_uploads db ++ [u] /\
     map step_status (db_steps (snd (uploads_route userId files stepIdOpt db))) =
       map (reset_status stepId "awaiting_review") (db_steps db)) /\
  (forall f, In (file_mimetype f) allowedMimes -> file_size f <= fileSizeLimit ->
     multer_single None [mkIncoming "photo" f] = inl (Some f)) /\
  (forall f, In f files ->
     ~ In (file_mimetype (in_file f)) allowedMimes \/ fileSizeLimit < file_size (in_file f) ->
     exists msg, uploads_route userId files stepIdOpt db = (error 500 msg, db)) /\
  (forall c msg, fst (uploads_route userId files stepIdOpt db) = error c msg ->
     snd (uploads_route userId files stepIdOpt db) = db /\
     ((c = 500 /\ multer_single None files = inr msg) \/
      ((exists file, multer_single None files = inl file) /\ (c = 403 \/ c = 400 \/ c = 404)))).
Proof.
  intros db userId files stepIdOpt. split; [|split; [|split]].
  - intros f stepId st Hm Hrole Hid Hnz Hst u.
    unfold uploads_route. rewrite Hm.
    rewrite (uploads_post_valid db userId (mkUploadBody (Some f) stepIdOpt) f stepId st
               Hrole eq_refl Hid Hnz Hst).
    unfold createUpload. cbn [fst snd updateStepStatus db_uploads db_steps].
    rewrite map_status_update. repeat split; reflexivity.
  - intros f Hm Hs. cbn [multer_single in_field in_file].
    rewrite (proj2 (mime_allowed_iff _) Hm), (proj2 (Z.ltb_ge _ _) Hs). reflexivity.
  - intros f Hin Hbad. unfold uploads_route.
    destruct (multer_single_bad files None f Hin Hbad) as [m Hm]. rewrite Hm. eauto.
  - intros c msg. unfold uploads_route.
    destruct (multer_single None files) as [file|m] eqn:Em.
    + intros H. destruct (uploads_post_error _ _ _ _ _ H) as [Hdb Hc].
      split; [exact Hdb|]. right. split; [eauto|exact Hc].
    + cbn. intros H. injection H as <- <-. auto.
Qed.

(** C6 (counterexample): upload 1 of a three-step job has been approved
    (one Review row, step 2 activated).  Approving it again is accepted: a
    second Review row is created and the approval side effect runs again,
    activating step 3 as well. *)
Lemma second_approval_reapplied :
  List.length (db_reviews db_first_approved) = 1%nat /\
  statuses db_first_approved = ["approved"; "awaiting_upload"; "pending"] /\
  fst (reviews_post "m" (approve 1) db_first_approved) =
    json_review (mkReview 2 1 "m" "approved" None) /\
  List.length (db_reviews (snd (reviews_post "m" (approve 1) db_first_approved))) = 2%nat /\
  statuses (snd (reviews_post "m" (approve 1) db_first_approved)) =
    ["approved"; "awaiting_upload"; "awaiting_upload"].
Proof. repeat split; vm_compute; reflexivity. Qed.

(** C6 (amended): submitReview has no InvalidState outcome: it fails only
    with 403 (caller is not a manager) or 400 (schema validation), leaving
    the database unchanged, and every other call persists a new Review row.
    Its answer and its effect on the steps, the jobs and the uploads do not
    depend on the reviews already recorded.  An approval applies the
    approval's effect again whatever the step's status: when the step ids
    are distinct and the job has a pending step of greater order than the
    approved one, the approval sets the least such step to awaiting_upload,
    also on a second approval of the same upload. *)
Theorem reviews_post_no_duplicate_check : forall db userId body,
  ((lacks_role db userId "manager" = true /\
    reviews_post userId body db = (error 403 "Only managers can review uploads", db)) \/
   (validate_review body = None /\
    reviews_post userId body db = (error 400 "Validation error", db)) \/
   (exists v, lacks_role db userId "manager" = false /\ validate_review body = Some v /\
    let r := mkReview (seq_reviews db) (ri_uploadId v) userId (ri_status v) (ri_feedback v) in
    fst (reviews_post userId body db) = json_review r /\
    db_reviews (snd (reviews_post userId body db)) = db_reviews db ++ [r])) /\
  (forall rs,
     fst (reviews_post userId body (with_reviews db rs)) = fst (reviews_post userId body db) /\
     db_steps (snd (reviews_post userId body (with_reviews db rs))) =
       db_steps (snd (reviews_post userId body db)) /\
     db_jobs (snd (reviews_post userId body (with_reviews db rs))) =
       db_jobs (snd (reviews_post userId body db)) /\
     db_uploads (snd (reviews_post userId body (with_reviews db rs))) =
       db_uploads (snd (reviews_post userId body db))) /\
  (forall v up st next,
     ids_ok db = true ->
     lacks_role db userId "manager" = false -> validate_review body = Some v ->
     ri_status v = "approved" -> getUpload db (ri_uploadId v) = Some up ->
     getStep db (upload_stepId up) = Some st ->
     In next (db_steps db) -> step_jobId next = step_jobId st -> later_pending st next = true ->
     let steps1 := map (set_step_status (upload_stepId up) "approved") (db_steps db) in
     exists n, In n steps1 /\ step_jobId n = step_jobId st /\ later_pending st n = true /\
       (forall y, In y steps1 -> step_jobId y = step_jobId st ->
                  later_pending st y = true -> step_order n <= step_order y) /\
       db_steps (snd (reviews_post userId body db)) =
         map (set_step_status (step_id n) "awaiting_upload") steps1).
Proof.
  intros db userId body. split; [|split].
  - destruct (lacks_role db userId "manager") eqn:Hrole.
    + left. split; [reflexivity|]. unfold reviews_post. rewrite Hrole. reflexivity.
    + destruct (validate_review body) as [v|] eqn:Hv.
      * right; right. exists v. split; [reflexivity|]. split; [reflexivity|].
        exact (reviews_post_persists db userId body v Hrole Hv).
      * right; left. split; [reflexivity|]. unfold reviews_post. rewrite Hrole, Hv.
        reflexivity.
  - intros rs. apply reviews_post_with_reviews.
  - intros v up st next Hids Hrole Hv Hs Hup Hgs Hn Hjn Hpn steps1.
    rewrite (reviews_post_valid db userId body v Hrole Hv), Hup, Hs, String.eqb_refl.
    unfold createReview. cbv beta iota zeta.
    destruct (find_some _ _ Hgs) as [Hin Hid]. apply Z.eqb_eq in Hid.
    match goal with |- context [activate_next ?d ?i] =>
      destruct (activate_next_spec d i (set_step_status i "approved" st))
        as [(n & Hn' & Hj & Hp & Hl & ->)|(Hnone & _)];
      [apply getStep_update; exact Hgs| |]
    end.
    + cbn [db_steps updateStepStatus] in Hn', Hl |- *.
      rewrite set_step_status_jobId in Hj, Hl. rewrite later_pending_set in Hp.
      exists n. split; [exact Hn'|]. split; [exact Hj|]. split; [exact Hp|].
      split; [|reflexivity].
      intros y Hy Hjy Hpy. apply Hl; auto. now rewrite later_pending_set.
    + exfalso. cbn [db_steps updateStepStatus] in Hnone.
      assert (Hneq : step_id next <> upload_stepId up).
      { intros He. unfold ids_ok, serial_ok in Hids.
        apply andb_true_iff in Hids as [Hids _]. apply andb_true_iff in Hids as [Hids _].
        apply andb_true_iff in Hids as [_ Hids]. apply andb_true_iff in Hids as [Hnd _].
        assert (Heq : next = st) by (apply (nodupb_In_eq step_id (db_steps db)); congruence).
        subst next. unfold later_pending in Hpn. rewrite Z.ltb_irrefl in Hpn. discriminate. }
      assert (Hset : set_step_status (upload_stepId up) "approved" next = next).
      { unfold set_step_status. rewrite (proj2 (Z.eqb_neq _ _) Hneq). reflexivity. }
      specialize (Hnone next). rewrite later_pending_set, Hpn in Hnone.
      discriminate Hnone.
      * rewrite <- Hset. apply in_map. exact Hn.
      * rewrite set_step_status_jobId. exact Hjn.
Qed.

(** C7 (counterexample): a rejection of upload 1 with no feedback, and one
    with empty feedback, are both accepted and persisted. *)
Lemma reject_without_feedback_persisted :
  fst (reviews_post "m" (reject 1 None) (db_uploaded 1)) =
    json_review (mkReview 1 1 "m" "rejected" None) /\
  List.length (db_reviews (snd (reviews_post "m" (reject 1 None) (db_uploaded 1)))) = 1%nat /\
  fst (reviews_post "m" (reject 1 (Some "")) (db_uploaded 1)) =
    json_review (mkReview 1 1 "m" "rejected" (Some "")) /\
  List.length (db_reviews (snd (reviews_post "m" (reject 1 (Some "")) (db_uploaded 1)))) = 1%nat.
Proof. repeat split; vm_compute; reflexivity. Qed.

(** C7 (amended): the feedback of a rejection is not checked.  A manager's
    rejection carrying an upload id and a manager id is persisted with its
    feedback as given, missing or empty included; the only 400 of
    submitReview comes from schema validation (a missing uploadId, managerId
    or status), and it creates no Review row. *)
Theorem reviews_post_rejected_without_feedback :
  (forall db userId uploadId managerId fb,
     lacks_role db userId "manager" = false ->
     let body := mkReviewBody (Some uploadId) (Some managerId) (Some "rejected") fb in
     let r := mkReview (seq_reviews db) uploadId userId "rejected" fb in
     fst (reviews_post userId body db) = json_review r /\
     db_reviews (snd (reviews_post userId body db)) = db_reviews db ++ [r]) /\
  (forall db userId body,
     lacks_role db userId "manager" = false ->
     validate_review body = None ->
     reviews_post userId body db = (error 400 "Validation error", db)).
Proof.
  split.
  - intros db userId uploadId managerId fb Hrole body r.
    exact (reviews_post_persists db userId body
             (mkReviewInput uploadId managerId "rejected" fb) Hrole eq_refl).
  - intros db userId body Hrole Hv. unfold reviews_post. rewrite Hrole, Hv. reflexivity.
Qed.

(** C8 (counterexample): job 1 is assigned to worker "w", but worker "w2"
    uploads to its step 1 and the upload is accepted. *)
Lemma other_worker_upload_accepted :
  map job_workerId (db_jobs (db_created 1)) = ["w"] /\
  fst (uploads_post "w2" (upload_to 1) (db_created 1)) =
    json_upload (mkUpload 1 1 "w2" "f1" "a.jpg" "image/jpeg" 100) /\
  List.length (db_uploads (snd (uploads_post "w2" (upload_to 1) (db_created 1)))) = 1%nat.
Proof. repeat split; vm_compute; reflexivity. Qed.

(** C8 (amended): submitUpload checks only the caller's role.  A caller who
    is not a worker gets 403 and nothing changes; any worker, assigned to the
    step's job or not, who sends a file and a non-zero id of an existing step
    gets a new Upload row recorded under their own id. *)
Theorem uploads_post_checks_role_only :
  (forall db userId body,
     lacks_role db userId "worker" = true ->
     uploads_post userId body db = (error 403 "Only workers can upload photos", db)) /\
  (forall db userId body f stepId st,
     lacks_role db userId "worker" = false ->
     ub_file body = Some f -> ub_stepId body = Some stepId -> stepId <> 0 ->
     getStep db stepId = Some st ->
     exists u, fst (uploads_post userId body db) = json_upload u /\
       upload_workerId u = userId /\ upload_stepId u = stepId /\
       db_uploads (snd (uploads_post userId body db)) = db_uploads db ++ [u]).
Proof.
  split.
  - intros db userId body Hrole. unfold uploads_post. rewrite Hrole. reflexivity.
  - intros db userId body f stepId st Hrole Hf Hid Hnz Hst.
    rewrite (uploads_post_valid db userId body f stepId st Hrole Hf Hid Hnz Hst).
    unfold createUpload. cbn [fst snd updateStepStatus db_uploads].
    eexists. repeat split; reflexivity.
Qed.

(** C9: a manager's createJob with a title and a worker fails with 400 and
    changes nothing when the step list is missing or empty; otherwise it
    appends the Job with status in_progress and one Step per draft, in draft
    order, the k-th (from 0) with the draft's title, order k + 1 and status
    awaiting_upload for k = 0 and pending for the others. *)
Theorem jobs_post_creates_job_and_steps :
  (forall db userId body,
     lacks_role db userId "manager" = false ->
     (jb_steps body = None \/ jb_steps body = Some []) ->
     jobs_post userId body db =
       (error 400 "Title, worker ID, and at least one step are required", db)) /\
  (forall db userId body title workerId drafts,
     lacks_role db userId "manager" = false ->
     jb_title body = Some title -> title <> "" ->
     jb_workerId body = Some workerId -> workerId <> "" ->
     jb_steps body = Some drafts -> drafts <> [] ->
     let db' := snd (jobs_post userId body db) in
     db_jobs db' = db_jobs db ++ [mkJob (seq_jobs db) title (jb_description body) userId
                                        workerId "in_progress"] /\
     exists created,
       db_steps db' = db_steps db ++ created /\
       List.length created = List.length drafts /\
       forall k d, nth_error drafts k = Some d ->
         exists s, nth_error created k = Some s /\
           step_jobId s = seq_jobs db /\ step_title s = draft_title d /\
           step_order s = Z.of_nat k + 1 /\
           step_status s = (if Nat.eqb k 0 then "awaiting_upload" else "pending")).
Proof.
  split.
  - intros db userId body Hrole Hs. unfold jobs_post. rewrite Hrole.
    destruct Hs as [-> | ->]; [reflexivity|].
    rewrite !orb_true_r. reflexivity.
  - intros db userId body title workerId drafts Hrole Ht Htne Hw Hwne Hs Hne db'.
    destruct (jobs_post_effect db userId body title workerId drafts Hrole Ht Htne Hw Hwne
                Hs Hne) as [Hjobs Hsteps].
    split; [exact Hjobs|].
    exists (new_steps (seq_steps db) (seq_jobs db) 0 drafts).
    split; [exact Hsteps|]. split; [apply new_steps_length|].
    intros k d Hk.
    destruct (new_steps_nth drafts k d (seq_steps db) (seq_jobs db) 0 Hk)
      as (s & Hn & Hj & Htl & Ho & Hst).
    exists s. repeat split; auto.
    rewrite Hst. destruct k; reflexivity.
Qed.

(** C10: getWorkerCurrentStep returns nothing when the worker has no job
    with stored status in_progress.  Otherwise every result it can give (the
    job query may return any in_progress job of the worker, the step query any
    step of least order) comes from one in_progress job of the worker: it is
    a step of that job that is not approved and has the least order among
    the job's steps that are not approved, or nothing when every step of the
    job is approved.  Each in_progress job of the worker, and each such step
    of it, can be the one returned. *)
Theorem getWorkerCurrentStep_spec : forall db w,
  ((forall j, In j (db_jobs db) -> job_workerId j = w -> job_status j <> "in_progress") ->
   getWorkerCurrentStep db w = [None]) /\
  (forall r, In r (getWorkerCurrentStep db w) ->
     (r = None /\
      forall j, In j (db_jobs db) -> job_workerId j = w -> job_status j <> "in_progress") \/
     exists j, In j (db_jobs db) /\ job_workerId j = w /\ job_status j = "in_progress" /\
       match r with
       | None => forall y, In y (db_steps db) -> step_jobId y = job_id j ->
                           step_status y = "approved"
       | Some s => In s (db_steps db) /\ step_jobId s = job_id j /\
                   step_status s <> "approved" /\
                   (forall y, In y (db_steps db) -> step_jobId y = job_id j ->
                              step_status y <> "approved" -> step_order s <= step_order y)
       end) /\
  (forall j, In j (db_jobs db) -> job_workerId j = w -> job_status j = "in_progress" ->
     ((forall y, In y (db_steps db) -> step_jobId y = job_id j -> step_status y = "approved") ->
      In None (getWorkerCurrentStep db w)) /\
     (forall s, In s (db_steps db) -> step_jobId s = job_id j -> step_status s <> "approved" ->
        (forall y, In y (db_steps db) -> step_jobId y = job_id j ->
                   step_status y <> "approved" -> step_order s <= step_order y) ->
        In (Some s) (getWorkerCurrentStep db w))).
Proof.
  intros db w. unfold getWorkerCurrentStep.
  assert (Hj : forall j, In j (filter (is_active_job w) (db_jobs db)) <->
                 In j (db_jobs db) /\ job_workerId j = w /\ job_status j = "in_progress").
  { intros j. rewrite filter_In, is_active_job_true. reflexivity. }
  revert Hj. destruct (filter (is_active_job w) (db_jobs db)) as [|j0 js]; intros Hj.
  - assert (Hno : forall j, In j (db_jobs db) -> job_workerId j = w ->
                            job_status j <> "in_progress").
    { intros j Hin Hw Hs. apply (proj2 (Hj j)). auto. }
    split; [reflexivity|]. split.
    + intros r [<-|[]]. left. auto.
    + intros j Hin Hw Hs. exfalso. exact (Hno j Hin Hw Hs).
  - split; [|split].
    + intros Hno. exfalso.
      destruct (proj1 (Hj j0) (or_introl eq_refl)) as (H1 & H2 & H3).
      exact (Hno j0 H1 H2 H3).
    + intros r Hr. apply in_flat_map in Hr as (j & Hin & Hr). right. exists j.
      destruct (proj1 (Hj j) Hin) as (H1 & H2 & H3).
      split; [exact H1|]. split; [exact H2|]. split; [exact H3|].
      exact (proj1 (current_step_choices_spec db j r) Hr).
    + intros j Hin Hw Hs.
      assert (Hj' : In j (j0 :: js)) by (apply Hj; auto).
      split.
      * intros Hall. apply in_flat_map. exists j. split; [exact Hj'|].
        apply current_step_choices_spec. exact Hall.
      * intros s H1 H2 H3 H4. apply in_flat_map. exists j. split; [exact Hj'|].
        apply current_step_choices_spec. auto.
Qed.

(** ** Witnesses: each claim's theorem applied to the example database *)

(** C1 applied to the rejection (with feedback) of upload 1 of a one-step
    job. *)
Lemma reviews_post_rejected_resets_step_witness :
  lacks_role (db_uploaded 1) "m" "manager" = false /\
  getUpload (db_uploaded 1) 1 = Some upload1 /\
  (let r := mkReview (seq_reviews (db_uploaded 1)) 1 "m" "rejected" (Some "blurry") in
   let (resp, db') := reviews_post "m" (reject 1 (Some "blurry")) (db_uploaded 1) in
   resp = json_review r /\
   db_reviews db' = db_reviews (db_uploaded 1) ++ [r] /\
   map step_status (db_steps db') =
     map (fun s => if Z.eqb (step_id s) (upload_stepId upload1)
                   then "awaiting_upload" else step_status s) (db_steps (db_uploaded 1)) /\
   map step_id (db_steps db') = map step_id (db_steps (db_uploaded 1)) /\
   db_jobs db' = db_jobs (db_uploaded 1)).
Proof.
  split; [reflexivity|]. split; [vm_compute; reflexivity|].
  exact (reviews_post_rejected_resets_step (db_uploaded 1) "m" (reject 1 (Some "blurry"))
           (mkReviewInput 1 "m" "rejected" (Some "blurry")) upload1
           eq_refl eq_refl eq_refl eq_refl).
Defined.

(** C2 applied to the approval of upload 1 on step 1 of a two-step job. *)
Lemma reviews_post_approved_activates_next_witness :
  getUpload (db_uploaded 2) 1 = Some upload1 /\
  getStep (db_uploaded 2) 1 = Some (mkStep 1 1 "A" None None 1 "awaiting_review") /\
  (let st := mkStep 1 1 "A" None None 1 "awaiting_review" in
   let r := mkReview (seq_reviews (db_uploaded 2)) 1 "m" "approved" None in
   let steps1 := map (set_step_status 1 "approved") (db_steps (db_uploaded 2)) in
   let (resp, db') := reviews_post "m" (approve 1) (db_uploaded 2) in
   resp = json_review r /\
   db_reviews db' = db_reviews (db_uploaded 2) ++ [r] /\
   In (set_step_status 1 "approved" st) steps1 /\
   step_status (set_step_status 1 "approved" st) = "approved" /\
   ((exists next,
        In next steps1 /\ step_jobId next = step_jobId st /\
        later_pending st next = true /\
        (forall y, In y steps1 -> step_jobId y = step_jobId st ->
                   later_pending st y = true -> step_order next <= step_order y) /\
        db_steps db' = map (set_step_status (step_id next) "awaiting_upload") steps1 /\
        db_jobs db' = db_jobs (db_uploaded 2))
    \/
    ((forall y, In y steps1 -> step_jobId y = step_jobId st ->
                later_pending st y = false) /\
     db_steps db' = steps1 /\
     db_jobs db' = (if later_all_approved st steps1
                    then map (set_job_status (step_jobId st) "completed")
                             (db_jobs (db_uploaded 2))
                    else db_jobs (db_uploaded 2))))).
Proof.
  assert (Hs : getStep (db_uploaded 2) 1 = Some (mkStep 1 1 "A" None None 1 "awaiting_review"))
    by (vm_compute; reflexivity).
  split; [vm_compute; reflexivity|]. split; [exact Hs|].
  exact (reviews_post_approved_activates_next (db_uploaded 2) "m" (approve 1)
           (mkReviewInput 1 "m" "approved" None) upload1 _
           eq_refl eq_refl eq_refl eq_refl Hs).
Defined.

(** C3 applied to the creation of a two-step job. *)
Lemma active_steps_at_most_one_witness :
  active_count (db_created 2) 1 = 1%nat.
Proof.
  exact (proj1 (proj1 active_steps_at_most_one db0 "m" (job_body 2) "Roof" "w"
                  [draft "A"; draft "B"] eq_refl eq_refl ltac:(discriminate)
                  eq_refl ltac:(discriminate) eq_refl ltac:(discriminate)
                  (fun s H => match H with end))).
Defined.

(** C4 applied to the creation of a three-step job. *)
Lemma job_status_written_on_create_and_completion_witness :
  db_jobs (db_created 3) = [mkJob 1 "Roof" None "m" "w" "in_progress"] /\
  getJobStatus (getStepsByJob (db_created 3) 1) = "in_progress".
Proof.
  destruct (proj1 job_status_written_on_create_and_completion db0 "m" (job_body 3) "Roof" "w"
              [draft "A"; draft "B"; draft "C"] eq_refl eq_refl ltac:(discriminate)
              eq_refl ltac:(discriminate) eq_refl ltac:(discriminate)
              (fun s H => match H with end)) as (Hj & Hst & Hg).
  split; [exact Hj|]. rewrite Hst in Hg. exact Hg.
Defined.

(** C5 applied to an upload of a photo to the already approved step 1, and
    to a GIF sent by the manager. *)
Lemma uploads_post_accepts_any_step_status_witness :
  getStep db_step1_approved 1 = Some (mkStep 1 1 "A" None None 1 "approved") /\
  fst (uploads_route "w" photo_parts (Some 1) db_step1_approved) =
    json_upload (mkUpload (seq_uploads db_step1_approved) 1 "w" "f1" "a.jpg" "image/jpeg" 100) /\
  multer_single None photo_parts = inl (Some photo) /\
  exists msg, uploads_route "m" [mkIncoming "photo" (mkFile "f2" "a.gif" "image/gif" 100)]
                (Some 1) db_step1_approved = (error 500 msg, db_step1_approved).
Proof.
  assert (Hs : getStep db_step1_approved 1 = Some (mkStep 1 1 "A" None None 1 "approved"))
    by (vm_compute; reflexivity).
  assert (Hm : multer_single None photo_parts = inl (Some photo)).
  { apply (proj1 (proj2 (uploads_post_accepts_any_step_status db_step1_approved "w"
                           photo_parts (Some 1)))).
    - left. reflexivity.
    - unfold fileSizeLimit. cbn. lia. }
  split; [exact Hs|]. split.
  - exact (proj1 (proj1 (uploads_post_accepts_any_step_status db_step1_approved "w"
                           photo_parts (Some 1)) photo 1 _ Hm eq_refl eq_refl
                           ltac:(discriminate) Hs)).
  - split; [exact Hm|].
    apply (proj1 (proj2 (proj2 (uploads_post_accepts_any_step_status db_step1_approved "m"
             [mkIncoming "photo" (mkFile "f2" "a.gif" "image/gif" 100)] (Some 1))))
             (mkIncoming "photo" (mkFile "f2" "a.gif" "image/gif" 100))).
    + left. reflexivity.
    + left. cbn. intros [H|[H|[H|[]]]]; discriminate.
Defined.

(** C6 applied to a second approval of upload 1 in a three-step job: step 3,
    still pending, is activated. *)
Lemma reviews_post_no_duplicate_check_witness :
  exists n, In n (map (set_step_status 1 "approved") (db_steps db_first_approved)) /\
    step_jobId n = 1 /\
    db_steps (snd (reviews_post "m" (approve 1) db_first_approved)) =
      map (set_step_status (step_id n) "awaiting_upload")
          (map (set_step_status 1 "approved") (db_steps db_first_approved)).
Proof.
  destruct (proj2 (proj2 (reviews_post_no_duplicate_check db_first_approved "m" (approve 1)))
              (mkReviewInput 1 "m" "approved" None) upload1
              (mkStep 1 1 "A" None None 1 "approved")
              (mkStep 3 1 "C" None None 3 "pending")) as (n & Hn & Hj & _ & _ & Hs).
  - vm_compute. reflexivity.
  - vm_compute. reflexivity.
  - reflexivity.
  - reflexivity.
  - vm_compute. reflexivity.
  - vm_compute. reflexivity.
  - vm_compute. right; right; left. reflexivity.
  - reflexivity.
  - reflexivity.
  - exists n. split; [exact Hn|]. split; [exact Hj|]. exact Hs.
Defined.

(** C7 applied to a rejection of upload 1 without feedback, and to a body
    without an upload id. *)
Lemma reviews_post_rejected_without_feedback_witness :
  fst (reviews_post "m" (reject 1 None) (db_uploaded 1)) =
    json_review (mkReview (seq_reviews (db_uploaded 1)) 1 "m" "rejected" None) /\
  reviews_post "m" (mkReviewBody None (Some "m") (Some "rejected") None) (db_uploaded 1) =
    (error 400 "Validation error", db_uploaded 1).
Proof.
  split.
  - exact (proj1 (proj1 reviews_post_rejected_without_feedback (db_uploaded 1) "m" 1 "m" None
                    eq_refl)).
  - exact (proj2 reviews_post_rejected_without_feedback (db_uploaded 1) "m"
             (mkReviewBody None (Some "m") (Some "rejected") None) eq_refl eq_refl).
Defined.

(** C8 applied to an upload by the manager and to one by worker "w2", who is
    not assigned to job 1. *)
Lemma uploads_post_checks_role_only_witness :
  uploads_post "m" (upload_to 1) (db_created 1) =
    (error 403 "Only workers can upload photos", db_created 1) /\
  exists u, fst (uploads_post "w2" (upload_to 1) (db_created 1)) = json_upload u /\
            upload_workerId u = "w2".
Proof.
  assert (Hs : getStep (db_created 1) 1 = Some (mkStep 1 1 "A" None None 1 "awaiting_upload"))
    by (vm_compute; reflexivity).
  split; [exact (proj1 uploads_post_checks_role_only (db_created 1) "m" (upload_to 1) eq_refl)|].
  destruct (proj2 uploads_post_checks_role_only (db_created 1) "w2" (upload_to 1) photo 1 _
              eq_refl eq_refl eq_refl ltac:(discriminate) Hs) as (u & Hu & Hw & _ & _).
  exists u. split; assumption.
Defined.

(** C9 applied to a job without steps and to a three-step job. *)
Lemma jobs_post_creates_job_and_steps_witness :
  jobs_post "m" (job_body 0) db0 =
    (error 400 "Title, worker ID, and at least one step are required", db0) /\
  db_jobs (db_created 3) = [mkJob 1 "Roof" None "m" "w" "in_progress"].
Proof.
  split.
  - exact (proj1 jobs_post_creates_job_and_steps db0 "m" (job_body 0) eq_refl
             (or_intror eq_refl)).
  - exact (proj1 (proj2 jobs_post_creates_job_and_steps db0 "m" (job_body 3) "Roof" "w"
                    [draft "A"; draft "B"; draft "C"] eq_refl eq_refl ltac:(discriminate)
                    eq_refl ltac:(discriminate) eq_refl ltac:(discriminate))).
Defined.

(** C10 applied to worker "w2", who has no job, and to worker "w" after
    step 1 of their two-step job has been approved. *)
Lemma getWorkerCurrentStep_spec_witness :
  getWorkerCurrentStep (db_created 1) "w2" = [None] /\
  In (Some (mkStep 2 1 "B" None None 2 "awaiting_upload"))
     (getWorkerCurrentStep db_step1_approved "w").
Proof.
  split.
  - apply (proj1 (getWorkerCurrentStep_spec (db_created 1) "w2")).
    vm_compute. intros j [<-|[]] H. discriminate.
  - apply (proj2 (proj2 (getWorkerCurrentStep_spec db_step1_approved "w"))
             (mkJob 1 "Roof" None "m" "w" "in_progress")).
    + vm_compute. left. reflexivity.
    + reflexivity.
    + reflexivity.
    + vm_compute. right. left. reflexivity.
    + reflexivity.
    + discriminate.
    + intros y Hy Hjy Hny. vm_compute in Hy.
      destruct Hy as [<-|[<-|[]]].
      * exfalso. apply Hny. reflexivity.
      * cbn. lia.
Defined.

(** ** Further properties of the storage layer, the routes and the client *)

(** *** List lemmas *)

Lemma filter_twice : forall {A} (p q : A -> bool) l,
  filter p (filter q l) = filter (fun x => q x && p x) l.
Proof.
  intros A p q l; induction l as [|x l IH]; simpl; [reflexivity|].
  destruct (q x); simpl; [destruct (p x)|]; rewrite IH; reflexivity.
Qed.

Lemma existsb_filter_and : forall {A} (f p : A -> bool) l,
  existsb f (filter p l) = existsb (fun x => p x && f x) l.
Proof.
  intros A f p l; induction l as [|x l IH]; simpl; [reflexivity|].
  destruct (p x); simpl; rewrite IH; reflexivity.
Qed.

Lemma existsb_orb_split : forall {A} (f g : A -> bool) l,
  existsb f l || existsb g l = existsb (fun x => f x || g x) l.
Proof.
  intros A f g l; induction l as [|x l IH]; simpl; [reflexivity|].
  rewrite <- IH. destruct (f x), (g x), (existsb f l), (existsb g l); reflexivity.
Qed.

Lemma existsb_ext_in : forall {A} (f g : A -> bool) l,
  (forall x, f x = g x) -> existsb f l = existsb g l.
Proof.
  intros A f g l H; induction l as [|x l IH]; simpl; [reflexivity|]. now rewrite H, IH.
Qed.

Lemma forallb_ext_in : forall {A} (f g : A -> bool) l,
  (forall x, In x l -> f x = g x) -> forallb f l = forallb g l.
Proof.
  intros A f g l H; induction l as [|x l IH]; simpl; [reflexivity|].
  rewrite H by (simpl; auto). f_equal. apply IH. intros; apply H; simpl; auto.
Qed.

Lemma filter_true_fun : forall {A} (l : list A), filter (fun _ => true) l = l.
Proof. intros A l; induction l; simpl; congruence. Qed.

Lemma existsb_app_l : forall {A} (f : A -> bool) l l',
  existsb f l = true -> existsb f (l ++ l') = true.
Proof. intros. rewrite existsb_app, H. reflexivity. Qed.

Lemma existsb_In_true : forall {A} (f : A -> bool) l x,
  In x l -> f x = true -> existsb f l = true.
Proof. intros. apply existsb_exists. eauto. Qed.

(** *** Deletions *)

Lemma delete_reviews_of_uploads_db : forall us d,
  delete_reviews_of_uploads d us =
  mkDB (db_users d) (db_jobs d) (db_steps d) (db_uploads d)
       (filter (fun r => negb (existsb (fun u => Z.eqb (review_uploadId r) (upload_id u)) us))
               (db_reviews d))
       (seq_jobs d) (seq_steps d) (seq_uploads d) (seq_reviews d).
Proof.
  unfold delete_reviews_of_uploads.
  induction us as [|u us IH]; intros d; simpl.
  - destruct d; simpl. now rewrite filter_true_fun.
  - rewrite IH. unfold delete_reviews_where_upload. simpl. f_equal.
    rewrite filter_twice. apply filter_ext. intros r.
    destruct (Z.eqb (review_uploadId r) (upload_id u)); reflexivity.
Qed.

Lemma fold_delete_step_uploads : forall ss d,
  fold_left delete_step_uploads ss d =
  mkDB (db_users d) (db_jobs d) (db_steps d)
       (filter (fun u => negb (existsb (fun s => Z.eqb (upload_stepId u) (step_id s)) ss))
               (db_uploads d))
       (filter (fun r => negb (existsb (fun u =>
                  existsb (fun s => Z.eqb (upload_stepId u) (step_id s)) ss
                  && Z.eqb (review_uploadId r) (upload_id u)) (db_uploads d)))
               (db_reviews d))
       (seq_jobs d) (seq_steps d) (seq_uploads d) (seq_reviews d).
Proof.
  induction ss as [|s ss IH]; intros d; simpl.
  - destruct d; simpl. f_equal; symmetry; apply filter_all; intros x _; [reflexivity|].
    clear. induction db_uploads0; simpl; auto.
  - rewrite IH. unfold delete_step_uploads, delete_uploads_where_step.
    rewrite delete_reviews_of_uploads_db. simpl. f_equal.
    + rewrite filter_twice. apply filter_ext. intros u.
      destruct (Z.eqb (upload_stepId u) (step_id s)); reflexivity.
    + rewrite filter_twice. apply filter_ext. intros r.
      rewrite !existsb_filter_and, <- negb_orb, existsb_orb_split. f_equal.
      apply existsb_ext_in. intros u.
      destruct (Z.eqb (upload_stepId u) (step_id s)),
               (existsb (fun s0 => Z.eqb (upload_stepId u) (step_id s0)) ss),
               (Z.eqb (review_uploadId r) (upload_id u)); reflexivity.
Qed.

(** The tables after [deleteJob]. *)
Lemma deleteJob_db : forall db id,
  let gone_upload := fun u => existsb (fun s => Z.eqb (step_jobId s) id
                                               && Z.eqb (upload_stepId u) (step_id s))
                                      (db_steps db) in
  deleteJob db id =
  mkDB (db_users db)
       (filter (fun j => negb (Z.eqb (job_id j) id)) (db_jobs db))
       (filter (fun s => negb (Z.eqb (step_jobId s) id)) (db_steps db))
       (filter (fun u => negb (gone_upload u)) (db_uploads db))
       (filter (fun r => negb (existsb (fun u => gone_upload u
                                                 && Z.eqb (review_uploadId r) (upload_id u))
                                       (db_uploads db)))
               (db_reviews db))
       (seq_jobs db) (seq_steps db) (seq_uploads db) (seq_reviews db).
Proof.
  intros db id gone_upload. unfold deleteJob.
  rewrite fold_delete_step_uploads.
  unfold delete_steps_where_job, delete_jobs_where_id. simpl. f_equal.
  - apply filter_ext. intros u. now rewrite existsb_filter_and.
  - apply filter_ext. intros r. f_equal. apply existsb_ext_in. intros u.
    now rewrite existsb_filter_and.
Qed.

(** The tables after [deleteStep]. *)
Lemma deleteStep_db : forall db id,
  deleteStep db id =
  mkDB (db_users db) (db_jobs db)
       (filter (fun s => negb (Z.eqb (step_id s) id)) (db_steps db))
       (filter (fun u => negb (Z.eqb (upload_stepId u) id)) (db_uploads db))
       (filter (fun r => negb (existsb (fun u => Z.eqb (upload_stepId u) id
                                                 && Z.eqb (review_uploadId r) (upload_id u))
                                       (db_uploads db)))
               (db_reviews db))
       (seq_jobs db) (seq_steps db) (seq_uploads db) (seq_reviews db).
Proof.
  intros db id. unfold deleteStep.
  rewrite delete_reviews_of_uploads_db.
  unfold delete_uploads_where_step, delete_steps_where_id. simpl. f_equal.
  apply filter_ext. intros r. now rewrite existsb_filter_and.
Qed.

Lemma refs_ok_iff : forall db,
  refs_ok db = true <->
  (forall s, In s (db_steps db) -> exists j, In j (db_jobs db) /\ job_id j = step_jobId s) /\
  (forall u, In u (db_uploads db) -> exists s, In s (db_steps db) /\ step_id s = upload_stepId u) /\
  (forall r, In r (db_reviews db) ->
     exists u, In u (db_uploads db) /\ upload_id u = review_uploadId r).
Proof.
  intros db. unfold refs_ok. rewrite !andb_true_iff, !forallb_forall.
  split.
  - intros [[H1 H2] H3]. split; [|split]; intros x Hx.
    + destruct (proj1 (existsb_exists _ _) (H1 x Hx)) as (y & Hy & E).
      apply Z.eqb_eq in E. eauto.
    + destruct (proj1 (existsb_exists _ _) (H2 x Hx)) as (y & Hy & E).
      apply Z.eqb_eq in E. eauto.
    + destruct (proj1 (existsb_exists _ _) (H3 x Hx)) as (y & Hy & E).
      apply Z.eqb_eq in E. eauto.
  - intros (H1 & H2 & H3). split; [split|]; intros x Hx; apply existsb_exists.
    + destruct (H1 x Hx) as (y & Hy & E). exists y. split; [exact Hy|]. now apply Z.eqb_eq.
    + destruct (H2 x Hx) as (y & Hy & E). exists y. split; [exact Hy|]. now apply Z.eqb_eq.
    + destruct (H3 x Hx) as (y & Hy & E). exists y. split; [exact Hy|]. now apply Z.eqb_eq.
Qed.

Lemma deleteJob_refs_ok : forall db id,
  refs_ok db = true -> refs_ok (deleteJob db id) = true.
Proof.
  intros db id H. rewrite refs_ok_iff in *. rewrite deleteJob_db. cbn [db_jobs db_steps
    db_uploads db_reviews].
  destruct H as (H1 & H2 & H3). split; [|split]; intros x Hx; apply filter_In in Hx as [Hx Hn].
  - destruct (H1 x Hx) as (j & Hj & E). exists j. split; [|exact E].
    apply filter_In. split; [exact Hj|]. now rewrite E.
  - destruct (H2 x Hx) as (s & Hs & E). exists s. split; [|exact E].
    apply filter_In. split; [exact Hs|].
    destruct (Z.eqb (step_jobId s) id) eqn:Ej; [|reflexivity].
    rewrite (existsb_In_true _ _ s Hs) in Hn; [discriminate|].
    now rewrite Ej, <- E, Z.eqb_refl.
  - destruct (H3 x Hx) as (u & Hu & E). exists u. split; [|exact E].
    apply filter_In. split; [exact Hu|].
    destruct (existsb _ (db_steps db)) eqn:Eg; [|reflexivity].
    rewrite (existsb_In_true _ _ u Hu) in Hn; [discriminate|].
    now rewrite Eg, <- E, Z.eqb_refl.
Qed.

Lemma deleteStep_refs_ok : forall db id,
  refs_ok db = true -> refs_ok (deleteStep db id) = true.
Proof.
  intros db id H. rewrite refs_ok_iff in *. rewrite deleteStep_db. cbn [db_jobs db_steps
    db_uploads db_reviews].
  destruct H as (H1 & H2 & H3). split; [|split]; intros x Hx; apply filter_In in Hx as [Hx Hn].
  - exact (H1 x Hx).
  - destruct (H2 x Hx) as (s & Hs & E). exists s. split; [|exact E].
    apply filter_In. split; [exact Hs|]. now rewrite E.
  - destruct (H3 x Hx) as (u & Hu & E). exists u. split; [|exact E].
    apply filter_In. split; [exact Hu|].
    destruct (Z.eqb (upload_stepId u) id) eqn:Eg; [|reflexivity].
    rewrite (existsb_In_true _ _ u Hu) in Hn; [discriminate|].
    now rewrite Eg, <- E, Z.eqb_refl.
Qed.

(** *** Serial ids *)

Lemma nodupb_snoc : forall l x,
  nodupb l = true -> existsb (Z.eqb x) l = false -> nodupb (l ++ [x]) = true.
Proof.
  induction l as [|y l IH]; intros x Hl Hx; [reflexivity|].
  simpl in Hl, Hx |- *. apply andb_true_iff in Hl as [Hy Hl].
  apply orb_false_iff in Hx as [Hxy Hx].
  rewrite IH by assumption. rewrite existsb_app. simpl.
  rewrite Z.eqb_sym, Hxy. apply negb_true_iff in Hy. rewrite Hy. reflexivity.
Qed.

Lemma existsb_lt_seq : forall ids seq,
  forallb (fun i => Z.ltb i seq) ids = true -> existsb (Z.eqb seq) ids = false.
Proof.
  induction ids as [|i ids IH]; intros seq H; [reflexivity|].
  simpl in H |- *. apply andb_true_iff in H as [Hi H].
  rewrite IH by exact H. apply Z.ltb_lt in Hi.
  rewrite (proj2 (Z.eqb_neq _ _)) by lia. reflexivity.
Qed.

Lemma serial_ok_snoc : forall ids seq,
  serial_ok ids seq = true -> serial_ok (ids ++ [seq]) (seq + 1) = true.
Proof.
  unfold serial_ok. intros ids seq H. apply andb_true_iff in H as [Hn Hf].
  apply andb_true_iff. split.
  - apply nodupb_snoc; [exact Hn|]. now apply existsb_lt_seq.
  - rewrite forallb_app. apply andb_true_iff. split.
    + rewrite forallb_forall in *. intros i Hi. specialize (Hf i Hi).
      apply Z.ltb_lt in Hf. apply Z.ltb_lt. lia.
    + simpl. rewrite andb_true_r. apply Z.ltb_lt. lia.
Qed.

Lemma serial_ok_filter : forall {A} (f : A -> Z) p l seq,
  serial_ok (map f l) seq = true -> serial_ok (map f (filter p l)) seq = true.
Proof.
  unfold serial_ok. intros A f p l seq H. apply andb_true_iff in H as [Hn Hf].
  apply andb_true_iff. split.
  - clear Hf. induction l as [|x l IH]; [reflexivity|].
    cbn [map nodupb] in Hn. apply andb_true_iff in Hn as [Hx Hn]. cbn [filter].
    destruct (p x); [cbn [map nodupb]|exact (IH Hn)].
    rewrite (IH Hn), andb_true_r. apply negb_true_iff.
    destruct (existsb (Z.eqb (f x)) (map f (filter p l))) eqn:E; [|reflexivity].
    apply existsb_exists in E as (y & Hy & Ey).
    apply in_map_iff in Hy as (z & <- & Hz). apply filter_In in Hz as [Hz _].
    apply negb_true_iff in Hx. rewrite <- Hx. symmetry.
    apply existsb_exists. exists (f z). split; [apply in_map; exact Hz|exact Ey].
  - rewrite forallb_forall in *. intros i Hi. apply Hf.
    apply in_map_iff in Hi as (z & <- & Hz). apply filter_In in Hz as [Hz _].
    now apply in_map.
Qed.

Lemma map_job_id_update : forall i st l,
  map job_id (map (set_job_status i st) l) = map job_id l.
Proof.
  intros; rewrite map_map; apply map_ext; intros j.
  unfold set_job_status; destruct (Z.eqb (job_id j) i); reflexivity.
Qed.

Ltac ids_ok_split H :=
  unfold ids_ok in H; apply andb_true_iff in H as [H ?H];
  apply andb_true_iff in H as [H ?H]; apply andb_true_iff in H as [H ?H].

Lemma ids_ok_updateStepStatus : forall d i st,
  ids_ok (updateStepStatus d i st) = ids_ok d.
Proof. intros. unfold ids_ok, updateStepStatus. simpl. now rewrite map_step_id_update. Qed.

Lemma ids_ok_updateJobStatus : forall d i st,
  ids_ok (updateJobStatus d i st) = ids_ok d.
Proof. intros. unfold ids_ok, updateJobStatus. simpl. now rewrite map_job_id_update. Qed.

Lemma ids_ok_activate_next : forall d i, ids_ok (activate_next d i) = ids_ok d.
Proof.
  intros d i. unfold activate_next.
  destruct (getStep d i) as [step|]; [|reflexivity].
  destruct (find _ _); [apply ids_ok_updateStepStatus|].
  destruct (forallb _ _); [apply ids_ok_updateJobStatus|reflexivity].
Qed.

Lemma ids_ok_createReview : forall d u m st f,
  ids_ok d = true -> ids_ok (snd (createReview d u m st f)) = true.
Proof.
  intros d u m st f H. ids_ok_split H. unfold ids_ok, createReview. simpl.
  rewrite H, H2, H1, map_app. simpl. now rewrite serial_ok_snoc.
Qed.

Lemma ids_ok_createUpload : forall d s w fn on mt sz,
  ids_ok d = true -> ids_ok (snd (createUpload d s w fn on mt sz)) = true.
Proof.
  intros d s w fn on mt sz H. ids_ok_split H. unfold ids_ok, createUpload. simpl.
  rewrite H, H2, H0, map_app. simpl. now rewrite serial_ok_snoc.
Qed.

Lemma ids_ok_createJob : forall d t ds w m st,
  ids_ok d = true -> ids_ok (snd (createJob d t ds w m st)) = true.
Proof.
  intros d t ds w m st H. ids_ok_split H. unfold ids_ok, createJob. simpl.
  rewrite H2, H1, H0, map_app. simpl. now rewrite serial_ok_snoc.
Qed.

Lemma ids_ok_createStep : forall d j t ds ins o st,
  ids_ok d = true -> ids_ok (snd (createStep d j t ds ins o st)) = true.
Proof.
  intros d j t ds ins o st H. ids_ok_split H. unfold ids_ok, createStep. simpl.
  rewrite H, H1, H0, map_app. simpl. now rewrite serial_ok_snoc.
Qed.

Lemma ids_ok_create_steps : forall jobId drafts i d,
  ids_ok d = true -> ids_ok (create_steps jobId i drafts d) = true.
Proof.
  intros jobId drafts; induction drafts as [|dr rest IH]; intros i d H; simpl; [exact H|].
  apply IH. apply (ids_ok_createStep d). exact H.
Qed.

Lemma ids_ok_deleteJob : forall d id, ids_ok d = true -> ids_ok (deleteJob d id) = true.
Proof.
  intros d id H. ids_ok_split H. rewrite deleteJob_db. unfold ids_ok. simpl.
  now rewrite !serial_ok_filter.
Qed.

Lemma ids_ok_deleteStep : forall d id, ids_ok d = true -> ids_ok (deleteStep d id) = true.
Proof.
  intros d id H. ids_ok_split H. rewrite deleteStep_db. unfold ids_ok. simpl.
  now rewrite H, !serial_ok_filter.
Qed.

(** *** Helpers for the dashboard, the handlers and the user table *)

Lemma existsb_false_forall : forall {A} (f : A -> bool) l,
  existsb f l = false -> forall x, In x l -> f x = false.
Proof.
  intros A f l H x Hx. destruct (f x) eqn:E; [|reflexivity].
  rewrite <- H. symmetry. apply existsb_exists. now exists x.
Qed.

Lemma forallb_false_exists : forall {A} (f : A -> bool) l,
  forallb f l = false -> exists x, In x l /\ f x = false.
Proof.
  induction l as [|y l IH]; intros H; [discriminate|].
  simpl in H. destruct (f y) eqn:E.
  - destruct (IH H) as (x & Hx & Fx). exists x. split; [now right|exact Fx].
  - exists y. split; [now left|exact E].
Qed.

Ltac status_contra :=
  exfalso;
  repeat match goal with
         | H : _ /\ _ |- _ => destruct H
         | H : exists _, _ |- _ => destruct H
         end;
  match goal with
  | Hx : In ?x _, E : step_status ?x = _, F : forall s, In s _ -> step_status s = _ |- _ =>
      rewrite (F x Hx) in E; discriminate
  | Hx : In ?x _, E : step_status ?x <> ?v, F : forall s, In s _ -> step_status s = ?v |- _ =>
      exact (E (F x Hx))
  | Hx : In ?x _, E : step_status ?x = ?v, F : forall s, In s _ -> step_status s <> ?v |- _ =>
      exact (F x Hx E)
  | Hne : ?l <> [], F : forall s, In s ?l -> step_status s = _,
    G : forall s, In s ?l -> step_status s = _ |- _ =>
      destruct l; [contradiction|];
      pose proof (F _ (or_introl eq_refl)); pose proof (G _ (or_introl eq_refl)); congruence
  end.

Lemma opt_str_eqb_refl : forall o, opt_str_eqb o o = true.
Proof. intros [x|]; simpl; [apply String.eqb_refl|reflexivity]. Qed.

Lemma step_eqb_refl : forall s, step_eqb s s = true.
Proof.
  intros s. unfold step_eqb. rewrite !Z.eqb_refl, !String.eqb_refl, !opt_str_eqb_refl.
  reflexivity.
Qed.

Lemma step_eqb_status : forall a b, step_eqb a b = true -> step_status a = step_status b.
Proof.
  intros a b H. unfold step_eqb in H. apply andb_true_iff in H as [_ H].
  now apply String.eqb_eq.
Qed.

Lemma find_first_index : forall (p : Step -> bool) l c i,
  (forall y, step_eqb y c = true -> p y = p c) ->
  find p l = Some c ->
  exists k, nth_error l k = Some c /\ p c = true
    /\ (forall j d, (j < k)%nat -> nth_error l j = Some d -> p d = false)
    /\ indexOf_from c l i = i + Z.of_nat k.
Proof.
  intros p l c. induction l as [|y l IH]; intros i Hp Hf; [discriminate|].
  simpl in Hf. destruct (p y) eqn:Ey.
  - injection Hf as <-. exists O. split; [reflexivity|]. split; [exact Ey|].
    split; [intros j d Hj; lia|]. simpl. rewrite step_eqb_refl. lia.
  - destruct (IH (i + 1) Hp Hf) as (k & Hk & Pc & Hbefore & Hidx).
    exists (S k). split; [exact Hk|]. split; [exact Pc|]. split.
    + intros [|j] d Hj Hd; simpl in Hd; [congruence|]. apply (Hbefore j d); [lia|exact Hd].
    + simpl. destruct (step_eqb y c) eqn:E.
      * rewrite (Hp y E), Pc in Ey. discriminate.
      * rewrite Hidx. lia.
Qed.

Lemma find_id_snoc_fresh : forall {A} (id : A -> Z) l x seq,
  forallb (fun i => Z.ltb i seq) (map id l) = true -> id x = seq ->
  find (fun y => Z.eqb (id y) seq) (l ++ [x]) = Some x.
Proof.
  intros A id l x seq H Hx. induction l as [|y l IH]; simpl.
  - now rewrite Hx, Z.eqb_refl.
  - simpl in H. apply andb_true_iff in H as [Hy H]. apply Z.ltb_lt in Hy.
    rewrite (proj2 (Z.eqb_neq _ _)) by lia. exact (IH H).
Qed.

Lemma ids_ok_jobs_below : forall db,
  ids_ok db = true -> forallb (fun i => Z.ltb i (seq_jobs db)) (map job_id (db_jobs db)) = true.
Proof.
  intros db H. unfold ids_ok, serial_ok in H. apply andb_true_iff in H as [H _].
  apply andb_true_iff in H as [H _]. apply andb_true_iff in H as [H _].
  apply andb_true_iff in H as [_ H]. exact H.
Qed.

Lemma ids_ok_uploads_below : forall db,
  ids_ok db = true ->
  forallb (fun i => Z.ltb i (seq_uploads db)) (map upload_id (db_uploads db)) = true.
Proof.
  intros db H. unfold ids_ok, serial_ok in H. apply andb_true_iff in H as [H _].
  apply andb_true_iff in H as [_ H]. apply andb_true_iff in H as [_ H]. exact H.
Qed.

Lemma negb_existsb_iff : forall {A} (f : A -> bool) l,
  negb (existsb f l) = true <-> ~ exists x, In x l /\ f x = true.
Proof.
  intros A f l. rewrite negb_true_iff. split.
  - intros H Hx. apply existsb_exists in Hx. congruence.
  - intros H. destruct (existsb f l) eqn:E; [|reflexivity].
    exfalso. apply H. now apply existsb_exists.
Qed.

Lemma negb_Zeqb_iff : forall a b, negb (Z.eqb a b) = true <-> a <> b.
Proof. intros. rewrite negb_true_iff. apply Z.eqb_neq. Qed.

Lemma set_job_status_id : forall i st j, job_id (set_job_status i st j) = job_id j.
Proof. intros; unfold set_job_status; destruct (Z.eqb (job_id j) i); reflexivity. Qed.

Lemma refs_ok_updateStepStatus : forall d i st,
  refs_ok (updateStepStatus d i st) = refs_ok d.
Proof.
  intros d i st. apply eq_true_iff_eq. rewrite !refs_ok_iff. unfold updateStepStatus.
  cbn [db_jobs db_steps db_uploads db_reviews].
  split; intros (H1 & H2 & H3); split; [| split; [|exact H3] | |split; [|exact H3]].
  - intros s Hs. rewrite <- (set_step_status_jobId i st s). apply H1. now apply in_map.
  - intros u Hu. destruct (H2 u Hu) as (s & Hs & E).
    apply in_map_iff in Hs as (s0 & <- & Hs0). exists s0. split; [exact Hs0|].
    now rewrite <- (set_step_status_id i st s0).
  - intros s Hs. apply in_map_iff in Hs as (s0 & <- & Hs0).
    rewrite set_step_status_jobId. exact (H1 s0 Hs0).
  - intros u Hu. destruct (H2 u Hu) as (s & Hs & E).
    exists (set_step_status i st s). split; [now apply in_map|].
    now rewrite set_step_status_id.
Qed.

Lemma refs_ok_updateJobStatus : forall d i st,
  refs_ok (updateJobStatus d i st) = refs_ok d.
Proof.
  intros d i st. apply eq_true_iff_eq. rewrite !refs_ok_iff. unfold updateJobStatus.
  cbn [db_jobs db_steps db_uploads db_reviews].
  split; intros (H1 & H2 & H3); (split; [|split; [exact H2|exact H3]]).
  - intros s Hs. destruct (H1 s Hs) as (j & Hj & E).
    apply in_map_iff in Hj as (j0 & <- & Hj0). exists j0. split; [exact Hj0|].
    now rewrite <- (set_job_status_id i st j0).
  - intros s Hs. destruct (H1 s Hs) as (j & Hj & E).
    exists (set_job_status i st j). split; [now apply in_map|].
    now rewrite set_job_status_id.
Qed.

Lemma refs_ok_activate_next : forall d i, refs_ok (activate_next d i) = refs_ok d.
Proof.
  intros d i. unfold activate_next.
  destruct (getStep d i) as [step|]; [|reflexivity].
  destruct (find _ _); [apply refs_ok_updateStepStatus|].
  destruct (forallb _ _); [apply refs_ok_updateJobStatus|reflexivity].
Qed.

Lemma refs_ok_createUpload : forall d sid w fn on mt sz st,
  refs_ok d = true -> getStep d sid = Some st ->
  refs_ok (snd (createUpload d sid w fn on mt sz)) = true.
Proof.
  intros d sid w fn on mt sz st H Hs. rewrite refs_ok_iff in *. unfold createUpload.
  cbn [snd db_jobs db_steps db_uploads db_reviews].
  destruct H as (H1 & H2 & H3). split; [exact H1|]. split.
  - intros u Hu. apply in_app_iff in Hu as [Hu|[<-|[]]]; [exact (H2 u Hu)|].
    unfold getStep in Hs. apply find_some in Hs as [Hin E]. apply Z.eqb_eq in E.
    exists st. split; [exact Hin|exact E].
  - intros r Hr. destruct (H3 r Hr) as (u & Hu & E). exists u.
    split; [apply in_app_iff; now left|exact E].
Qed.

Lemma refs_ok_createReview : forall d uid m st f up,
  refs_ok d = true -> getUpload d uid = Some up ->
  refs_ok (snd (createReview d uid m st f)) = true.
Proof.
  intros d uid m st f up H Hu. rewrite refs_ok_iff in *. unfold createReview.
  cbn [snd db_jobs db_steps db_uploads db_reviews].
  destruct H as (H1 & H2 & H3). split; [exact H1|]. split; [exact H2|].
  intros r Hr. apply in_app_iff in Hr as [Hr|[<-|[]]]; [exact (H3 r Hr)|].
  unfold getUpload in Hu. apply find_some in Hu as [Hin E]. apply Z.eqb_eq in E.
  exists up. split; [exact Hin|exact E].
Qed.

Lemma refs_ok_createJob : forall d t ds w m st,
  refs_ok d = true -> refs_ok (snd (createJob d t ds w m st)) = true.
Proof.
  intros d t ds w m st H. rewrite refs_ok_iff in *. unfold createJob.
  cbn [snd db_jobs db_steps db_uploads db_reviews].
  destruct H as (H1 & H2 & H3). split; [|split; [exact H2|exact H3]].
  intros s Hs. destruct (H1 s Hs) as (j & Hj & E). exists j.
  split; [apply in_app_iff; now left|exact E].
Qed.

Lemma refs_ok_createStep : forall d jid t ds ins o st,
  refs_ok d = true -> (exists j, In j (db_jobs d) /\ job_id j = jid) ->
  refs_ok (snd (createStep d jid t ds ins o st)) = true.
Proof.
  intros d jid t ds ins o st H Hj. rewrite refs_ok_iff in *. unfold createStep.
  cbn [snd db_jobs db_steps db_uploads db_reviews].
  destruct H as (H1 & H2 & H3). split; [|split; [|exact H3]].
  - intros s Hs. apply in_app_iff in Hs as [Hs|[<-|[]]]; [exact (H1 s Hs)|exact Hj].
  - intros u Hu. destruct (H2 u Hu) as (s & Hs & E). exists s.
    split; [apply in_app_iff; now left|exact E].
Qed.

Lemma refs_ok_create_steps : forall jid drafts i d,
  refs_ok d = true -> (exists j, In j (db_jobs d) /\ job_id j = jid) ->
  refs_ok (create_steps jid i drafts d) = true.
Proof.
  intros jid drafts. induction drafts as [|dr rest IH]; intros i d H Hj; [exact H|].
  cbn [create_steps]. apply IH.
  - apply (refs_ok_createStep d). exact H. exact Hj.
  - exact Hj.
Qed.

Lemma getJob_In : forall d jid j, getJob d jid = Some j -> In j (db_jobs d) /\ job_id j = jid.
Proof.
  intros d jid j H. unfold getJob in H. apply find_some in H as [Hin E].
  apply Z.eqb_eq in E. now split.
Qed.

Lemma lacks_role_false_iff : forall db u role,
  lacks_role db u role = false <-> exists m, getUser db u = Some m /\ user_role m = role.
Proof.
  intros db u role. unfold lacks_role. destruct (getUser db u) as [m|]; split.
  - intros H. apply negb_false_iff, String.eqb_eq in H. now exists m.
  - intros (m' & E & R). injection E as <-. now rewrite R, String.eqb_refl.
  - discriminate.
  - intros (m' & E & _). discriminate.
Qed.

Lemma getUser_updateUserRole : forall db t role x,
  getUser (updateUserRole db t role) x =
  option_map (fun old => if String.eqb x t then mkUser x role else old) (getUser db x).
Proof.
  intros db t role x. unfold getUser, updateUserRole, with_users. cbn [db_users].
  rewrite find_map_same.
  - destruct (find _ (db_users db)) as [old|] eqn:E; [|reflexivity]. cbn [option_map].
    apply find_some in E as [_ E]. apply String.eqb_eq in E. subst x.
    destruct (String.eqb (user_id old) t); reflexivity.
  - intros a. destruct (String.eqb (user_id a) t); reflexivity.
Qed.

Lemma find_app : forall {A} (p : A -> bool) l1 l2,
  find p (l1 ++ l2) = match find p l1 with Some x => Some x | None => find p l2 end.
Proof.
  intros A p l1 l2. induction l1 as [|x l1 IH]; [reflexivity|]. simpl.
  destruct (p x); [reflexivity|exact IH].
Qed.

Lemma getStep_updateStepStatus : forall d i st x,
  getStep (updateStepStatus d i st) x = option_map (set_step_status i st) (getStep d x).
Proof.
  intros. unfold getStep, updateStepStatus. cbn [db_steps].
  apply find_map_same. intros a. now rewrite set_step_status_id.
Qed.

(** ** Properties of the routes, the storage layer and the dashboard *)

(** X1: the dashboard's job status is awaiting_review exactly when some step
    awaits review, completed exactly when every step is approved (so also for
    a job without steps), pending exactly when the job has steps and all are
    pending, and in_progress exactly when no step awaits review, some step is
    not approved and some step is not pending. *)
Theorem getJobStatus_cases : forall steps,
  (getJobStatus steps = "awaiting_review" <->
     exists s, In s steps /\ step_status s = "awaiting_review")
  /\ (getJobStatus steps = "completed" <->
     forall s, In s steps -> step_status s = "approved")
  /\ (getJobStatus steps = "pending" <->
     steps <> [] /\ forall s, In s steps -> step_status s = "pending")
  /\ (getJobStatus steps = "in_progress" <->
     (forall s, In s steps -> step_status s <> "awaiting_review")
     /\ (exists s, In s steps /\ step_status s <> "approved")
     /\ (exists s, In s steps /\ step_status s <> "pending")).
Proof.
  intros steps. unfold getJobStatus.
  refine (conj (conj _ _) (conj (conj _ _) (conj (conj _ _) (conj _ _)))); intros H.
  all: destruct (existsb (fun s => String.eqb (step_status s) "awaiting_review") steps) eqn:EA;
    [apply existsb_exists in EA as (a & Ha & Ea); apply String.eqb_eq in Ea|
     assert (NA : forall s, In s steps -> step_status s <> "awaiting_review")
       by (intros s Hs; apply String.eqb_neq; exact (existsb_false_forall _ _ EA s Hs))];
    try discriminate.
  all: try (destruct (forallb (fun s => String.eqb (step_status s) "approved") steps) eqn:EB;
    [rewrite forallb_forall in EB;
     assert (AP : forall s, In s steps -> step_status s = "approved")
       by (intros s Hs; apply String.eqb_eq; exact (EB s Hs))|
     apply forallb_false_exists in EB as (b & Hb & Eb); apply String.eqb_neq in Eb]);
    try discriminate.
  all: try (destruct (existsb (fun s => negb (String.eqb (step_status s) "pending")) steps) eqn:EC;
    [apply existsb_exists in EC as (c & Hc & Ec); apply negb_true_iff, String.eqb_neq in Ec|
     assert (PE : forall s, In s steps -> step_status s = "pending")
       by (intros s Hs; pose proof (existsb_false_forall _ _ EC s Hs) as E;
           apply negb_false_iff, String.eqb_eq in E; exact E)]);
    try discriminate.
  all: try reflexivity.
  all: first
    [ now exists a
    | exact AP
    | split; [intros ->; exact Hb | exact PE]
    | split; [exact NA | split; [now exists b | now exists c]]
    | status_contra ].
Qed.

(** X2: the dashboard's current step number is the number of steps when every
    step is approved; otherwise it is k + 1 for the position k (from 0) of the
    first step that is not approved, all steps before it being approved. *)
Theorem getCurrentStep_spec : forall steps,
  ((forall s, In s steps -> step_status s = "approved")
   /\ getCurrentStep steps = Z.of_nat (List.length steps))
  \/ (exists k c, nth_error steps k = Some c /\ step_status c <> "approved"
        /\ (forall j d, (j < k)%nat -> nth_error steps j = Some d ->
                        step_status d = "approved")
        /\ getCurrentStep steps = Z.of_nat k + 1).
Proof.
  intros steps. unfold getCurrentStep.
  destruct (find (fun step => negb (String.eqb (step_status step) "approved")) steps)
    as [c|] eqn:Hf.
  - right. destruct (find_first_index (fun step => negb (String.eqb (step_status step) "approved")) steps c 0) as (k & Hk & Pc & Hb & Hi).
    + intros y E. now rewrite (step_eqb_status y c E).
    + exact Hf.
    + exists k, c. split; [exact Hk|]. split.
      * apply negb_true_iff, String.eqb_neq in Pc. exact Pc.
      * split.
        -- intros j d Hj Hd. specialize (Hb j d Hj Hd).
           apply negb_false_iff, String.eqb_eq in Hb. exact Hb.
        -- unfold indexOf. rewrite Hi. lia.
  - left. split; [|reflexivity]. intros s Hs.
    pose proof (find_none _ _ Hf s Hs) as E. simpl in E.
    apply negb_false_iff, String.eqb_eq in E. exact E.
Qed.

(** X3: when the ids of every table are pairwise distinct and below the next
    value of their sequence, they still are after any run of POST /api/jobs,
    POST /api/uploads, POST /api/reviews (both versions), POST /api/steps,
    DELETE /api/jobs/:id, DELETE /api/steps/:id or PATCH /api/users/:id/role. *)
Theorem handlers_preserve_ids_ok : forall db u,
  ids_ok db = true ->
  (forall b, ids_ok (snd (jobs_post u b db)) = true)
  /\ (forall b, ids_ok (snd (uploads_post u b db)) = true)
  /\ (forall b, ids_ok (snd (reviews_post u b db)) = true)
  /\ (forall b, ids_ok (snd (reviews_post_v1 u b db)) = true)
  /\ (forall b, ids_ok (snd (steps_post u b db)) = true)
  /\ (forall j, ids_ok (snd (jobs_delete u j db)) = true)
  /\ (forall s, ids_ok (snd (steps_delete u s db)) = true)
  /\ (forall t r, ids_ok (snd (users_role_patch u t r db)) = true).
Proof.
  intros db u H. repeat split.
  - intros b. unfold jobs_post.
    destruct (lacks_role db u "manager"); [exact H|].
    destruct (jb_steps b) as [steps|]; [|exact H].
    destruct (_ || _ || _); [exact H|].
    apply ids_ok_create_steps. apply ids_ok_createJob. exact H.
  - intros b. unfold uploads_post.
    destruct (lacks_role db u "worker"); [exact H|].
    destruct (ub_file b) as [f|]; [|exact H].
    destruct (ub_stepId b) as [sid|]; [|exact H].
    destruct (Z.eqb sid 0); [exact H|].
    destruct (getStep db sid); [|exact H].
    pose proof (ids_ok_createUpload db sid u (file_filename f) (file_originalname f)
                  (file_mimetype f) (file_size f) H) as H1.
    destruct (createUpload _ _ _ _ _ _ _) as [up d1].
    cbn [snd] in H1 |- *. now rewrite ids_ok_updateStepStatus.
  - intros b. unfold reviews_post.
    destruct (lacks_role db u "manager"); [exact H|].
    destruct (validate_review b) as [v|]; [|exact H].
    pose proof (ids_ok_createReview db (ri_uploadId v) u (ri_status v) (ri_feedback v) H) as H1.
    destruct (createReview db (ri_uploadId v) u (ri_status v) (ri_feedback v)) as [r d1].
    cbn [snd] in H1.
    destruct (getUpload d1 (ri_uploadId v)); [|exact H1].
    destruct (String.eqb (ri_status v) "approved").
    + cbn [snd]. now rewrite ids_ok_activate_next, ids_ok_updateStepStatus.
    + destruct (String.eqb (ri_status v) "rejected"); cbn [snd]; [|exact H1].
      now rewrite ids_ok_updateStepStatus.
  - intros b. unfold reviews_post_v1.
    destruct (lacks_role db u "manager"); [exact H|].
    destruct (validate_review b) as [v|]; [|exact H].
    pose proof (ids_ok_createReview db (ri_uploadId v) u (ri_status v) (ri_feedback v) H) as H1.
    destruct (createReview db (ri_uploadId v) u (ri_status v) (ri_feedback v)) as [r d1].
    cbn [snd] in H1.
    destruct (getUpload d1 (ri_uploadId v)) as [up|]; [|exact H1].
    destruct (String.eqb (ri_status v) "approved").
    + destruct (getStep _ _) as [st|]; cbn [snd]; [|now rewrite ids_ok_updateStepStatus].
      destruct (forallb _ _); cbn [snd];
        rewrite ?ids_ok_updateJobStatus; now rewrite ids_ok_updateStepStatus.
    + cbn [snd]. now rewrite ids_ok_updateStepStatus.
  - intros b. unfold steps_post.
    destruct (lacks_role db u "manager"); [exact H|].
    destruct (sb_jobId b), (sb_title b), (sb_order b); try exact H.
    apply (ids_ok_createStep db). exact H.
  - intros j. unfold jobs_delete.
    destruct (lacks_role db u "manager"); [exact H|].
    destruct (getJob db j); [|exact H].
    destruct (negb _); [exact H|]. now apply ids_ok_deleteJob.
  - intros s. unfold steps_delete.
    destruct (lacks_role db u "manager"); [exact H|].
    destruct (getStep db s); [|exact H].
    destruct (getJob _ _); [|exact H].
    destruct (String.eqb _ _); [|exact H]. now apply ids_ok_deleteStep.
  - intros t r. unfold users_role_patch.
    destruct (lacks_role db u "manager"); [exact H|].
    destruct r as [r|]; [|exact H].
    destruct (_ || _); [|exact H]. exact H.
Qed.

(** X4: whenever one of the mutating routes answers with an error, the
    database is unchanged, with one exception: the 500 of job creation,
    which comes after the job row has been inserted (X19).  This includes
    the 500 of the upload middleware. *)
Theorem handler_errors_leave_db_unchanged : forall db u,
  (forall b c m, fst (jobs_post_raw u b db) = error c m -> c <> 500 ->
                 snd (jobs_post_raw u b db) = db)
  /\ (forall files sid c m, fst (uploads_route u files sid db) = error c m ->
                           snd (uploads_route u files sid db) = db)
  /\ (forall b c m, fst (uploads_post u b db) = error c m -> snd (uploads_post u b db) = db)
  /\ (forall b c m, fst (reviews_post u b db) = error c m -> snd (reviews_post u b db) = db)
  /\ (forall b c m, fst (reviews_post_v1 u b db) = error c m ->
                    snd (reviews_post_v1 u b db) = db)
  /\ (forall b c m, fst (steps_post u b db) = reply_error c m -> snd (steps_post u b db) = db)
  /\ (forall j c m, fst (jobs_delete u j db) = reply_error c m -> snd (jobs_delete u j db) = db)
  /\ (forall s c m, fst (steps_delete u s db) = reply_error c m ->
                    snd (steps_delete u s db) = db)
  /\ (forall t r c m, fst (users_role_patch u t r db) = reply_error c m ->
                      snd (users_role_patch u t r db) = db).
Proof.
  intros db u. repeat split.
  - intros b c m. unfold jobs_post_raw.
    destruct (lacks_role db u "manager"); [reflexivity|].
    destruct (rjb_steps b); [|reflexivity].
    destruct (_ || _ || _); [reflexivity|].
    destruct (createJob _ _ _ _ _ _) as [job d1].
    destruct (create_steps_raw _ _ _ _) as [d2 []]; cbn; intros H Hc.
    + injection H as H _. subst c. contradiction.
    + discriminate.
  - intros files sid c m. unfold uploads_route.
    destruct (multer_single None files) as [file|msg]; [|reflexivity].
    intros H. exact (proj1 (uploads_post_error _ _ _ _ _ H)).
  - intros b c m. unfold uploads_post.
    destruct (lacks_role db u "worker"); [reflexivity|].
    destruct (ub_file b); [|reflexivity].
    destruct (ub_stepId b) as [sid|]; [|reflexivity].
    destruct (Z.eqb sid 0); [reflexivity|].
    destruct (getStep db sid); [|reflexivity].
    destruct (createUpload _ _ _ _ _ _ _). discriminate.
  - intros b c m. unfold reviews_post.
    destruct (lacks_role db u "manager"); [reflexivity|].
    destruct (validate_review b) as [v|]; [|reflexivity].
    destruct (createReview _ _ _ _ _) as [r d1].
    destruct (getUpload d1 _); [|discriminate].
    destruct (String.eqb _ "approved"); [discriminate|].
    destruct (String.eqb _ "rejected"); discriminate.
  - intros b c m. unfold reviews_post_v1.
    destruct (lacks_role db u "manager"); [reflexivity|].
    destruct (validate_review b) as [v|]; [|reflexivity].
    destruct (createReview _ _ _ _ _) as [r d1].
    destruct (getUpload d1 _); [|discriminate].
    destruct (String.eqb _ "approved"); [|discriminate].
    destruct (getStep _ _); [|discriminate].
    destruct (forallb _ _); discriminate.
  - intros b c m. unfold steps_post.
    destruct (lacks_role db u "manager"); [reflexivity|].
    destruct (sb_jobId b), (sb_title b), (sb_order b); try reflexivity.
    discriminate.
  - intros j c m. unfold jobs_delete.
    destruct (lacks_role db u "manager"); [reflexivity|].
    destruct (getJob db j); [|reflexivity].
    destruct (negb _); [reflexivity|discriminate].
  - intros s c m. unfold steps_delete.
    destruct (lacks_role db u "manager"); [reflexivity|].
    destruct (getStep db s); [|reflexivity].
    destruct (getJob _ _); [|reflexivity].
    destruct (String.eqb _ _); [discriminate|reflexivity].
  - intros t r c m. unfold users_role_patch.
    destruct (lacks_role db u "manager"); [reflexivity|].
    destruct r as [r|]; [|reflexivity].
    destruct (_ || _); [discriminate|reflexivity].
Qed.

(** X5: a valid review by a manager whose upload does not exist, or whose status
    is neither approved nor rejected, only appends the review (with the
    caller as managerId, whatever the body names) and answers it; steps, jobs
    and uploads are unchanged. *)
Theorem reviews_post_review_only : forall db u b v,
  lacks_role db u "manager" = false -> validate_review b = Some v ->
  (getUpload db (ri_uploadId v) = None
   \/ (ri_status v <> "approved" /\ ri_status v <> "rejected")) ->
  let r := mkReview (seq_reviews db) (ri_uploadId v) u (ri_status v) (ri_feedback v) in
  reviews_post u b db =
    (json_review r, mkDB (db_users db) (db_jobs db) (db_steps db) (db_uploads db)
                         (db_reviews db ++ [r]) (seq_jobs db) (seq_steps db)
                         (seq_uploads db) (seq_reviews db + 1)).
Proof.
  intros db u b v Hrole Hv Hcase r.
  rewrite (reviews_post_valid db u b v Hrole Hv). unfold createReview. cbv zeta.
  destruct Hcase as [Hn | [Ha Hr]].
  - rewrite Hn. reflexivity.
  - destruct (getUpload db (ri_uploadId v)); [|reflexivity].
    rewrite (proj2 (String.eqb_neq _ _) Ha), (proj2 (String.eqb_neq _ _) Hr).
    reflexivity.
Qed.

(** X6: when the job ids are below the job sequence, a successful POST
    /api/jobs answers with the job row it inserted: the next id, the title,
    the description, the caller as manager, the worker and status
    in_progress. *)
Theorem jobs_post_returns_created_job : forall db u b title workerId drafts,
  ids_ok db = true ->
  lacks_role db u "manager" = false ->
  jb_title b = Some title -> title <> "" ->
  jb_workerId b = Some workerId -> workerId <> "" ->
  jb_steps b = Some drafts -> drafts <> [] ->
  fst (jobs_post u b db) =
    json_job (Some (mkJob (seq_jobs db) title (jb_description b) u workerId "in_progress")).
Proof.
  intros db u b title workerId drafts Hids Hrole Ht Htne Hw Hwne Hs Hne.
  unfold jobs_post. rewrite Hrole, Hs, Ht, Hw.
  unfold falsy_str. rewrite (proj2 (String.eqb_neq _ _) Htne),
    (proj2 (String.eqb_neq _ _) Hwne).
  destruct drafts as [|d rest]; [contradiction|]. simpl orb.
  unfold createJob. cbv beta iota zeta. cbn [fst job_id]. unfold getJob.
  rewrite (proj2 (create_steps_spec _ _ _ _)). cbn [db_jobs].
  rewrite find_id_snoc_fresh; [reflexivity| |reflexivity].
  now apply ids_ok_jobs_below.
Qed.

(** X7: when POST /api/uploads answers with an upload (and the upload ids are
    below their sequence), getUpload finds that upload under its id
    afterwards, its workerId is the caller, its step existed, and that step
    now has status awaiting_review and is otherwise unchanged. *)
Theorem uploads_post_stores_upload : forall db u b up,
  ids_ok db = true ->
  fst (uploads_post u b db) = json_upload up ->
  let db' := snd (uploads_post u b db) in
  getUpload db' (upload_id up) = Some up /\ upload_workerId up = u /\
  exists st, getStep db (upload_stepId up) = Some st /\
    getStep db' (upload_stepId up) =
      Some (set_step_status (upload_stepId up) "awaiting_review" st).
Proof.
  intros db u b up Hids H db'. subst db'. revert H. unfold uploads_post.
  destruct (lacks_role db u "worker"); [discriminate|].
  destruct (ub_file b) as [f|]; [|discriminate].
  destruct (ub_stepId b) as [sid|]; [|discriminate].
  destruct (Z.eqb sid 0); [discriminate|].
  destruct (getStep db sid) as [st|] eqn:Est; [|discriminate].
  unfold createUpload. cbv zeta. cbn [fst snd]. intros H. injection H as <-.
  cbn [upload_id upload_stepId upload_workerId]. split; [|split; [reflexivity|]].
  - unfold getUpload, updateStepStatus. cbn [db_uploads].
    apply find_id_snoc_fresh; [|reflexivity]. now apply ids_ok_uploads_below.
  - exists st. split; [exact Est|]. apply getStep_update. exact Est.
Qed.

(** X8: for a manager, POST /api/steps with a job id, a title and an order
    appends exactly one step (next id, status pending unless one is given)
    and answers it, with no check that the job exists or belongs to the
    caller; without one of the three fields it answers 400 and changes
    nothing. *)
Theorem steps_post_creates_step : forall db u b,
  lacks_role db u "manager" = false ->
  (forall j t o, sb_jobId b = Some j -> sb_title b = Some t -> sb_order b = Some o ->
     let s := mkStep (seq_steps db) j t (sb_description b) (sb_instructions b) o
                (match sb_status b with Some st => st | None => "pending" end) in
     steps_post u b db =
       (reply_step s, mkDB (db_users db) (db_jobs db) (db_steps db ++ [s]) (db_uploads db)
                           (db_reviews db) (seq_jobs db) (seq_steps db + 1)
                           (seq_uploads db) (seq_reviews db)))
  /\ (sb_jobId b = None \/ sb_title b = None \/ sb_order b = None ->
      steps_post u b db = (reply_error 400 "Validation error", db)).
Proof.
  intros db u b Hrole. unfold steps_post. rewrite Hrole. split.
  - intros j t o Hj Ht Ho. cbv zeta. rewrite Hj, Ht, Ho. reflexivity.
  - intros [H|[H|H]]; rewrite H; [reflexivity| |];
      destruct (sb_jobId b); [|reflexivity| |reflexivity];
      destruct (sb_title b); reflexivity.
Qed.

(** X9: deleteJob removes the job, the job's steps, the uploads of those
    steps and the reviews of those uploads, and keeps every other row and the
    users; it keeps every step, upload and review reference resolvable. *)
Theorem deleteJob_spec : forall db id,
  let db' := deleteJob db id in
  (forall j, In j (db_jobs db') <-> In j (db_jobs db) /\ job_id j <> id)
  /\ (forall s, In s (db_steps db') <-> In s (db_steps db) /\ step_jobId s <> id)
  /\ (forall u, In u (db_uploads db') <->
        In u (db_uploads db) /\
        ~ exists s, In s (db_steps db) /\ step_jobId s = id /\ step_id s = upload_stepId u)
  /\ (forall r, In r (db_reviews db') <->
        In r (db_reviews db) /\
        ~ exists u s, In u (db_uploads db) /\ In s (db_steps db) /\ step_jobId s = id
                      /\ step_id s = upload_stepId u /\ upload_id u = review_uploadId r)
  /\ db_users db' = db_users db
  /\ (refs_ok db = true -> refs_ok db' = true).
Proof.
  intros db id db'.
  assert (Href : refs_ok db = true -> refs_ok db' = true) by apply deleteJob_refs_ok.
  subst db'. rewrite deleteJob_db in *. cbn [db_jobs db_steps db_uploads db_reviews db_users].
  split; [|split; [|split; [|split; [|split]]]]; try reflexivity; try exact Href;
    intros x; rewrite filter_In.
  - now rewrite negb_Zeqb_iff.
  - now rewrite negb_Zeqb_iff.
  - rewrite negb_existsb_iff. apply and_iff_compat_l. apply not_iff_compat.
    split; intros (s & Hs & E); exists s; split; try exact Hs.
    + apply andb_true_iff in E as [E1 E2]. apply Z.eqb_eq in E1, E2. auto.
    + destruct E as [E1 E2]. rewrite E1, E2, !Z.eqb_refl. reflexivity.
  - rewrite negb_existsb_iff. apply and_iff_compat_l. apply not_iff_compat. split.
    + intros (u & Hu & E). apply andb_true_iff in E as [E1 E2].
      apply existsb_exists in E1 as (s & Hs & E1). apply andb_true_iff in E1 as [E1 E3].
      apply Z.eqb_eq in E1, E2, E3. exists u, s. auto.
    + intros (u & s & Hu & Hs & E1 & E2 & E3). exists u. split; [exact Hu|].
      rewrite E3, Z.eqb_refl, andb_true_r. apply existsb_exists. exists s.
      split; [exact Hs|]. rewrite E1, E2, !Z.eqb_refl. reflexivity.
Qed.

(** X10: deleteStep removes the step, its uploads and their reviews, and keeps
    every other row, the jobs and the users (no other step is renumbered or
    re-activated); it keeps every reference resolvable. *)
Theorem deleteStep_spec : forall db id,
  let db' := deleteStep db id in
  db_jobs db' = db_jobs db
  /\ (forall s, In s (db_steps db') <-> In s (db_steps db) /\ step_id s <> id)
  /\ (forall u, In u (db_uploads db') <-> In u (db_uploads db) /\ upload_stepId u <> id)
  /\ (forall r, In r (db_reviews db') <->
        In r (db_reviews db) /\
        ~ exists u, In u (db_uploads db) /\ upload_stepId u = id
                    /\ upload_id u = review_uploadId r)
  /\ db_users db' = db_users db
  /\ (refs_ok db = true -> refs_ok db' = true).
Proof.
  intros db id db'.
  assert (Href : refs_ok db = true -> refs_ok db' = true) by apply deleteStep_refs_ok.
  subst db'. rewrite deleteStep_db in *. cbn [db_jobs db_steps db_uploads db_reviews db_users].
  split; [reflexivity|split; [|split; [|split; [|split]]]]; try reflexivity; try exact Href;
    intros x; rewrite filter_In.
  - now rewrite negb_Zeqb_iff.
  - now rewrite negb_Zeqb_iff.
  - rewrite negb_existsb_iff. apply and_iff_compat_l. apply not_iff_compat.
    split; intros (u & Hu & E); exists u; split; try exact Hu.
    + apply andb_true_iff in E as [E1 E2]. apply Z.eqb_eq in E1, E2. auto.
    + destruct E as [E1 E2]. rewrite E1, E2, !Z.eqb_refl. reflexivity.
Qed.

(** X11: when every step's job, upload's step and review's upload exists, this
    still holds after POST /api/jobs, POST /api/uploads, both DELETE routes
    and PATCH /api/users/:id/role; after POST /api/reviews (both versions) when
    the reviewed upload exists, and after POST /api/steps when the named job
    exists. *)
Theorem handlers_preserve_refs_ok : forall db u,
  refs_ok db = true ->
  (forall b, refs_ok (snd (jobs_post u b db)) = true)
  /\ (forall b, refs_ok (snd (uploads_post u b db)) = true)
  /\ (forall b, (forall v, validate_review b = Some v -> getUpload db (ri_uploadId v) <> None) ->
        refs_ok (snd (reviews_post u b db)) = true)
  /\ (forall b, (forall v, validate_review b = Some v -> getUpload db (ri_uploadId v) <> None) ->
        refs_ok (snd (reviews_post_v1 u b db)) = true)
  /\ (forall b, (forall j, sb_jobId b = Some j -> getJob db j <> None) ->
        refs_ok (snd (steps_post u b db)) = true)
  /\ (forall j, refs_ok (snd (jobs_delete u j db)) = true)
  /\ (forall s, refs_ok (snd (steps_delete u s db)) = true)
  /\ (forall t r, refs_ok (snd (users_role_patch u t r db)) = true).
Proof.
  intros db u H. split; [|split; [|split; [|split; [|split; [|split; [|split]]]]]].
  - intros b. unfold jobs_post.
    destruct (lacks_role db u "manager"); [exact H|].
    destruct (jb_steps b) as [steps|]; [|exact H].
    destruct (_ || _ || _); [exact H|].
    pose proof (refs_ok_createJob db (match jb_title b with Some t => t | None => "" end)
                  (jb_description b) (match jb_workerId b with Some w => w | None => "" end)
                  u "in_progress" H) as H1.
    unfold createJob in H1 |- *. cbv zeta in H1 |- *. cbn [snd job_id] in H1 |- *.
    apply refs_ok_create_steps; [exact H1|].
    cbn [db_jobs]. eexists. split; [apply in_app_iff; right; now left|reflexivity].
  - intros b. unfold uploads_post.
    destruct (lacks_role db u "worker"); [exact H|].
    destruct (ub_file b) as [f|]; [|exact H].
    destruct (ub_stepId b) as [sid|]; [|exact H].
    destruct (Z.eqb sid 0); [exact H|].
    destruct (getStep db sid) as [st|] eqn:Est; [|exact H].
    pose proof (refs_ok_createUpload db sid u (file_filename f) (file_originalname f)
                  (file_mimetype f) (file_size f) st H Est) as H1.
    destruct (createUpload _ _ _ _ _ _ _) as [up d1].
    cbn [snd] in H1 |- *. now rewrite refs_ok_updateStepStatus.
  - intros b Hb. unfold reviews_post.
    destruct (lacks_role db u "manager"); [exact H|].
    destruct (validate_review b) as [v|]; [|exact H].
    specialize (Hb v eq_refl).
    destruct (getUpload db (ri_uploadId v)) as [up|] eqn:Eu; [|contradiction].
    pose proof (refs_ok_createReview db (ri_uploadId v) u (ri_status v) (ri_feedback v)
                  up H Eu) as H1.
    destruct (createReview _ _ _ _ _) as [r d1].
    cbn [snd] in H1.
    destruct (getUpload d1 (ri_uploadId v)); [|exact H1].
    destruct (String.eqb (ri_status v) "approved").
    + cbn [snd]. now rewrite refs_ok_activate_next, refs_ok_updateStepStatus.
    + destruct (String.eqb (ri_status v) "rejected"); cbn [snd]; [|exact H1].
      now rewrite refs_ok_updateStepStatus.
  - intros b Hb. unfold reviews_post_v1.
    destruct (lacks_role db u "manager"); [exact H|].
    destruct (validate_review b) as [v|]; [|exact H].
    specialize (Hb v eq_refl).
    destruct (getUpload db (ri_uploadId v)) as [up|] eqn:Eu; [|contradiction].
    pose proof (refs_ok_createReview db (ri_uploadId v) u (ri_status v) (ri_feedback v)
                  up H Eu) as H1.
    destruct (createReview _ _ _ _ _) as [r d1].
    cbn [snd] in H1.
    destruct (getUpload d1 (ri_uploadId v)); [|exact H1].
    destruct (String.eqb (ri_status v) "approved").
    + destruct (getStep _ _); cbn [snd]; [|now rewrite refs_ok_updateStepStatus].
      destruct (forallb _ _); cbn [snd];
        rewrite ?refs_ok_updateJobStatus; now rewrite refs_ok_updateStepStatus.
    + cbn [snd]. now rewrite refs_ok_updateStepStatus.
  - intros b Hb. unfold steps_post.
    destruct (lacks_role db u "manager"); [exact H|].
    destruct (sb_jobId b) as [j|] eqn:Ej; [|exact H].
    destruct (sb_title b), (sb_order b); try exact H.
    specialize (Hb j eq_refl).
    destruct (getJob db j) as [job|] eqn:Eg; [|contradiction].
    apply (refs_ok_createStep db); [exact H|]. exists job. exact (getJob_In _ _ _ Eg).
  - intros j. unfold jobs_delete.
    destruct (lacks_role db u "manager"); [exact H|].
    destruct (getJob db j); [|exact H].
    destruct (negb _); [exact H|]. now apply deleteJob_refs_ok.
  - intros s. unfold steps_delete.
    destruct (lacks_role db u "manager"); [exact H|].
    destruct (getStep db s); [|exact H].
    destruct (getJob _ _); [|exact H].
    destruct (String.eqb _ _); [|exact H]. now apply deleteStep_refs_ok.
  - intros t r. unfold users_role_patch.
    destruct (lacks_role db u "manager"); [exact H|].
    destruct r as [r|]; [|exact H].
    destruct (_ || _); exact H.
Qed.

(** X12: DELETE /api/jobs/:id deletes the job (deleteJob) exactly when the
    caller is a manager and the job exists with the caller as its manager;
    otherwise it answers an error and changes nothing. *)
Theorem jobs_delete_access : forall db u j,
  let manager := exists m, getUser db u = Some m /\ user_role m = "manager" in
  let owner := exists job, getJob db j = Some job /\ job_managerId job = u in
  (manager -> owner ->
   jobs_delete u j db = (reply_message "Job deleted successfully", deleteJob db j))
  /\ (~ (manager /\ owner) -> exists c msg, jobs_delete u j db = (reply_error c msg, db)).
Proof.
  intros db u j manager owner. unfold jobs_delete. split.
  - intros Hm (job & Hj & Ho). apply lacks_role_false_iff in Hm. rewrite Hm, Hj, Ho.
    now rewrite String.eqb_refl.
  - intros Hn. destruct (lacks_role db u "manager") eqn:Hr; [do 2 eexists; reflexivity|].
    destruct (getJob db j) as [job|] eqn:Hj; [|do 2 eexists; reflexivity].
    destruct (String.eqb (job_managerId job) u) eqn:Ho; [|do 2 eexists; reflexivity].
    exfalso. apply Hn. split.
    + now apply lacks_role_false_iff.
    + exists job. split; [reflexivity|]. now apply String.eqb_eq.
Qed.

(** X13: DELETE /api/steps/:id deletes the step (deleteStep) exactly when the
    caller is a manager, the step exists and its job exists with the caller
    as manager; otherwise it answers an error and changes nothing. *)
Theorem steps_delete_access : forall db u s,
  let manager := exists m, getUser db u = Some m /\ user_role m = "manager" in
  let owner := exists step job, getStep db s = Some step /\
                 getJob db (step_jobId step) = Some job /\ job_managerId job = u in
  (manager -> owner ->
   steps_delete u s db = (reply_message "Step deleted successfully", deleteStep db s))
  /\ (~ (manager /\ owner) -> exists c msg, steps_delete u s db = (reply_error c msg, db)).
Proof.
  intros db u s manager owner. unfold steps_delete. split.
  - intros Hm (step & job & Hs & Hj & Ho). apply lacks_role_false_iff in Hm.
    rewrite Hm, Hs, Hj, Ho. now rewrite String.eqb_refl.
  - intros Hn. destruct (lacks_role db u "manager") eqn:Hr; [do 2 eexists; reflexivity|].
    destruct (getStep db s) as [step|] eqn:Hs; [|do 2 eexists; reflexivity].
    destruct (getJob db (step_jobId step)) as [job|] eqn:Hj; [|do 2 eexists; reflexivity].
    destruct (String.eqb (job_managerId job) u) eqn:Ho; [|do 2 eexists; reflexivity].
    exfalso. apply Hn. split.
    + now apply lacks_role_false_iff.
    + exists step, job. split; [reflexivity|]. split; [exact Hj|]. now apply String.eqb_eq.
Qed.

(** X14: a manager setting role manager or worker gets the success message;
    afterwards every user with the target id has the new role, every other
    user is unchanged (an unknown target changes nothing), and roles stay
    within manager and worker. *)
Theorem users_role_patch_spec : forall db u t role,
  lacks_role db u "manager" = false -> (role = "manager" \/ role = "worker") ->
  users_role_patch u t (Some role) db =
    (reply_message "User role updated successfully", updateUserRole db t role)
  /\ (forall x, getUser (updateUserRole db t role) x =
        option_map (fun old => if String.eqb x t then mkUser x role else old) (getUser db x))
  /\ (roles_ok db = true -> roles_ok (updateUserRole db t role) = true).
Proof.
  intros db u t role Hm Hr. split; [|split].
  - unfold users_role_patch. rewrite Hm.
    destruct Hr as [-> | ->]; reflexivity.
  - apply getUser_updateUserRole.
  - unfold roles_ok, updateUserRole, with_users. cbn [db_users]. intros H.
    rewrite forallb_forall in *. intros y Hy. apply in_map_iff in Hy as (x & <- & Hx).
    destruct (String.eqb (user_id x) t); [|exact (H x Hx)]. cbn [user_role].
    destruct Hr as [-> | ->]; reflexivity.
Qed.

(** X15: after upsertUser, getUser of the given id returns the returned user,
    whose role is the given one, else the stored one, else worker; every
    other id maps to the same user as before. *)
Theorem upsertUser_roundtrip : forall db d,
  let u := fst (upsertUser db d) in
  let db' := snd (upsertUser db d) in
  getUser db' (upsert_id d) = Some u /\ user_id u = upsert_id d
  /\ user_role u = match upsert_role d with
                   | Some r => r
                   | None => match getUser db (upsert_id d) with
                             | Some old => user_role old
                             | None => "worker"
                             end
                   end
  /\ (forall x, x <> upsert_id d -> getUser db' x = getUser db x).
Proof.
  intros db d u db'. subst u db'. unfold upsertUser.
  destruct (getUser db (upsert_id d)) as [old|] eqn:E; cbn [fst snd].
  - assert (Hid : user_id old = upsert_id d).
    { unfold getUser in E. apply find_some in E as [_ E]. now apply String.eqb_eq. }
    split; [|split; [exact Hid|split; [reflexivity|]]].
    + unfold getUser, with_users. cbn [db_users]. rewrite find_map_same.
      * unfold getUser in E. rewrite E. cbn [option_map]. now rewrite Hid, String.eqb_refl.
      * intros a. cbv beta. destruct (String.eqb (user_id a) (upsert_id d)) eqn:Ea;
          [|exact Ea]. cbn [user_id]. rewrite Hid, String.eqb_refl. reflexivity.
    + intros x Hx. unfold getUser, with_users. cbn [db_users]. rewrite find_map_same.
      * destruct (find _ (db_users db)) as [y|] eqn:Ey; [|reflexivity]. cbn [option_map].
        apply find_some in Ey as [_ Ey]. apply String.eqb_eq in Ey. subst x.
        rewrite (proj2 (String.eqb_neq _ _) Hx). reflexivity.
      * intros a. cbv beta. destruct (String.eqb (user_id a) (upsert_id d)) eqn:Ea;
          [|reflexivity]. cbn [user_id]. apply String.eqb_eq in Ea. now rewrite Hid, Ea.
  - split; [|split; [reflexivity|split; [reflexivity|]]].
    + unfold getUser, with_users in *. cbn [db_users]. rewrite find_app, E.
      cbn. now rewrite String.eqb_refl.
    + intros x Hx. unfold getUser, with_users. cbn [db_users]. rewrite find_app.
      destruct (find _ (db_users db)); [reflexivity|]. cbn.
      now rewrite (proj2 (String.eqb_neq _ _) (not_eq_sym Hx)).
Qed.

(** X16: GET /api/jobs/:id answers 404 when the job does not exist, and
    answers a job exactly when it is the stored job and the caller is its
    manager or its worker, whatever the caller's role. *)
Theorem jobs_get_id_access : forall db u jid,
  (getJob db jid = None -> jobs_get_id u jid db = reply_error 404 "Job not found")
  /\ (forall j, jobs_get_id u jid db = reply_job j <->
        getJob db jid = Some j /\ (job_managerId j = u \/ job_workerId j = u)).
Proof.
  intros db u jid. unfold jobs_get_id. split.
  - intros ->. reflexivity.
  - intros j. destruct (getJob db jid) as [job|].
    2: split; [discriminate|intros [H _]; discriminate].
    split.
    + destruct (negb (String.eqb (job_managerId job) u)
                && negb (String.eqb (job_workerId job) u)) eqn:E; [discriminate|].
      intros H. injection H as <-. split; [reflexivity|].
      apply andb_false_iff in E as [E|E]; apply negb_false_iff, String.eqb_eq in E; auto.
    + intros [H Ho]. injection H as <-.
      destruct Ho as [Ho|Ho]; rewrite Ho, String.eqb_refl; [reflexivity|].
      now rewrite andb_false_r.
Qed.

(** X17: in the earlier review handler, a valid manager review of an existing
    upload writes the review's status verbatim to the upload's step and to no
    other step; the jobs change only for an approval of an existing step, and
    then every step of that job is approved and only that job is set to
    completed. *)
Theorem reviews_post_v1_effect : forall db u b v up,
  lacks_role db u "manager" = false -> validate_review b = Some v ->
  getUpload db (ri_uploadId v) = Some up ->
  let db' := snd (reviews_post_v1 u b db) in
  db_steps db' = map (set_step_status (upload_stepId up) (ri_status v)) (db_steps db)
  /\ (db_jobs db' = db_jobs db
      \/ (ri_status v = "approved" /\
          exists st, getStep db (upload_stepId up) = Some st /\
            (forall s, In s (db_steps db') -> step_jobId s = step_jobId st ->
                       step_status s = "approved") /\
            db_jobs db' = map (set_job_status (step_jobId st) "completed") (db_jobs db))).
Proof.
  intros db u b v up Hrole Hv Hu db'. subst db'.
  unfold reviews_post_v1. rewrite Hrole, Hv.
  unfold createReview. cbv zeta.
  change (getUpload (mkDB (db_users db) (db_jobs db) (db_steps db) (db_uploads db)
            (db_reviews db ++ [mkReview (seq_reviews db) (ri_uploadId v) u (ri_status v)
                                        (ri_feedback v)])
            (seq_jobs db) (seq_steps db) (seq_uploads db) (seq_reviews db + 1))
            (ri_uploadId v)) with (getUpload db (ri_uploadId v)).
  rewrite Hu.
  set (d1 := mkDB (db_users db) (db_jobs db) (db_steps db) (db_uploads db)
            (db_reviews db ++ [mkReview (seq_reviews db) (ri_uploadId v) u (ri_status v)
                                        (ri_feedback v)])
            (seq_jobs db) (seq_steps db) (seq_uploads db) (seq_reviews db + 1)).
  set (sid := upload_stepId up).
  set (d2 := updateStepStatus d1 sid (ri_status v)).
  assert (Hs2 : db_steps d2 = map (set_step_status sid (ri_status v)) (db_steps db))
    by reflexivity.
  destruct (String.eqb (ri_status v) "approved") eqn:Ea; cbn [snd]; [|split; [exact Hs2|now left]].
  destruct (getStep d2 sid) as [st2|] eqn:Eg; cbn [snd]; [|split; [exact Hs2|now left]].
  subst d2. rewrite getStep_updateStepStatus in Eg.
  destruct (getStep d1 sid) as [st|] eqn:Eg1; [|discriminate]. cbn [option_map] in Eg.
  injection Eg as <-. rewrite set_step_status_jobId.
  destruct (forallb _ _) eqn:Ef; cbn [snd]; [|split; [exact Hs2|now left]].
  split; [exact Hs2|]. right. split; [now apply String.eqb_eq|].
  exists st. split; [exact Eg1|]. split; [|reflexivity].
  intros s Hs Hj. cbn [db_steps updateJobStatus] in Hs.
  rewrite forallb_forall in Ef. apply String.eqb_eq. apply Ef.
  unfold getStepsByJob. apply In_sort_by_order. apply filter_In. split.
  - exact Hs.
  - now apply Z.eqb_eq.
Qed.

(** X18: GET /api/jobs answers 404 for an unknown caller; otherwise it lists
    exactly the jobs the caller manages when the caller's role is manager,
    and exactly the jobs assigned to the caller for any other role. *)
Theorem jobs_get_visibility : forall db u,
  (getUser db u = None -> jobs_get u db = reply_error 404 "User not found")
  /\ (forall js, jobs_get u db = reply_jobs js ->
        exists user, getUser db u = Some user /\
          forall j, In j js <->
            In j (db_jobs db) /\
            ((user_role user = "manager" /\ job_managerId j = u)
             \/ (user_role user <> "manager" /\ job_workerId j = u))).
Proof.
  intros db u. unfold jobs_get. split.
  - intros ->. reflexivity.
  - intros js H. destruct (getUser db u) as [user|]; [|discriminate].
    exists user. split; [reflexivity|]. intros j.
    destruct (String.eqb (user_role user) "manager") eqn:Er; injection H as <-;
      unfold getJobsByManager, getJobsByWorker; rewrite <- in_rev, filter_In,
      String.eqb_eq.
    + apply String.eqb_eq in Er. split.
      * intros [Hj E]. split; [exact Hj|]. now left.
      * intros [Hj [[_ E]|[N _]]]; [now split|contradiction].
    + apply String.eqb_neq in Er. split.
      * intros [Hj E]. split; [exact Hj|]. now right.
      * intros [Hj [[N _]|[_ E]]]; [contradiction|now split].
Qed.

(** X19: POST /api/jobs on a body whose step drafts all carry a title is
    the handler modelled by [jobs_post].  When a manager's body passes the
    route's checks but the draft at position k has no title (every earlier
    draft has one), the route answers 500, yet the job row and the k steps
    before that draft stay inserted. *)
Theorem jobs_post_raw_partial_commit : forall db u,
  (forall b, jobs_post_raw u (raw_of_body b) db = jobs_post u b db) /\
  (forall b title workerId drafts k d,
     lacks_role db u "manager" = false ->
     rjb_title b = Some title -> title <> "" ->
     rjb_workerId b = Some workerId -> workerId <> "" ->
     rjb_steps b = Some drafts ->
     nth_error drafts k = Some d -> raw_title d = None ->
     (forall j d', (j < k)%nat -> nth_error drafts j = Some d' -> raw_title d' <> None) ->
     fst (jobs_post_raw u b db) = error 500 "Failed to create job" /\
     db_jobs (snd (jobs_post_raw u b db)) =
       db_jobs db ++ [mkJob (seq_jobs db) title (rjb_description b) u workerId "in_progress"] /\
     exists added, db_steps (snd (jobs_post_raw u b db)) = db_steps db ++ added /\
       List.length added = k /\ Forall (fun s => step_jobId s = seq_jobs db) added).
Proof.
  intros db u. split.
  - intros b. unfold jobs_post_raw, jobs_post, raw_of_body.
    cbn [rjb_title rjb_description rjb_workerId rjb_steps].
    destruct (lacks_role db u "manager"); [reflexivity|].
    destruct (jb_steps b) as [ds|]; [|reflexivity]. cbn [option_map].
    rewrite length_map.
    destruct (_ || _ || _); [reflexivity|].
    destruct (createJob _ _ _ _ _ _) as [job d1].
    rewrite create_steps_raw_titled. reflexivity.
  - intros b title workerId drafts k d Hrole Ht Htne Hw Hwne Hs Hk Hd Hbefore.
    unfold jobs_post_raw. rewrite Hrole, Hs, Ht, Hw.
    cbn [falsy_str]. rewrite (proj2 (String.eqb_neq _ _) Htne),
                             (proj2 (String.eqb_neq _ _) Hwne).
    destruct drafts as [|d0 rest]; [destruct k; discriminate|].
    cbn [orb List.length Nat.eqb]. unfold createJob. cbv zeta.
    match goal with |- context [create_steps_raw ?jid 0 ?ds ?d1] =>
      destruct (create_steps_raw_fail ds k d jid 0 d1 Hk Hd Hbefore)
        as (H1 & H2 & added & H3 & H4 & H5);
      destruct (create_steps_raw jid 0 ds d1) as [d2 th]
    end.
    cbn [fst snd] in H1, H2, H3 |- *. subst th.
    split; [reflexivity|]. split; [exact H2|].
    exists added. split; [exact H3|]. split; [exact H4|]. exact H5.
Qed.

(** ** Witnesses of the further properties *)

(** X3 applied to the deletion of step 2 after step 1 has been approved. *)
Lemma handlers_preserve_ids_ok_witness :
  ids_ok db_step1_approved = true /\
  ids_ok (snd (steps_delete "m" 2 db_step1_approved)) = true.
Proof.
  assert (H : ids_ok db_step1_approved = true) by (vm_compute; reflexivity).
  split; [exact H|].
  destruct (handlers_preserve_ids_ok db_step1_approved "m" H)
    as (_ & _ & _ & _ & _ & _ & Hd & _).
  exact (Hd 2).
Defined.

(** X4 applied to the deletion of a job that does not exist. *)
Lemma handler_errors_leave_db_unchanged_witness :
  fst (jobs_delete "m" 5 db_step1_approved) = reply_error 404 "Job not found" /\
  snd (jobs_delete "m" 5 db_step1_approved) = db_step1_approved.
Proof.
  assert (H : fst (jobs_delete "m" 5 db_step1_approved) = reply_error 404 "Job not found")
    by (vm_compute; reflexivity).
  split; [exact H|].
  destruct (handler_errors_leave_db_unchanged db_step1_approved "m")
    as (_ & _ & _ & _ & _ & _ & Hj & _).
  exact (Hj 5 404 "Job not found" H).
Defined.

(** X5 applied to a review of upload 1 with status pending, whose body names
    "w" as the manager. *)
Lemma reviews_post_review_only_witness :
  let b := mkReviewBody (Some 1) (Some "w") (Some "pending") None in
  let r := mkReview (seq_reviews (db_uploaded 1)) 1 "m" "pending" None in
  reviews_post "m" b (db_uploaded 1) =
    (json_review r, mkDB (db_users (db_uploaded 1)) (db_jobs (db_uploaded 1))
                         (db_steps (db_uploaded 1)) (db_uploads (db_uploaded 1))
                         (db_reviews (db_uploaded 1) ++ [r]) (seq_jobs (db_uploaded 1))
                         (seq_steps (db_uploaded 1)) (seq_uploads (db_uploaded 1))
                         (seq_reviews (db_uploaded 1) + 1)).
Proof.
  pose proof (reviews_post_review_only (db_uploaded 1) "m"
                (mkReviewBody (Some 1) (Some "w") (Some "pending") None)
                (mkReviewInput 1 "w" "pending" None) eq_refl eq_refl) as H.
  apply H. right. split; discriminate.
Defined.

(** X6 applied to the creation of a two-step job on the empty database. *)
Lemma jobs_post_returns_created_job_witness :
  fst (jobs_post "m" (job_body 2) db0) = json_job (Some (mkJob 1 "Roof" None "m" "w" "in_progress")).
Proof.
  exact (jobs_post_returns_created_job db0 "m" (job_body 2) "Roof" "w" [draft "A"; draft "B"]
           eq_refl eq_refl eq_refl ltac:(discriminate) eq_refl ltac:(discriminate) eq_refl
           ltac:(discriminate)).
Defined.

(** X7 applied to the first upload to step 1 of a two-step job. *)
Lemma uploads_post_stores_upload_witness :
  getUpload (db_uploaded 2) 1 = Some upload1 /\
  getStep (db_uploaded 2) 1 =
    Some (set_step_status 1 "awaiting_review" (mkStep 1 1 "A" None None 1 "awaiting_upload")).
Proof.
  destruct (uploads_post_stores_upload (db_created 2) "w" (upload_to 1) upload1
              eq_refl eq_refl) as (Hg & _ & st & Hst & Hs).
  split; [exact Hg|].
  assert (E : st = mkStep 1 1 "A" None None 1 "awaiting_upload").
  { vm_compute in Hst. injection Hst as <-. reflexivity. }
  rewrite <- E. exact Hs.
Defined.

(** X8 applied to a step for job 7, which does not exist. *)
Lemma steps_post_creates_step_witness :
  getJob db0 7 = None /\
  steps_post "m" (mkStepBody (Some 7) (Some "Extra") None None (Some 1) None) db0 =
    (reply_step (mkStep 1 7 "Extra" None None 1 "pending"),
     mkDB (db_users db0) [] [mkStep 1 7 "Extra" None None 1 "pending"] [] [] 1 2 1 1).
Proof.
  split; [reflexivity|].
  exact (proj1 (steps_post_creates_step db0 "m"
                  (mkStepBody (Some 7) (Some "Extra") None None (Some 1) None) eq_refl)
           7 "Extra" 1 eq_refl eq_refl eq_refl).
Defined.

(** X9 applied to the deletion of job 1 after step 1 has been approved. *)
Lemma deleteJob_spec_witness :
  refs_ok (deleteJob db_step1_approved 1) = true.
Proof.
  destruct (deleteJob_spec db_step1_approved 1) as (_ & _ & _ & _ & _ & H).
  apply H. vm_compute. reflexivity.
Defined.

(** X10 applied to the deletion of the approved step 1. *)
Lemma deleteStep_spec_witness :
  refs_ok (deleteStep db_step1_approved 1) = true.
Proof.
  destruct (deleteStep_spec db_step1_approved 1) as (_ & _ & _ & _ & _ & H).
  apply H. vm_compute. reflexivity.
Defined.

(** X11 applied to an upload to step 2 after step 1 has been approved. *)
Lemma handlers_preserve_refs_ok_witness :
  refs_ok (snd (uploads_post "w" (upload_to 2) db_step1_approved)) = true.
Proof.
  assert (H : refs_ok db_step1_approved = true) by (vm_compute; reflexivity).
  destruct (handlers_preserve_refs_ok db_step1_approved "w" H) as (_ & Hu & _).
  exact (Hu (upload_to 2)).
Defined.

(** X12 applied to the owner deleting job 1 and to "w" trying to. *)
Lemma jobs_delete_access_witness :
  jobs_delete "m" 1 db_step1_approved =
    (reply_message "Job deleted successfully", deleteJob db_step1_approved 1) /\
  exists c msg, jobs_delete "w" 1 db_step1_approved = (reply_error c msg, db_step1_approved).
Proof.
  destruct (jobs_delete_access db_step1_approved "m" 1) as [H1 _].
  destruct (jobs_delete_access db_step1_approved "w" 1) as [_ H2].
  split.
  - apply H1.
    + exists (mkUser "m" "manager"). split; reflexivity.
    + exists (mkJob 1 "Roof" None "m" "w" "in_progress"). split; [vm_compute|]; reflexivity.
  - apply H2. intros [(m & Hm & Hr) _]. vm_compute in Hm. injection Hm as <-.
    discriminate.
Defined.

(** X13 applied to the owner deleting step 2 and to "w" trying to. *)
Lemma steps_delete_access_witness :
  steps_delete "m" 2 db_step1_approved =
    (reply_message "Step deleted successfully", deleteStep db_step1_approved 2) /\
  exists c msg, steps_delete "w" 2 db_step1_approved = (reply_error c msg, db_step1_approved).
Proof.
  destruct (steps_delete_access db_step1_approved "m" 2) as [H1 _].
  destruct (steps_delete_access db_step1_approved "w" 2) as [_ H2].
  split.
  - apply H1.
    + exists (mkUser "m" "manager"). split; reflexivity.
    + exists (mkStep 2 1 "B" None None 2 "awaiting_upload"),
        (mkJob 1 "Roof" None "m" "w" "in_progress").
      split; [vm_compute; reflexivity|]. split; [vm_compute|]; reflexivity.
  - apply H2. intros [(m & Hm & Hr) _]. vm_compute in Hm. injection Hm as <-.
    discriminate.
Defined.

(** X14 applied to the promotion of worker "w2" to manager. *)
Lemma users_role_patch_spec_witness :
  users_role_patch "m" "w2" (Some "manager") db0 =
    (reply_message "User role updated successfully", updateUserRole db0 "w2" "manager") /\
  getUser (updateUserRole db0 "w2" "manager") "w2" = Some (mkUser "w2" "manager") /\
  roles_ok (updateUserRole db0 "w2" "manager") = true.
Proof.
  destruct (users_role_patch_spec db0 "m" "w2" "manager" eq_refl (or_introl eq_refl))
    as (H1 & H2 & H3).
  split; [exact H1|]. split; [rewrite H2; reflexivity|]. apply H3. reflexivity.
Defined.

(** X15 applied to the first login of a new user "n" (no role given). *)
Lemma upsertUser_roundtrip_witness :
  getUser (snd (upsertUser db0 (mkUpsertUser "n" None))) "n" = Some (mkUser "n" "worker") /\
  getUser (snd (upsertUser db0 (mkUpsertUser "n" None))) "w" = getUser db0 "w".
Proof.
  destruct (upsertUser_roundtrip db0 (mkUpsertUser "n" None)) as (H1 & _ & _ & H4).
  split; [exact H1|]. apply H4. discriminate.
Defined.

(** X16 applied to worker "w" reading job 1. *)
Lemma jobs_get_id_access_witness :
  jobs_get_id "w" 1 (db_created 1) = reply_job (mkJob 1 "Roof" None "m" "w" "in_progress").
Proof.
  apply (proj2 (jobs_get_id_access (db_created 1) "w" 1)). split.
  - vm_compute. reflexivity.
  - right. reflexivity.
Defined.

(** X17 applied to the approval of the only step of a one-step job. *)
Lemma reviews_post_v1_effect_witness :
  db_steps (snd (reviews_post_v1 "m" (approve 1) (db_uploaded 1))) =
    map (set_step_status 1 "approved") (db_steps (db_uploaded 1)).
Proof.
  exact (proj1 (reviews_post_v1_effect (db_uploaded 1) "m" (approve 1)
                  (mkReviewInput 1 "m" "approved" None) upload1 eq_refl eq_refl eq_refl)).
Defined.

(** X18 applied to worker "w" listing the jobs after one job was created. *)
Lemma jobs_get_visibility_witness :
  exists user, getUser (db_created 1) "w" = Some user /\
    (forall j, In j (getJobsByWorker (db_created 1) "w") <->
       In j (db_jobs (db_created 1)) /\
       ((user_role user = "manager" /\ job_managerId j = "w")
        \/ (user_role user <> "manager" /\ job_workerId j = "w"))).
Proof.
  apply (proj2 (jobs_get_visibility (db_created 1) "w")). vm_compute. reflexivity.
Defined.

(** X19 applied to a job body whose second step draft has no title: the
    route answers 500 and the job row stays. *)
Lemma jobs_post_raw_partial_commit_witness :
  fst (jobs_post_raw "m" raw_body_untitled db0) = error 500 "Failed to create job" /\
  db_jobs (snd (jobs_post_raw "m" raw_body_untitled db0)) =
    [mkJob 1 "Roof" None "m" "w" "in_progress"].
Proof.
  destruct (proj2 (jobs_post_raw_partial_commit db0 "m") raw_body_untitled "Roof" "w"
              [mkRawDraft (Some "A") None None; mkRawDraft None None None] 1%nat
              (mkRawDraft None None None)) as (H1 & H2 & _).
  - reflexivity.
  - reflexivity.
  - discriminate.
  - reflexivity.
  - discriminate.
  - reflexivity.
  - reflexivity.
  - reflexivity.
  - intros j d' Hj Hn. destruct j as [|j]; [|lia].
    injection Hn as <-. discriminate.
  - split; [exact H1|]. rewrite H2. reflexivity.
Defined.
